(** * python-vlc binding generator: a shallow embedding of [generate.py]

    The development follows the source file top-down: the Python string
    primitives the generator relies on, the backtracking regular
    expressions it compiles, the [Parser] class, the direction table
    [paramFlag3], and the [PythonGenerator] / [JavaGenerator] classes with
    the shared parser state they read and mutate. *)

From Stdlib Require Import Ascii String ZArith Lia Bool.
From stdpp Require Import base option list gmap strings pretty sorting.

Local Open Scope string_scope.
Local Open Scope list_scope.

(** ** Python [str] primitives *)

Module PyStr.

Definition nl : string := String "010"%char "".
Definition dq : string := String (ascii_of_nat 34) "".

(** [str.isspace] on one byte (C locale): space, \t, \n, \v, \f, \r. *)
Definition is_space (c : ascii) : bool :=
  let n := nat_of_ascii c in
  (n =? 32)%nat || ((9 <=? n)%nat && (n <=? 13)%nat).

Definition is_digit (c : ascii) : bool :=
  let n := nat_of_ascii c in (48 <=? n)%nat && (n <=? 57)%nat.

Definition is_upper (c : ascii) : bool :=
  let n := nat_of_ascii c in (65 <=? n)%nat && (n <=? 90)%nat.

Definition is_lower (c : ascii) : bool :=
  let n := nat_of_ascii c in (97 <=? n)%nat && (n <=? 122)%nat.

Definition is_alpha (c : ascii) : bool := is_upper c || is_lower c.

Definition to_upper (c : ascii) : ascii :=
  if is_lower c then ascii_of_nat (nat_of_ascii c - 32) else c.

Definition to_lower (c : ascii) : ascii :=
  if is_upper c then ascii_of_nat (nat_of_ascii c + 32) else c.

Fixpoint map (f : ascii -> ascii) (s : string) : string :=
  match s with
  | EmptyString => EmptyString
  | String c s' => String (f c) (map f s')
  end.

Fixpoint rev_onto (s acc : string) : string :=
  match s with
  | EmptyString => acc
  | String c s' => rev_onto s' (String c acc)
  end.

Definition rev (s : string) : string := rev_onto s "".

(** [s[n:]] for [0 <= n]. *)
Fixpoint drop (n : nat) (s : string) : string :=
  match n, s with
  | O, _ => s
  | S n', String _ s' => drop n' s'
  | S _, EmptyString => EmptyString
  end.

(** [s[:n]] for [0 <= n]. *)
Fixpoint take (n : nat) (s : string) : string :=
  match n, s with
  | S n', String c s' => String c (take n' s')
  | _, _ => EmptyString
  end.

(** [s[a:b]] for [0 <= a <= b]. *)
Definition slice (a b : nat) (s : string) : string := take (b - a) (drop a s).

(** [s[:-n]] *)
Definition drop_end (n : nat) (s : string) : string :=
  take (String.length s - n) s.

Fixpoint startswith (p s : string) : bool :=
  match p, s with
  | EmptyString, _ => true
  | String a p', String b s' => Ascii.eqb a b && startswith p' s'
  | String _ _, EmptyString => false
  end.

Definition endswith (p s : string) : bool := startswith (rev p) (rev s).

(** [s.find(sub)]: index of the first occurrence. *)
Fixpoint find (sub s : string) : option nat :=
  if startswith sub s then Some O
  else match s with
       | EmptyString => None
       | String _ s' => S <$> find sub s'
       end.

(** [sub in s] *)
Definition contains (sub s : string) : bool := bool_decide (is_Some (find sub s)).

Fixpoint lstrip (s : string) : string :=
  match s with
  | String c s' => if is_space c then lstrip s' else s
  | EmptyString => EmptyString
  end.

Definition rstrip (s : string) : string := rev (lstrip (rev s)).
Definition strip (s : string) : string := rstrip (lstrip s).

Fixpoint mem (c : ascii) (set : string) : bool :=
  match set with
  | EmptyString => false
  | String a set' => Ascii.eqb a c || mem c set'
  end.

(** [s.lstrip(chars)], [s.rstrip(chars)], [s.strip(chars)] *)
Fixpoint lstrip_chars (set s : string) : string :=
  match s with
  | String c s' => if mem c set then lstrip_chars set s' else s
  | EmptyString => EmptyString
  end.

Definition rstrip_chars (set s : string) : string :=
  rev (lstrip_chars set (rev s)).
Definition strip_chars (set s : string) : string :=
  rstrip_chars set (lstrip_chars set s).

(** [s.replace(old, new)]: for a non-empty [old], occurrences are
    replaced left to right without overlap.  [skip] counts the bytes of
    a match that are still to be passed over. *)
Fixpoint replace_from (old new s : string) (skip : nat) : string :=
  match skip with
  | S k =>
      match s with
      | String _ s' => replace_from old new s' k
      | EmptyString => EmptyString
      end
  | O =>
      match s with
      | EmptyString => EmptyString
      | String c s' =>
          if startswith old s
          then new ++ replace_from old new s' (String.length old - 1)
          else String c (replace_from old new s' O)
      end
  end.

(** With an empty [old], Python puts [new] before every byte and at
    the end. *)
Fixpoint intersperse (new s : string) : string :=
  match s with
  | EmptyString => new
  | String c s' => new ++ String c (intersperse new s')
  end.

Definition replace (old new s : string) : string :=
  match old with
  | EmptyString => intersperse new s
  | _ => replace_from old new s O
  end.

(** [sep.join(l)] *)
Fixpoint join (sep : string) (l : list string) : string :=
  match l with
  | [] => ""
  | [x] => x
  | x :: l' => x ++ sep ++ join sep l'
  end.

(** [s.split(sep)] for a one-byte separator; [cur] is the piece being
    read, reversed. *)
Fixpoint split_on (sep : ascii) (s cur : string) : list string :=
  match s with
  | EmptyString => [rev cur]
  | String c s' =>
      if Ascii.eqb c sep then rev cur :: split_on sep s' ""
      else split_on sep s' (String c cur)
  end.

Definition split (sep : ascii) (s : string) : list string := split_on sep s "".

(** [s.splitlines()], line breaks being \n here (\r does not occur in
    the stripped comments this is applied to; it is treated as a break
    too, as Python does, a following \n belonging to the same break). *)
Fixpoint splitlines_on (s cur : string) : list string :=
  match s with
  | EmptyString => match cur with EmptyString => [] | _ => [rev cur] end
  | String c s' =>
      if Ascii.eqb c "010"%char then rev cur :: splitlines_on s' ""
      else if Ascii.eqb c "013"%char then
        match s' with
        | String d s'' =>
            if Ascii.eqb d "010"%char then rev cur :: splitlines_on s'' ""
            else rev cur :: splitlines_on s' ""
        | EmptyString => [rev cur]
        end
      else splitlines_on s' (String c cur)
  end.

Definition splitlines (s : string) : list string := splitlines_on s "".

(** [s.capitalize()]: first byte upper-cased, the rest lower-cased. *)
Definition capitalize (s : string) : string :=
  match s with
  | EmptyString => EmptyString
  | String c s' => String (to_upper c) (map to_lower s')
  end.

(** [s.title()]: a cased byte is upper-cased when the previous byte is
    not cased, lower-cased otherwise. *)
Fixpoint title_from (prev_cased : bool) (s : string) : string :=
  match s with
  | EmptyString => EmptyString
  | String c s' =>
      if is_alpha c then
        String (if prev_cased then to_lower c else to_upper c) (title_from true s')
      else String c (title_from false s')
  end.

Definition title (s : string) : string := title_from false s.

(** [s[-1]] *)
Fixpoint last_char (s : string) : option ascii :=
  match s with
  | EmptyString => None
  | String c EmptyString => Some c
  | String _ s' => last_char s'
  end.

End PyStr.

(** ** Python integer conversions *)

Module PyInt.

(** Value of one digit in the given base, as [_PyLong_DigitValue]. *)
Definition digit_value (c : ascii) : option Z :=
  let n := Z.of_nat (nat_of_ascii c) in
  if PyStr.is_digit c then Some (n - 48)%Z
  else if PyStr.is_lower c then Some (n - 97 + 10)%Z
  else if PyStr.is_upper c then Some (n - 65 + 10)%Z
  else None.

(** A non-empty run of digits of base [base], read left to right. *)
Fixpoint digits_from (base : Z) (s : string) (acc : Z) : option Z :=
  match s with
  | EmptyString => Some acc
  | String c s' =>
      match digit_value c with
      | Some d => if (d <? base)%Z then digits_from base s' (base * acc + d)%Z else None
      | None => None
      end
  end.

Definition digits (base : Z) (s : string) : option Z :=
  match s with
  | EmptyString => None
  | _ => digits_from base s 0%Z
  end.

Definition signed (base : Z) (s : string) : option Z :=
  match s with
  | String "-"%char s' => Z.opp <$> digits base s'
  | String "+"%char s' => digits base s'
  | _ => digits base s
  end.

(** [int(v)]: surrounding whitespace, an optional sign, decimal digits;
    [None] stands for the [ValueError] Python raises otherwise. *)
Definition int10 (v : string) : option Z := signed 10 (PyStr.strip v).

(** [int(v, 16)]: as [int10] in base 16, with an optional [0x] / [0X]
    prefix after the sign. *)
Definition strip_0x (s : string) : string :=
  if PyStr.startswith "0x" s || PyStr.startswith "0X" s then PyStr.drop 2 s else s.

Definition int16 (v : string) : option Z :=
  match PyStr.strip v with
  | String "-"%char s' => Z.opp <$> digits 16 (strip_0x s')
  | String "+"%char s' => digits 16 (strip_0x s')
  | s => digits 16 (strip_0x s)
  end.

(** [str(val)] and ["%d" % i] *)
Definition str (z : Z) : string := pretty z.
Definition fmt_d (i : nat) : string := pretty i.

End PyInt.

(** ** Regular expressions

    The patterns compiled at the top of [generate.py] only repeat single
    character classes, so the abstract syntax has a repetition node over a
    class, with a lower bound and a greedy / lazy flag.  Matching is the
    backtracking search of Python's [re]: alternatives are tried in order,
    a greedy repetition tries the longest run first, a lazy one the
    shortest, and the first complete match wins. *)

Module Re.

Inductive cclass : Type :=
| Dot                    (* .  : any byte but \n *)
| Space                  (* \s *)
| NonSpace               (* \S *)
| Word                   (* \w *)
| Chr (c : ascii).

Definition cmatch (cl : cclass) (a : ascii) : bool :=
  match cl with
  | Dot => negb (Ascii.eqb a "010"%char)
  | Space => PyStr.is_space a
  | NonSpace => negb (PyStr.is_space a)
  | Word => PyStr.is_alpha a || PyStr.is_digit a || Ascii.eqb a "_"%char
  | Chr c => Ascii.eqb a c
  end.

Inductive regex : Type :=
| Lit (s : string)
| Rep (cl : cclass) (lo : nat) (greedy : bool)
| Seq (r1 r2 : regex)
| Alt (r1 r2 : regex)
| Opt (r : regex)                 (* greedy r? *)
| Group (i : nat) (r : regex)     (* i-th capturing group *)
| Bos                             (* ^ *)
| Eos.                            (* $ *)

(** Captured spans, most recent binding first. *)
Definition caps : Type := list (nat * (nat * nat)).

Fixpoint span (i : nat) (c : caps) : option (nat * nat) :=
  match c with
  | [] => None
  | (j, sp) :: c' => if (i =? j)%nat then Some sp else span i c'
  end.

Section Matcher.
Context {A : Type}.

Fixpoint lit (p : string) (pos : nat) (s : string)
    (k : nat -> string -> option A) : option A :=
  match p with
  | EmptyString => k pos s
  | String a p' =>
      match s with
      | String b s' => if Ascii.eqb a b then lit p' (S pos) s' k else None
      | EmptyString => None
      end
  end.

Fixpoint rep_greedy (cl : cclass) (lo : nat) (pos : nat) (s : string)
    (k : nat -> string -> option A) : option A :=
  let stop := if (lo =? 0)%nat then k pos s else None in
  match s with
  | String a s' =>
      if cmatch cl a then
        match rep_greedy cl (pred lo) (S pos) s' k with
        | Some x => Some x
        | None => stop
        end
      else stop
  | EmptyString => stop
  end.

Fixpoint rep_lazy (cl : cclass) (lo : nat) (pos : nat) (s : string)
    (k : nat -> string -> option A) : option A :=
  let more :=
    match s with
    | String a s' =>
        if cmatch cl a then rep_lazy cl (pred lo) (S pos) s' k else None
    | EmptyString => None
    end in
  if (lo =? 0)%nat then
    match k pos s with
    | Some x => Some x
    | None => more
    end
  else more.

Fixpoint run (r : regex) (pos : nat) (s : string) (c : caps)
    (k : nat -> string -> caps -> option A) : option A :=
  match r with
  | Lit p => lit p pos s (fun pos' s' => k pos' s' c)
  | Rep cl lo true => rep_greedy cl lo pos s (fun pos' s' => k pos' s' c)
  | Rep cl lo false => rep_lazy cl lo pos s (fun pos' s' => k pos' s' c)
  | Seq r1 r2 => run r1 pos s c (fun pos' s' c' => run r2 pos' s' c' k)
  | Alt r1 r2 =>
      match run r1 pos s c k with
      | Some x => Some x
      | None => run r2 pos s c k
      end
  | Opt r1 =>
      match run r1 pos s c k with
      | Some x => Some x
      | None => k pos s c
      end
  | Group i r1 =>
      run r1 pos s c (fun pos' s' c' => k pos' s' ((i, (pos, pos')) :: c'))
  | Bos => if (pos =? 0)%nat then k pos s c else None
  | Eos =>
      match s with
      | EmptyString => k pos s c
      | String "010"%char EmptyString => k pos s c
      | _ => None
      end
  end.
End Matcher.

(** One match: where it starts, where it ends, what it captured. *)
Record mtch : Type := Mtch { m_start : nat; m_end : nat; m_caps : caps }.

(** The match anchored at offset [pos], [s] being the subject from there. *)
Definition at_pos (r : regex) (pos : nat) (s : string) : option mtch :=
  run r pos s [] (fun e _ c => Some (Mtch pos e c)).

(** [r.match(s)] *)
Definition match_ (r : regex) (s : string) : option mtch := at_pos r 0 s.

(** [r.search(s)]: the leftmost match. *)
Fixpoint search_from (r : regex) (pos : nat) (s : string) : option mtch :=
  match at_pos r pos s with
  | Some m => Some m
  | None =>
      match s with
      | String _ s' => search_from r (S pos) s'
      | EmptyString => None
      end
  end.

Definition search (r : regex) (s : string) : option mtch := search_from r 0 s.

(** All matches left to right without overlap, as the scanner behind
    [findall], [split] and [sub] yields them; [skip] counts the bytes of
    the last match still to be passed over. *)
Fixpoint scan_from (r : regex) (pos : nat) (s : string) (skip : nat) : list mtch :=
  match skip with
  | S n =>
      match s with
      | String _ s' => scan_from r (S pos) s' n
      | EmptyString => []
      end
  | O =>
      match at_pos r pos s with
      | Some m =>
          m :: match s with
               | String _ s' => scan_from r (S pos) s' (m_end m - pos - 1)
               | EmptyString => []
               end
      | None =>
          match s with
          | String _ s' => scan_from r (S pos) s' O
          | EmptyString => []
          end
      end
  end.

Definition scan (r : regex) (s : string) : list mtch := scan_from r 0 s 0.

(** [m.group(i)] on subject [s]; [None] when the group took no part. *)
Definition group (s : string) (m : mtch) (i : nat) : option string :=
  match i with
  | O => Some (PyStr.slice (m_start m) (m_end m) s)
  | _ => (fun sp => PyStr.slice (fst sp) (snd sp) s) <$> span i (m_caps m)
  end.

(** [r.findall(s)] for a pattern with exactly one group; Python gives the
    empty string for a group that took no part. *)
Definition findall1 (r : regex) (s : string) : list string :=
  List.map (fun m => default "" (group s m 1)) (scan r s).

(** [r.findall(s)] for a pattern with two groups. *)
Definition findall2 (r : regex) (s : string) : list (string * string) :=
  List.map (fun m => (default "" (group s m 1), default "" (group s m 2))) (scan r s).

(** [r.split(s)] for a pattern without groups: the text between the
    non-empty matches (an empty match does not split). *)
Fixpoint split_at (s : string) (last : nat) (ms : list mtch) : list string :=
  match ms with
  | [] => [PyStr.drop last s]
  | m :: ms' =>
      if (m_start m =? m_end m)%nat then split_at s last ms'
      else PyStr.slice last (m_start m) s :: split_at s (m_end m) ms'
  end.

Definition split (r : regex) (s : string) : list string := split_at s 0 (scan r s).

(** [r.sub(repl, s)] where [repl m] is the expanded template; the
    patterns it is used with never match the empty string. *)
Fixpoint sub_at (repl : mtch -> string) (s : string) (last : nat)
    (ms : list mtch) : string :=
  match ms with
  | [] => PyStr.drop last s
  | m :: ms' =>
      PyStr.slice last (m_start m) s ++ repl m ++ sub_at repl s (m_end m) ms'
  end.

Definition sub (r : regex) (repl : string -> mtch -> string) (s : string) : string :=
  sub_at (repl s) s 0 (scan r s).

(** Concatenation of a sequence of patterns, and the usual
    abbreviations. *)
Fixpoint cat (rs : list regex) : regex :=
  match rs with
  | [] => Lit ""
  | [r] => r
  | r :: rs' => Seq r (cat rs')
  end.

Definition star (cl : cclass) : regex := Rep cl 0 true.
Definition plus (cl : cclass) : regex := Rep cl 1 true.
Definition plus_lazy (cl : cclass) : regex := Rep cl 1 false.

End Re.

(** ** Exceptions

    A computation either returns or raises; the exceptions are the ones
    [generate.py] raises itself ([Exception] with a message) and the
    built-in ones its expressions can raise. *)

Inductive exn : Type :=
| Exception (msg : string)
| ValueError
| IndexError
| KeyError (key : string)
| AttributeError.

Inductive result (A : Type) : Type :=
| Ok (a : A)
| Raise (e : exn).

Arguments Ok {A} a.
Arguments Raise {A} e.

#[global] Instance result_ret : MRet result := fun _ a => Ok a.
#[global] Instance result_bind : MBind result := fun _ _ f m =>
  match m with
  | Ok a => f a
  | Raise e => Raise e
  end.
#[global] Instance result_fmap : FMap result := fun _ _ f m =>
  match m with
  | Ok a => Ok (f a)
  | Raise e => Raise e
  end.

(** An optional value that must be present, raising [e] otherwise. *)
Definition must {A : Type} (e : exn) (o : option A) : result A :=
  match o with
  | Some a => Ok a
  | None => Raise e
  end.

(** [mapM] over a list, left to right, stopping at the first exception. *)
Fixpoint traverse {A B : Type} (f : A -> result B) (l : list A) : result (list B) :=
  match l with
  | [] => Ok []
  | a :: l' => b ← f a; bs ← traverse f l'; Ok (b :: bs)
  end.

(** ** Module-level constants of [generate.py] *)

(** Methods not decorated/not referenced *)
Definition blacklist : list string :=
  [ "libvlc_set_exit_handler";
    "libvlc_video_set_callbacks" ].

Section Patterns.
Import Re.

(** "VLC_PUBLIC_API\s+(\S+\s+.+?)\s*\(\s*(.+?)\s*\)" *)
Definition api_re : regex :=
  cat [ Lit "VLC_PUBLIC_API"; plus Space;
        Group 1 (cat [plus NonSpace; plus Space; plus_lazy Dot]);
        star Space; Lit "("; star Space;
        Group 2 (plus_lazy Dot);
        star Space; Lit ")" ].

(** [param_re]: leading "\s*"; an optional group 1, one of "const\s*",
    "unsigned\s*", "struct\s*"; group 2, the type, "\S+\s*" followed by
    a greedy run of stars; "\s+"; group 3, the name, ".+". *)
Definition param_re : regex :=
  cat [ star Space;
        Opt (Group 1 (Alt (cat [Lit "const"; star Space])
                     (Alt (cat [Lit "unsigned"; star Space])
                          (cat [Lit "struct"; star Space]))));
        Group 2 (cat [plus NonSpace; star Space; star (Chr "*")]);
        plus Space;
        Group 3 (plus Dot) ].

(** "\s*,\s*" *)
Definition paramlist_re : regex := cat [star Space; Lit ","; star Space].

(** The literal '\\param\s+(\S+)' is the pattern "\param\s+(\S+)"; [\p]
    is not an escape of [re], which reads it as the letter [p]. *)
Definition comment_re : regex :=
  cat [ Lit "param"; plus Space; Group 1 (plus NonSpace) ].

(** "(@param\s+\S+)(.+)" *)
Definition python_param_re : regex :=
  cat [ Group 1 (cat [Lit "@param"; plus Space; plus NonSpace]);
        Group 2 (plus Dot) ].

(** ".+\(\s*(.+?)\s*\)(\s*\S+)" *)
Definition forward_re : regex :=
  cat [ plus Dot; Lit "("; star Space;
        Group 1 (plus_lazy Dot);
        star Space; Lit ")";
        Group 2 (cat [star Space; plus NonSpace]) ].

(** "(?:typedef\s+)?(enum)\s*(\S+)\s*\{\s*(.+)\s*\}\s*(?:\S+)?;" *)
Definition enum_re : regex :=
  cat [ Opt (cat [Lit "typedef"; plus Space]);
        Group 1 (Lit "enum");
        star Space;
        Group 2 (plus NonSpace);
        star Space; Lit "{"; star Space;
        Group 3 (plus Dot);
        star Space; Lit "}"; star Space;
        Opt (plus NonSpace);
        Lit ";" ].

(** "^(?:typedef\s+)?enum", the test for the start of an enum. *)
Definition enum_start_re : regex :=
  cat [ Bos; Opt (cat [Lit "typedef"; plus Space]); Lit "enum" ].

(** "\s*=\s*", splitting a member from its value. *)
Definition assign_re : regex := cat [star Space; Lit "="; star Space].

(** "libvlc_(.+?)(_t)?$" and "libvlc_(.+?)(_[te])?$", the stem of an
    enum name for the Python and the Java backend. *)
Definition pyname_re : regex :=
  cat [ Lit "libvlc_"; Group 1 (plus_lazy Dot); Opt (Group 2 (Lit "_t")); Eos ].

Definition javaname_re : regex :=
  cat [ Lit "libvlc_"; Group 1 (plus_lazy Dot);
        Opt (Group 2 (Alt (Lit "_t") (Lit "_e"))); Eos ].
End Patterns.

(** ** Parameter direction definitions *)

Module Flag.
Inductive t : Type :=
| In      (* input only *)
| Out     (* output only *)
| InOut   (* in- and output *)
| InZero. (* input, default int 0 *)

#[global] Instance eq_dec : EqDecision t.
Proof. solve_decision. Defined.

(** The integer behind each constant. *)
Definition value (f : t) : Z :=
  match f with
  | In => 1
  | Out => 2
  | InOut => 3
  | InZero => 4
  end.
End Flag.

(** Parameter passing flags for types, as a 1-tuple: the dictionary
    lookup with default [Flag.In]. *)
Definition paramFlag3 (typ : string) : list Flag.t :=
  [ if String.eqb typ "int*" then Flag.Out            (* _video_get_cursor *)
    else if String.eqb typ "unsigned*" then Flag.Out  (* _video_get_size *)
    else if String.eqb typ "libvlc_exception_t*" then Flag.InOut
    else Flag.In ].

(** ** Sequence indexing as Python has it *)

(** [l[i]], raising [IndexError] out of range. *)
Definition list_get {A : Type} (l : list A) (i : nat) : result A :=
  must IndexError (l !! i).

(** [l[i] = x], raising [IndexError] out of range. *)
Definition list_set {A : Type} (l : list A) (i : nat) (x : A) : result (list A) :=
  if bool_decide (i < length l) then Ok (<[i := x]> l) else Raise IndexError.

(** [[f(i, x) for (i, x) in enumerate(l)]] with a body that may raise. *)
Fixpoint traverse_enum {A B : Type} (f : nat -> A -> result B) (i : nat)
    (l : list A) : result (list B) :=
  match l with
  | [] => Ok []
  | a :: l' => b ← f i a; bs ← traverse_enum f (S i) l'; Ok (b :: bs)
  end.

(** ** The intermediate model *)

(** A parameter is the tuple [(type, name)]. *)
Definition param : Type := string * string.

(** The tuple [(return_type, method_name, parameter_list, comment)]. *)
Record method : Type := Method {
  m_rtype : string;
  m_name : string;
  m_params : list param;
  m_comment : string
}.

(** The tuple [(type, name, value_list, comment)]; values are strings,
    since this is intended for code generation. *)
Record enum : Type := Enum {
  e_typ : string;
  e_name : string;
  e_values : list (string * string);
  e_comment : string
}.

(** ** class Parser *)

Module Parser.

(** [while name.startswith('*'): typ += '*'; name = name[1:]] *)
Fixpoint move_stars (typ name : string) : string * string :=
  match name with
  | String "*"%char name' => move_stars (typ +:+ "*") name'
  | _ => (typ, name)
  end.

(** Parse a C parameter expression.  It is used to parse both the
    type/name for methods, and type/name for their parameters.  It
    returns a tuple (type, name). *)
Definition parse_param (s : string) : result param :=
  let s := PyStr.strip s in
  let s := PyStr.replace "const" "" s in
  s ← (if PyStr.contains "VLC_FORWARD" s then
         m ← must AttributeError (Re.match_ forward_re s);
         Ok (default "" (Re.group s m 1) +:+ default "" (Re.group s m 2))
       else Ok s);
  match Re.search param_re s with
  | Some m =>
      let typ := default "" (Re.group s m 2) in
      let name := default "" (Re.group s m 3) in
      let '(typ, name) := move_stars typ name in
      (* K&R definition: const char * const* *)
      let name := if String.eqb name "const*" then "" else name in
      Ok (PyStr.replace " " "" typ, name)
  | None =>
      (* K&R definition: only type *)
      Ok (PyStr.replace " " "" s, "")
  end.

(** The loop over the comma-separated member list of an enum; [val] is
    the running counter. *)
Fixpoint enum_values (pieces : list string) (val : Z)
    : result (list (string * string)) :=
  match pieces with
  | [] => Ok []
  | l :: rest =>
      let l := PyStr.strip l in
      if PyStr.startswith "/*" l then enum_values rest val
      else if PyStr.contains "=" l then
        (* A value was specified. Use it. *)
        match Re.split assign_re l with
        | [n; v] =>
            val ← must ValueError
                     (if PyStr.startswith "0x" v then PyInt.int16 v else PyInt.int10 v);
            values ← enum_values rest (val + 1);
            Ok ((n, v) :: values)
        | _ => Raise ValueError
        end
      else
        values ← enum_values rest (val + 1);
        Ok (if String.eqb l "" then values else (l, PyInt.str val) :: values)
  end.

(** Clean up comment text. *)
Definition clean_comment (comment : string) : string :=
  let comment :=
    if PyStr.endswith "*/" comment then PyStr.drop_end 2 comment else comment in
  let comment := PyStr.strip comment in
  if String.eqb comment "" then comment
  else PyStr.rstrip_chars "." (PyStr.capitalize comment) +:+ ".".

(** What a line matching [enum_re] yields. *)
Definition parse_enum (l comment : string) (m : Re.mtch) : result enum :=
  let typ := default "" (Re.group l m 1) in
  let data := default "" (Re.group l m 3) in
  values ← enum_values (Re.split paramlist_re data) 0;
  let name :=
    match Re.group l m 2 with
    | None => "libvlc_enum_t"   (* Anonymous enum. Use a dummy name. *)
    | Some name => PyStr.strip name
    end in
  Ok (Enum typ name values (clean_comment comment)).

(** The local variables of [parse_typedef] that live across lines. *)
Record typedef_state : Type := TypedefState {
  td_accumulator : string;
  td_comment : string;
  td_simple_comment : option string
}.

(** One iteration of [for l in f] in [parse_typedef]: the next state
    and the tuple yielded, if any. *)
Definition typedef_line (st : typedef_state) (l : string)
    : result (typedef_state * option enum) :=
  let '(TypedefState accumulator comment simple_comment) := st in
  if PyStr.startswith "/**" (PyStr.lstrip l) then
    Ok (TypedefState accumulator (PyStr.drop 3 l) simple_comment, None)
  else if PyStr.startswith " * " l then
    Ok (TypedefState accumulator (comment +:+ PyStr.drop 3 l) simple_comment, None)
  else
    let l := PyStr.strip l in
    if PyStr.startswith "/*" l then
      (* Simple comment start *)
      Ok (TypedefState accumulator comment
            (if PyStr.endswith "*/" l then None else Some (PyStr.drop 2 l)), None)
    else
      match simple_comment with
      | Some sc =>
          (* We are in a comment *)
          Ok (TypedefState accumulator comment
                (if PyStr.endswith "*/" l then None else Some (sc +:+ l)), None)
      | None =>
          let classify (l accumulator : string) :=
            match Re.match_ enum_re l with
            | Some m =>
                e ← parse_enum l comment m;
                Ok (TypedefState accumulator "" simple_comment, Some e)
            | None => Ok (TypedefState accumulator comment simple_comment, None)
            end in
          if bool_decide (is_Some (Re.match_ enum_start_re l))
             && negb (PyStr.endswith ";" l) then
            (* Multiline definition. Accumulate until end of definition *)
            Ok (TypedefState l comment simple_comment, None)
          else if negb (String.eqb accumulator "") then
            (* Strip possible trailing comments *)
            let l := match PyStr.find "/*" l with
                     | Some i => PyStr.take i l
                     | None => l
                     end in
            let accumulator := PyStr.join " " [accumulator; l] in
            if PyStr.endswith ";" l then
              (* End of definition *)
              classify accumulator ""
            else Ok (TypedefState accumulator comment simple_comment, None)
          else classify l accumulator
      end.

Fixpoint typedef_lines (st : typedef_state) (f : list string) : result (list enum) :=
  match f with
  | [] => Ok []
  | l :: f' =>
      '(st', y) ← typedef_line st l;
      es ← typedef_lines st' f';
      Ok (match y with Some e => e :: es | None => es end)
  end.

(** Parse include file for typedef expressions; [f] is the file, line
    by line, each line with its line break. *)
Definition parse_typedef (f : list string) : result (list enum) :=
  typedef_lines (TypedefState "" "" None) f.

(** Names for the parameters of [method] out of its documentation,
    when some parameter has an empty name: the new parameter list and
    the lines printed. *)
Definition recover_names (method comment : string) (params : list param)
    : result (list param * list string) :=
  if existsb (fun p : param => String.eqb p.2 "") params then
    (* Empty parameter names. Have to poke into comment. *)
    let names := Re.findall1 comment_re comment in
    '(names, printed) ←
      (if bool_decide (length names < length params) then
         (* Bad description: all parameters are not specified.
            Generate default parameter names *)
         let badnames :=
           List.map (fun i => "param" +:+ PyInt.fmt_d i) (seq 0 (length params)) in
         (* Put in the existing ones *)
         badnames ← foldl (fun acc '(i, _) =>
                             bad ← acc; n ← list_get names i; list_set bad i n)
                          (Ok badnames) (imap pair names);
         Ok (badnames,
             [ "### Error ###";
               "### Cannot get parameter names from comment for " +:+ method
                 +:+ ": " +:+ PyStr.replace PyStr.nl " " comment ])
       else Ok (names, []));
    params ← traverse_enum (fun i (p : param) => n ← list_get names i; Ok (p.1, n))
               0 params;
    Ok (params, printed)
  else Ok (params, []).

(** What a line matching [api_re] yields, and what it prints. *)
Definition parse_api (l comment : string) (m : Re.mtch)
    : result (method * list string) :=
  let ret := default "" (Re.group l m 1) in
  let param := default "" (Re.group l m 2) in
  '(rtype, method) ← parse_param ret;
  params ← traverse parse_param (Re.split paramlist_re param);
  let params :=
    match params with
    | [(typ, _)] => if String.eqb typ "void" then [] else params  (* Empty parameter list *)
    | _ => params
    end in
  '(params, printed) ← recover_names method comment params;
  Ok (Method rtype method params comment, printed).

(** The local variables of [parse_include] that live across lines. *)
Record include_state : Type := IncludeState {
  in_accumulator : string;
  in_comment : string
}.

(** One iteration of [for l in f] in [parse_include]: the next state,
    the tuple yielded, if any, and the lines printed. *)
Definition include_line (st : include_state) (l : string)
    : result (include_state * option method * list string) :=
  let '(IncludeState accumulator comment) := st in
  if PyStr.startswith "/**" (PyStr.lstrip l) then
    Ok (IncludeState accumulator "", None, [])
  else if PyStr.startswith " * " l then
    Ok (IncludeState accumulator (comment +:+ PyStr.drop 3 l), None, [])
  else
    let l := PyStr.strip l in
    let classify (l accumulator : string) :=
      match Re.match_ api_re l with
      | Some m =>
          '(met, printed) ← parse_api l comment m;
          Ok (IncludeState accumulator "", Some met, printed)
      | None => Ok (IncludeState accumulator comment, None, [])
      end in
    if negb (String.eqb accumulator "") then
      let accumulator := PyStr.join " " [accumulator; l] in
      if PyStr.endswith ");" l then
        (* End of definition *)
        classify accumulator ""
      else classify l accumulator
    else if PyStr.startswith "VLC_PUBLIC_API" l && negb (PyStr.endswith ");" l) then
      (* Multiline definition. Accumulate until end of definition *)
      Ok (IncludeState l comment, None, [])
    else classify l accumulator.

Fixpoint include_lines (st : include_state) (f : list string)
    : result (list method * list string) :=
  match f with
  | [] => Ok ([], [])
  | l :: f' =>
      '(st', y, printed) ← include_line st l;
      '(ms, printed') ← include_lines st' f';
      Ok (match y with Some m => m :: ms | None => ms end, printed ++ printed')
  end.

(** Parse include file; [f] is the file, line by line, each line with
    its line break. *)
Definition parse_include (f : list string) : result (list method * list string) :=
  include_lines (IncludeState "" "") f.

(** The parser object: the attributes [methods] and [enums], and what
    building it printed. *)
Record t : Type := Make {
  methods : list method;
  enums : list enum;
  printed : list string
}.

(** [Parser.__init__]: each file contributes its enums, then its
    methods. *)
Fixpoint init_from (self : t) (list_of_files : list (list string)) : result t :=
  match list_of_files with
  | [] => Ok self
  | f :: files =>
      es ← parse_typedef f;
      '(ms, out) ← parse_include f;
      init_from (Make (methods self ++ ms) (enums self ++ es) (printed self ++ out)) files
  end.

Definition init (list_of_files : list (list string)) : result t :=
  init_from (Make [] [] []) list_of_files.

End Parser.

(** ** Sorting and grouping *)

(** [sorted(l, key=key)] on string keys: a stable sort by byte-wise
    comparison. *)
Section Sorted.
Context {A : Type} (key : A -> string).

Fixpoint insert_sorted (x : A) (l : list A) : list A :=
  match l with
  | [] => [x]
  | y :: l' =>
      if String.leb (key x) (key y) then x :: l else y :: insert_sorted x l'
  end.

Definition sorted (l : list A) : list A := foldr insert_sorted [] l.

(** [itertools.groupby(l, key=key)]: the maximal runs of equal keys. *)
Fixpoint groupby (l : list A) : list (string * list A) :=
  match l with
  | [] => []
  | x :: l' =>
      match groupby l' with
      | (k, g) :: gs =>
          if String.eqb (key x) k then (k, x :: g) :: gs
          else (key x, [x]) :: (k, g) :: gs
      | [] => [(key x, [x])]
      end
  end.
End Sorted.

(** ** Generated output

    What a generator writes is kept as the sequence of its [output]
    calls.  A call whose text is made from a template records the values
    substituted; [render] gives the text, and the file is the texts in
    order, each followed by a line break. *)

Inductive item : Type :=
| Raw (text : string)
| EnumBase
| EnumName (v n : string)
| EnumAssign (pyname : string) (members : list (string * string))
| CtypesDecl (method args flags comment : string)
| ClassNew
| ClassFromParam
| WrapperDef (name method args comment : string)
| LenDef (method : string)
| GetitemDef (method : string)
| NotWrapped (unwrapped_methods : list string)
| JavaDecl (rtype method args : string)
| JavaMember (k v : string).

Section Render.
Import PyStr.

Definition dq3 : string := dq +:+ dq +:+ dq.

Definition enum_base_text : string :=
"
class _Enum(ctypes.c_ulong):
    '''Base class
    '''
    _names={}

    def __str__(self):
        n=self._names.get(self.value, '') or ('FIXME_(%r)' % (self.value,))
        return '.'.join((self.__class__.__name__, n))

    def __repr__(self):
        return '.'.join((self.__class__.__module__, self.__str__()))

    def __eq__(self, other):
        return ( (isinstance(other, _Enum)       and self.value == other.value)
              or (isinstance(other, (int, long)) and self.value == other) )

    def __ne__(self, other):
        return not self.__eq__(other)
".

Definition class_new_text : string :=
"
    def __new__(cls, pointer=None):
        '''Internal method used for instanciating wrappers from ctypes.
        '''
        if pointer is None:
            raise Exception(" +:+ dq +:+
"Internal method. Surely this class cannot be instanciated by itself."
+:+ dq +:+ ")
        if pointer == 0:
            return None
        o=object.__new__(cls)
        o._as_parameter_=ctypes.c_void_p(pointer)
        return o
".

Definition class_from_param_text : string :=
"
    @staticmethod
    def from_param(arg):
        '''(INTERNAL) ctypes parameter conversion method.
        '''
        return arg._as_parameter_
".

(** ["%(class)s.%(attribute)s=%(class)s(%(value)s)"] *)
Definition enum_assign_text (pyname : string) (m : string * string) : string :=
  pyname +:+ "." +:+ m.1 +:+ "=" +:+ pyname +:+ "(" +:+ m.2 +:+ ")".

Definition ctypes_decl_text (method args flags comment : string) : string :=
  "if hasattr(dll, '" +:+ method +:+ "'):
    p = ctypes.CFUNCTYPE(" +:+ args +:+ ")
    f = (" +:+ flags +:+ ")
    " +:+ method +:+ " = p( ('" +:+ method +:+ "', dll), f )
    " +:+ method +:+ ".__doc__ = " +:+ dq3 +:+ comment +:+ "
" +:+ dq3 +:+ "
".

Definition wrapper_def_text (name method args comment : string) : string :=
  "    if hasattr(dll, '" +:+ method +:+ "'):
        def " +:+ name +:+ "(" +:+ args +:+ "):
            " +:+ dq3 +:+ comment +:+ "
            " +:+ dq3 +:+ "
            return " +:+ method +:+ "(" +:+ args +:+ ")
".

Definition len_def_text (method : string) : string :=
  "    def __len__(self):
        return " +:+ method +:+ "(self)
".

Definition getitem_def_text (method : string) : string :=
  "    def __getitem__(self, i):
        return " +:+ method +:+ "(self, i)

    def __iter__(self):
        for i in xrange(len(self)):
            yield self[i]
".

Definition render (i : item) : string :=
  match i with
  | Raw text => text
  | EnumBase => enum_base_text
  | EnumName v n => "        " +:+ v +:+ ": '" +:+ n +:+ "',"
  | EnumAssign pyname members =>
      join nl (sorted id (List.map (enum_assign_text pyname) members))
  | CtypesDecl method args flags comment => ctypes_decl_text method args flags comment
  | ClassNew => class_new_text
  | ClassFromParam => class_from_param_text
  | WrapperDef name method args comment => wrapper_def_text name method args comment
  | LenDef method => len_def_text method
  | GetitemDef method => getitem_def_text method
  | NotWrapped unwrapped_methods => join nl (sorted id unwrapped_methods)
  | JavaDecl rtype method args =>
      rtype +:+ " " +:+ method +:+ "(" +:+ args +:+ ");" +:+ nl
  | JavaMember k v => "        " +:+ k +:+ " (" +:+ v +:+ "),"
  end.

(** The bytes written for a sequence of [output] calls. *)
Definition written (fd : list item) : string :=
  String.concat "" (List.map (fun i => render i +:+ nl) fd).
End Render.

(** [typ in type2class] *)
Definition has_key (type2class : gmap string string) (typ : string) : bool :=
  bool_decide (is_Some (type2class !! typ)).

(** Both backends raise this from [check_types]. *)
Definition no_conversion (typ met name : string) : exn :=
  Exception ("No conversion for " +:+ typ +:+ " (from " +:+ met +:+ ":" +:+ name +:+ ")").

Definition not_an_enum : exn := Exception "This method only handles enums".

(** The inner loop of [check_types]: the parameters of one method. *)
Fixpoint check_params (type2class : gmap string string) (met : string)
    (params : list param) : result unit :=
  match params with
  | [] => Ok tt
  | (typ, name) :: params' =>
      if has_key type2class typ then check_params type2class met params'
      else Raise (no_conversion typ met name)
  end.

(** ** class PythonGenerator *)

Module PythonGenerator.

(** C-type to ctypes/python type conversion.  Note that enum types
    conversions are generated (cf convert_enum_names). *)
Definition type2class : gmap string string :=
  list_to_map
    [ ("libvlc_media_player_t*", "MediaPlayer");
      ("libvlc_instance_t*", "Instance");
      ("libvlc_media_t*", "Media");
      ("libvlc_log_t*", "Log");
      ("libvlc_log_iterator_t*", "LogIterator");
      ("libvlc_log_message_t*", "ctypes.POINTER(LogMessage)");
      ("libvlc_event_type_t", "ctypes.c_uint");
      ("libvlc_event_manager_t*", "EventManager");
      ("libvlc_media_discoverer_t*", "MediaDiscoverer");
      ("libvlc_media_library_t*", "MediaLibrary");
      ("libvlc_media_list_t*", "MediaList");
      ("libvlc_media_list_player_t*", "MediaListPlayer");
      ("libvlc_media_list_view_t*", "MediaListView");
      ("libvlc_track_description_t*", "ctypes.POINTER(TrackDescription)");
      ("libvlc_audio_output_t*", "ctypes.POINTER(AudioOutput)");
      ("libvlc_media_stats_t*", "ctypes.POINTER(MediaStats)");
      ("libvlc_media_track_info_t**", "ctypes.POINTER(ctypes.POINTER(MediaTrackInfo))");

      ("libvlc_drawable_t", "ctypes.c_uint");
      ("libvlc_rectangle_t*", "ctypes.POINTER(Rectangle)");

      ("WINDOWHANDLE", "ctypes.c_ulong");

      ("void", "None");
      ("void*", "ctypes.c_void_p");
      ("short", "ctypes.c_short");
      ("char*", "ctypes.c_char_p");
      ("char**", "ListPOINTER(ctypes.c_char_p)");
      ("uint32_t", "ctypes.c_uint32");
      ("int64_t", "ctypes.c_int64");
      ("float", "ctypes.c_float");
      ("unsigned", "ctypes.c_uint");
      ("unsigned*", "ctypes.POINTER(ctypes.c_uint)");
      ("int", "ctypes.c_int");
      ("int*", "ctypes.POINTER(ctypes.c_int)");
      ("...", "FIXME_va_list");
      ("libvlc_callback_t", "ctypes.c_void_p");
      ("libvlc_time_t", "ctypes.c_longlong") ].

(** Defined python classes, i.e. classes for which we want to generate
    class wrappers around libvlc functions. *)
Definition defined_classes : list string :=
  [ "MediaPlayer";
    "Instance";
    "Media";
    "Log";
    "LogIterator";
    "EventManager";
    "MediaDiscoverer";
    "MediaLibrary";
    "MediaList";
    "MediaListPlayer";
    "MediaListView" ].

(** The generator object.  [parser] is the parser it was given: the
    generator keeps a reference to it, so what it does to the lists in
    [parser.methods] is done to the parser's own. *)
Record t : Type := Make {
  parser : Parser.t;
  type2class_ : gmap string string;
  prefixes : gmap string string
}.

(** The Python name of one enum. *)
Definition convert_enum_name (name : string) : result string :=
  stem ← list_get (Re.findall2 pyname_re name) 0;
  let pyname := stem.1 in
  if String.eqb name "libvlc_event_e" then Ok "EventType"
  else if PyStr.contains "_" pyname then
    Ok (PyStr.replace "_" "" (PyStr.title pyname))
  else
    c ← must IndexError (match pyname with String c _ => Some c | _ => None end);
    if negb (PyStr.is_upper c) then Ok (PyStr.capitalize pyname) else Ok pyname.

Fixpoint convert_enum_names (enums : list enum) (res : gmap string string)
    : result (gmap string string) :=
  match enums with
  | [] => Ok res
  | e :: enums' =>
      if negb (String.eqb (e_typ e) "enum") then Raise not_an_enum
      else
        pyname ← convert_enum_name (e_name e);
        convert_enum_names enums' (<[e_name e := pyname]> res)
  end.

(** Make sure that all types are properly translated. *)
Fixpoint check_types (type2class : gmap string string) (methods : list method)
    : result unit :=
  match methods with
  | [] => Ok tt
  | m :: methods' =>
      _ ← check_params type2class (m_name m) (m_params m);
      check_types type2class methods'
  end.

(** Definition of prefixes that we can strip from method names when
    wrapping them into class methods: the dictionary built from
    [(v, k[:-2])] over the items of [type2class] whose value is a
    defined class, a later item replacing an earlier one of the same
    class.  Python leaves the order of the items open; here it is that
    of [map_to_list]. *)
Definition make_prefixes (type2class : gmap string string) : gmap string string :=
  foldl (fun d '(k, v) =>
           if bool_decide (v ∈ defined_classes) then <[v := PyStr.drop_end 2 k]> d else d)
        ∅ (map_to_list type2class).

(** [PythonGenerator.__init__] *)
Definition init (parser : Parser.t) : result t :=
  (* Generate python names for enums *)
  names ← convert_enum_names (Parser.enums parser) ∅;
  let type2class := names ∪ type2class in
  _ ← check_types type2class (Parser.methods parser);
  Ok (Make parser type2class (make_prefixes type2class)).

(** Transform Doxygen into epydoc syntax and fix first parameter. *)
Definition epydoc_comment (comment : string) (fix_first : bool) : result string :=
  let lines :=
    PyStr.splitlines (PyStr.strip
      (PyStr.replace "\return" "@return" (PyStr.replace "\param" "@param"
      (PyStr.replace "\warning" "WARNING:" (PyStr.replace "\note" "NOTE:"
      (PyStr.replace "\see" "See" (PyStr.replace "@see" "See"
      (PyStr.replace "\ingroup" "" (PyStr.replace "@{" "" comment))))))))) in
  let has_param l := PyStr.contains "@param" l in
  let has_return l := PyStr.contains "@return" l in
  let has_out l := PyStr.contains "[OUT]" l in
  let doc := List.filter (fun l => negb (has_param l) && negb (has_return l)) lines in
  let ret := List.map (PyStr.replace "@return" "@return:") (List.filter has_return lines) in
  let params :=
    List.map (Re.sub python_param_re
                (fun s m => default "" (Re.group s m 1) +:+ ":" +:+ default "" (Re.group s m 2)))
             (List.filter (fun l => has_param l && negb (has_out l)) lines) in
  outparams ← traverse (fun l => fst <$> list_get (Re.findall2 python_param_re l) 0)
                (List.filter (fun l => has_param l && has_out l) lines);
  let ret :=
    match outparams with
    | [] => ret
    | _ =>
        (* Replace the @return line *)
        [ "@return " +:+ PyStr.join ", " (List.map (PyStr.strip_chars "@param ") outparams) ]
    end in
  let params := if fix_first then List.tail params else params in  (* remove (self) *)
  Ok (PyStr.join PyStr.nl (doc ++ params ++ ret)).

(** The name of the constant generated for the enum member [k]. *)
Definition member_name (k : string) : result string :=
  let k := PyStr.split "_" k in
  n ← must IndexError (last k);
  let n :=
    if bool_decide (String.length n <= 1) then  (* Single character name *)
      PyStr.join "_" (drop (length k - 2) k)     (* Some use 1_1, 5_1, etc. *)
    else n in
  c ← must IndexError (match n with String c _ => Some c | _ => None end);
  Ok (if PyStr.is_digit c then "_" +:+ n else n).  (* Cannot start with a number *)

(** The loop over the members of one enum in [generate_enums]: the
    [_names] lines written and the list [l]. *)
Fixpoint enum_members (values : list (string * string))
    : result (list item * list (string * string)) :=
  match values with
  | [] => Ok ([], [])
  | (k, v) :: values' =>
      n ← member_name k;
      '(out, l) ← enum_members values';
      Ok (EnumName v n :: out, (n, v) :: l)
  end.

Fixpoint enum_classes (type2class : gmap string string) (enums : list enum)
    : result (list item) :=
  match enums with
  | [] => Ok []
  | e :: enums' =>
      if negb (String.eqb (e_typ e) "enum") then Raise not_an_enum
      else
        pyname ← must (KeyError (e_name e)) (type2class !! e_name e);
        '(names, l) ← enum_members (e_values e);
        out ← enum_classes type2class enums';
        Ok ([ Raw ("class " +:+ pyname +:+ "(_Enum):");
              Raw ("    " +:+ dq3 +:+ e_comment e +:+ PyStr.nl +:+ "    " +:+ dq3);
              Raw "    _names={" ]
            ++ names
            ++ [ Raw "    }"; EnumAssign pyname l; Raw "" ]
            ++ out)
  end.

Definition generate_enums (self : t) (enums : list enum) : result (list item) :=
  out ← enum_classes (type2class_ self) enums;
  Ok (EnumBase :: out).

(** [str(paramFlag3(typ))], the 1-tuple printed. *)
Definition flag_str (typ : string) : string :=
  "(" +:+ PyStr.join ", " (List.map (fun f => PyInt.str (Flag.value f)) (paramFlag3 typ))
      +:+ ",)".

(** Output ctypes decorator for the given method. *)
Definition output_ctypes (self : t) (m : method) : result (list item) :=
  if bool_decide (m_name m ∈ blacklist) then
    (* FIXME *)
    Ok []
  else
    (* return value and arg types *)
    ptypes ← traverse (fun p : param => must (KeyError p.1) (type2class_ self !! p.1))
               (m_params m);
    let args :=
      PyStr.join ", "
        (default ("FIXME_" +:+ m_rtype m) (type2class_ self !! m_rtype m) :: ptypes) in
    (* tuple of arg flag tuples *)
    let flags := PyStr.join ", " (List.map (fun p : param => flag_str p.1) (m_params m)) in
    let flags := if String.eqb flags "" then flags else flags +:+ "," in
    comment ← epydoc_comment (m_comment m) false;
    Ok [ CtypesDecl (m_name m) args flags comment ].

(** What [save] reads besides the parser: the lines of [header.py]
    and [footer.py], the tuple [parse_override('override.py')] returns
    (code, overridden methods and docstring, each by class name), and
    the build date [time.ctime()] gives. *)
Record files : Type := Files {
  header_py : list string;
  footer_py : list string;
  overrides : gmap string string;
  overriden_methods : gmap string (list string);
  docstring : gmap string string;
  ctime : string
}.

(** Generate header/footer code. *)
Fixpoint insert_code (self : t) (env : files) (f : list string) : result (list item) :=
  match f with
  | [] => Ok []
  | l :: f' =>
      out ← (if PyStr.startswith "build_date" l then
               Ok [ Raw ("build_date=" +:+ PyStr.dq +:+ ctime env +:+ PyStr.dq) ]
             else if PyStr.startswith "# GENERATED_ENUMS" l then
               generate_enums self (Parser.enums (parser self))
             else Ok [ Raw (PyStr.rstrip l) ]);
      out' ← insert_code self env f';
      Ok (out ++ out')
  end.

(** One tuple of [elements].  The parameter list in it is the very
    list object held by the tuple at position [el_ref] of
    [parser.methods]; the strings are values. *)
Record element : Type := Element {
  el_class : string;
  el_ref : nat;
  el_rtype : string;
  el_method : string;
  el_comment : string
}.

(** The class a method is wrapped into, when its first parameter is of
    a defined class (the default [_] of the lookup is not one). *)
Definition wrapper_class (type2class : gmap string string) (m : method)
    : option string :=
  match m_params m with
  | [] => None
  | (typ, _) :: _ =>
      match type2class !! typ with
      | Some cl => if bool_decide (cl ∈ defined_classes) then Some cl else None
      | None => None
      end
  end.

(** Sort methods against the element they apply to. *)
Definition elements (type2class : gmap string string) (methods : list method)
    : list element :=
  sorted el_class
    (omap id (imap (fun i m =>
                      (fun cl => Element cl i (m_rtype m) (m_name m) (m_comment m))
                        <$> wrapper_class type2class m)
                   methods)).

(** The state the loops of [generate_wrappers] work on: the set [ret],
    the lists of [parser.methods], and what was written. *)
Record wrapping : Type := Wrapping {
  w_ret : gset string;
  w_methods : list method;
  w_out : list item
}.

(** [params[0] = (params[0][0], 'self')] *)
Definition set_self (params : list param) : list param :=
  match params with
  | [] => []
  | (typ, _) :: params' => (typ, "self") :: params'
  end.

Definition with_params (f : list param -> list param) (m : method) : method :=
  Method (m_rtype m) (m_name m) (f (m_params m)) (m_comment m).

(** Strip prefix *)
Definition short_name (prefix method : string) : string :=
  PyStr.replace "libvlc_" "" (PyStr.replace prefix "" method).

(** The body of [for cl, rtype, method, params, comment in el]. *)
Definition wrap_method (env : files) (prefix : string) (e : element)
    (st : wrapping) : result wrapping :=
  let method := el_method e in
  if bool_decide (method ∈ blacklist) then Ok st
  else
    let name := short_name prefix method in
    let ret := {[ method ]} ∪ w_ret st in
    if bool_decide (name ∈ default [] (overriden_methods env !! el_class e)) then
      (* Method already defined in override.py *)
      Ok (Wrapping ret (w_methods st) (w_out st))
    else
      let methods := alter (with_params set_self) (el_ref e) (w_methods st) in
      let params := default [] (m_params <$> methods !! el_ref e) in
      let args :=
        PyStr.join ", "
          (List.map snd
             (List.filter
                (fun p : param => negb (bool_decide (head (paramFlag3 p.1) = Some Flag.Out)))
                params)) in
      comment ← PythonGenerator.epydoc_comment (el_comment e) true;
      let out := [ WrapperDef name method args comment ] in
      (* Check for standard methods *)
      let out :=
        if String.eqb name "count" then
          (* There is a count method. Generate a __len__ one. *)
          out ++ [ LenDef method ]
        else if PyStr.endswith "item_at_index" name then
          (* Indexable (and thus iterable) *)
          out ++ [ GetitemDef method ]
        else out in
      Ok (Wrapping ret methods (w_out st ++ out)).

Fixpoint wrap_methods (env : files) (prefix : string) (el : list element)
    (st : wrapping) : result wrapping :=
  match el with
  | [] => Ok st
  | e :: el' => st' ← wrap_method env prefix e st; wrap_methods env prefix el' st'
  end.

(** The body of [for classname, el in itertools.groupby(...)]. *)
Definition wrap_class (self : t) (env : files) (classname : string)
    (el : list element) (st : wrapping) : result wrapping :=
  let out :=
    [ Raw ("class " +:+ classname +:+ "(object):") ]
    ++ match docstring env !! classname with
       | Some d => [ Raw ("    " +:+ dq3 +:+ PyStr.strip d +:+ PyStr.nl +:+ "    " +:+ dq3) ]
       | None => []
       end
    ++ (if PyStr.contains "def __new__" (default "" (overrides env !! classname))
        then [] else [ ClassNew ])
    ++ [ ClassFromParam ]
    ++ match overrides env !! classname with
       | Some code => [ Raw code ]
       | None => []
       end in
  let prefix := default "" (prefixes self !! classname) in
  wrap_methods env prefix el (Wrapping (w_ret st) (w_methods st) (w_out st ++ out)).

Fixpoint wrap_classes (self : t) (env : files) (groups : list (string * list element))
    (st : wrapping) : result wrapping :=
  match groups with
  | [] => Ok st
  | (classname, el) :: groups' =>
      st' ← wrap_class self env classname el st;
      wrap_classes self env groups' st'
  end.

(** Generate class wrappers for all appropriate methods.  Returns the
    set of wrapped method names, together with [parser.methods] as the
    call leaves it and what it wrote. *)
Definition generate_wrappers (self : t) (env : files) (methods : list method)
    : result wrapping :=
  wrap_classes self env
    (groupby el_class (elements (type2class_ self) methods))
    (Wrapping ∅ methods []).

(** The loop [for l in self.parser.methods] of [save]: what is written
    and the list [unwrapped_methods]. *)
Fixpoint declare_methods (self : t) (wrapped_methods : gset string)
    (methods : list method) : result (list item * list string) :=
  match methods with
  | [] => Ok ([], [])
  | l :: methods' =>
      out ← output_ctypes self l;
      let m := m_name l in  (* is method wrapped? *)
      '(out', unwrapped_methods) ← declare_methods self wrapped_methods methods';
      Ok (out ++ out',
          if bool_decide (m ∈ wrapped_methods) then unwrapped_methods
          else ("#  " +:+ m) :: unwrapped_methods)
  end.

(** [save]: the generator afterwards (its parser holds the lists as
    [generate_wrappers] left them) and everything written to [fd]. *)
Definition save (self : t) (env : files) : result (t * list item) :=
  head ← insert_code self env (header_py env);
  w ← generate_wrappers self env (Parser.methods (parser self));
  let self :=
    Make (Parser.Make (w_methods w) (Parser.enums (parser self))
            (Parser.printed (parser self)))
         (type2class_ self) (prefixes self) in
  let wrapped_methods := w_ret w in
  '(decls, unwrapped_methods) ←
    declare_methods self wrapped_methods (Parser.methods (parser self));
  foot ← insert_code self env (footer_py env);
  let summary :=
    match unwrapped_methods with
    | [] => []
    | _ => [ Raw ("# " +:+ PyInt.fmt_d (length unwrapped_methods)
                       +:+ " methods not wrapped :");
             NotWrapped unwrapped_methods ]
    end in
  Ok (self, head ++ w_out w ++ decls ++ foot ++ summary).

End PythonGenerator.

(** ** class JavaGenerator *)

Module JavaGenerator.

(** C-type to java/jna type conversion. *)
Definition type2class : gmap string string :=
  list_to_map
    [ ("libvlc_media_player_t*", "LibVlcMediaPlayer");
      ("libvlc_instance_t*", "LibVlcInstance");
      ("libvlc_media_t*", "LibVlcMedia");
      ("libvlc_log_t*", "LibVlcLog");
      ("libvlc_log_iterator_t*", "LibVlcLogIterator");
      ("libvlc_log_message_t*", "libvlc_log_message_t");
      ("libvlc_event_type_t", "int");
      ("libvlc_event_manager_t*", "LibVlcEventManager");
      ("libvlc_media_discoverer_t*", "LibVlcMediaDiscoverer");
      ("libvlc_media_library_t*", "LibVlcMediaLibrary");
      ("libvlc_media_list_t*", "LibVlcMediaList");
      ("libvlc_media_list_player_t*", "LibVlcMediaListPlayer");
      ("libvlc_media_list_view_t*", "LibVlcMediaListView");
      ("libvlc_media_stats_t*", "LibVlcMediaStats");
      ("libvlc_media_track_info_t**", "LibVlcMediaTrackInfo");

      ("libvlc_track_description_t*", "LibVlcTrackDescription");
      ("libvlc_audio_output_t*", "LibVlcAudioOutput");

      ("void", "void");
      ("void*", "Pointer");
      ("short", "short");
      ("char*", "String");
      ("char**", "String[]");
      ("uint32_t", "uint32");
      ("float", "float");
      ("unsigned", "int");
      ("unsigned*", "Pointer");
      ("int", "int");
      ("int*", "Pointer");
      ("...", "FIXMEva_list");
      ("libvlc_callback_t", "LibVlcCallback");
      ("libvlc_time_t", "long") ].

Record t : Type := Make {
  parser : Parser.t;
  type2class_ : gmap string string
}.

(** Convert enum names into Java names. *)
Definition convert_enum_name (name : string) : result string :=
  stem ← list_get (Re.findall2 javaname_re name) 0;
  let pyname := stem.1 in
  if PyStr.contains "_" pyname then
    Ok (PyStr.replace "_" "" (PyStr.title pyname))
  else
    c ← must IndexError (match pyname with String c _ => Some c | _ => None end);
    if negb (PyStr.is_upper c) then Ok (PyStr.capitalize pyname) else Ok pyname.

Fixpoint convert_enum_names (enums : list enum) (res : gmap string string)
    : result (gmap string string) :=
  match enums with
  | [] => Ok res
  | e :: enums' =>
      if negb (String.eqb (e_typ e) "enum") then Raise not_an_enum
      else
        pyname ← convert_enum_name (e_name e);
        convert_enum_names enums' (<[e_name e := pyname]> res)
  end.

(** Make sure that all types are properly translated. *)
Fixpoint check_types (type2class : gmap string string) (methods : list method)
    : result unit :=
  match methods with
  | [] => Ok tt
  | m :: methods' =>
      if bool_decide (m_name m ∈ blacklist) then check_types type2class methods'
      else
        _ ← check_params type2class (m_name m) (m_params m);
        check_types type2class methods'
  end.

(** [JavaGenerator.__init__] *)
Definition init (parser : Parser.t) : result t :=
  (* Generate Java names for enums *)
  names ← convert_enum_names (Parser.enums parser) ∅;
  let type2class := names ∪ type2class in
  _ ← check_types type2class (Parser.methods parser);
  Ok (Make parser type2class).

(** The loop over [parser.methods] in [generate_libvlc]. *)
Fixpoint declare_methods (self : t) (methods : list method) : result (list item) :=
  match methods with
  | [] => Ok []
  | m :: methods' =>
      out ←
        (if bool_decide (m_name m ∈ blacklist) then
           (* FIXME *)
           Ok []
         else
           args ← traverse (fun p : param =>
                              ty ← must (KeyError p.1) (type2class_ self !! p.1);
                              Ok (ty +:+ " " +:+ p.2))
                    (m_params m);
           Ok [ JavaDecl (default ("FIXME_" +:+ m_rtype m) (type2class_ self !! m_rtype m))
                         (m_name m) (PyStr.join ", " args) ]);
      out' ← declare_methods self methods';
      Ok (out ++ out')
  end.

(** The members written to the file of one enum in [generate_enums]. *)
Definition enum_members (values : list (string * string)) : list item :=
  List.map (fun kv : string * string => JavaMember kv.1 kv.2) values.

End JavaGenerator.

(** ** The pipeline *)

(** [process(output, list_of_includes)]: the generator after [save] and
    what was written. *)
Definition process (env : PythonGenerator.files) (list_of_includes : list (list string))
    : result (PythonGenerator.t * list item) :=
  p ← Parser.init list_of_includes;
  g ← PythonGenerator.init p;
  PythonGenerator.save g env.

(** ** PythonGenerator.parse_override

    The override definitions file is read line by line; what it returns
    is keyed by class name, and by Python's [None] (here the key [None])
    for the text of a file without any class line. *)

Module Override.

(** "class (\S+):" *)
Definition class_re : Re.regex :=
  Re.cat [ Re.Lit "class "; Re.Group 1 (Re.plus Re.NonSpace); Re.Lit ":" ].

(** "^\s+def\s+(\w+)" without its leading [^], which [findall_lines]
    takes care of. *)
Definition def_re : Re.regex :=
  Re.cat [ Re.plus Re.Space; Re.Lit "def"; Re.plus Re.Space;
           Re.Group 1 (Re.plus Re.Word) ].

(** The scanner of [Re.scan_from] for a pattern that begins with [^]
    under [re.MULTILINE]: a match may only start at the beginning of the
    string or right after a line break; [bol] tells whether the current
    offset is such a place. *)
Fixpoint scan_lines_from (r : Re.regex) (pos : nat) (s : string) (bol : bool)
    (skip : nat) : list Re.mtch :=
  match skip with
  | S n =>
      match s with
      | String c s' => scan_lines_from r (S pos) s' (Ascii.eqb c "010"%char) n
      | EmptyString => []
      end
  | O =>
      match (if bol then Re.at_pos r pos s else None) with
      | Some m =>
          m :: match s with
               | String c s' =>
                   scan_lines_from r (S pos) s' (Ascii.eqb c "010"%char)
                     (Re.m_end m - pos - 1)
               | EmptyString => []
               end
      | None =>
          match s with
          | String c s' => scan_lines_from r (S pos) s' (Ascii.eqb c "010"%char) O
          | EmptyString => []
          end
      end
  end.

(** [re.findall('^...', s, re.MULTILINE)] for a pattern with one group. *)
Definition findall_lines (r : Re.regex) (s : string) : list string :=
  List.map (fun m => default "" (Re.group s m 1)) (scan_lines_from r 0 s true 0).

(** [s.split(sep, maxsplit)] for a non-empty [sep]; [cur] is the piece
    being read, reversed, [skip] the bytes of a separator still to be
    passed over, [n] the number of splits left. *)
Fixpoint split_from (sep s cur : string) (skip n : nat) : list string :=
  match skip with
  | S k =>
      match s with
      | String _ s' => split_from sep s' cur k n
      | EmptyString => [PyStr.rev cur]
      end
  | O =>
      match n with
      | O => [PyStr.rev cur +:+ s]
      | S n' =>
          match s with
          | EmptyString => [PyStr.rev cur]
          | String c s' =>
              if PyStr.startswith sep s
              then PyStr.rev cur :: split_from sep s' "" (String.length sep - 1) n'
              else split_from sep s' (String c cur) O n
          end
      end
  end.

Definition split (sep s : string) (maxsplit : nat) : list string :=
  split_from sep s "" 0 maxsplit.

(** The local variables of the first loop. *)
Record reading : Type := Reading {
  r_code : gmap (option string) string;
  r_data : list string;
  r_current : option string
}.

(** One iteration of [for l in f]. *)
Definition read_line (st : reading) (l : string) : reading :=
  match Re.match_ class_re l with
  | Some m =>
      (* Dump old data *)
      let code :=
        match r_current st with
        | Some current => <[Some current := String.concat "" (r_data st)]> (r_code st)
        | None => r_code st
        end in
      Reading code [] (Some (default "" (Re.group l m 1)))
  | None => Reading (r_code st) (r_data st ++ [l]) (r_current st)
  end.

(** The dictionary [code] after the first loop. *)
Definition read_code (f : list string) : gmap (option string) string :=
  let st := foldl read_line (Reading ∅ [] None) f in
  <[r_current st := String.concat "" (r_data st)]> (r_code st).

(** The body of the second loop for one value: the docstring, if the
    text starts with one, and the code that stays. *)
Definition split_docstring (v : string) : result (option string * string) :=
  if PyStr.startswith dq3 (PyStr.lstrip v) then
    (* Starting comment. Use it as docstring. *)
    match split dq3 v 2 with
    | [dummy; doc; code] => Ok (Some doc, code)
    | _ => Raise ValueError
    end
  else Ok (None, v).

(** The tuple [(code, overridden_methods, docstring)]. *)
Record t : Type := Make {
  code : gmap (option string) string;
  overridden_methods : gmap (option string) (list string);
  docstring : gmap (option string) string
}.

(** The second loop, [for k, v in code.iteritems()], over the items in
    the order given. *)
Fixpoint split_docstrings (items : list (option string * string))
    (code docstring : gmap (option string) string)
    : result (gmap (option string) string * gmap (option string) string) :=
  match items with
  | [] => Ok (code, docstring)
  | (k, v) :: items' =>
      '(doc, rest) ← split_docstring v;
      match doc with
      | Some d => split_docstrings items' (<[k := rest]> code) (<[k := d]> docstring)
      | None => split_docstrings items' code docstring
      end
  end.

(** Parse override definitions file; [f] is the file, line by line.
    Python leaves the order of [iteritems] open; here it is that of
    [map_to_list]. *)
Definition parse_override (f : list string) : result t :=
  let code := read_code f in
  '(code, docstring) ← split_docstrings (map_to_list code) code ∅;
  (* Not robust wrt. internal methods, but this works for the moment. *)
  Ok (Make code (findall_lines def_re <$> code) docstring).

End Override.

(** ** The consistency checks of the main program *)

(** The body of the loop run with [--check] for one method: the lines
    printed. *)
Definition check_method (m : method) : list string :=
  if String.eqb (PyStr.strip (m_comment m)) "" then
    [ "No comment for " +:+ m_name m ]
  else if bool_decide (length (Re.findall1 comment_re (m_comment m))
                       <> length (m_params m)) then
    [ "Docstring comment parameters mismatch for " +:+ m_name m ]
  else [].

(** * Vocabulary of the properties *)

(** Whether every match of a pattern sets group [i]: the group is on
    every path through the pattern, outside any optional part. *)
Fixpoint always_sets (r : Re.regex) (i : nat) : bool :=
  match r with
  | Re.Group j r1 => (i =? j)%nat || always_sets r1 i
  | Re.Seq r1 r2 => always_sets r1 i || always_sets r2 i
  | Re.Alt r1 r2 => always_sets r1 i && always_sets r2 i
  | _ => false
  end.

(** A line of an include file, with its line break. *)
Definition line (s : string) : string := s +:+ PyStr.nl.

(** Every type of a parameter list has an entry in the mapping. *)
Definition mapped (type2class : gmap string string) (params : list param) : Prop :=
  Forall (fun p : param => is_Some (type2class !! p.1)) params.

(** [typ], of parameter [name], is the first type of [params] without an
    entry. *)
Definition first_unmapped (type2class : gmap string string) (params : list param)
    (typ name : string) : Prop :=
  exists pre post,
    params = pre ++ (typ, name) :: post
    /\ mapped type2class pre
    /\ type2class !! typ = None.

(** The outcome of a type check over [methods]: either every parameter
    type of every method has an entry, or the exception names the first
    type without one, with the method and the parameter it belongs to. *)
Definition checked (type2class : gmap string string) (methods : list method)
    (r : result unit) : Prop :=
  match r with
  | Ok _ => Forall (fun m => mapped type2class (m_params m)) methods
  | Raise e =>
      exists pre m post typ name,
        methods = pre ++ m :: post
        /\ Forall (fun m => mapped type2class (m_params m)) pre
        /\ first_unmapped type2class (m_params m) typ name
        /\ e = no_conversion typ (m_name m) name
  end.

(** The integer an explicit value text stands for, as the member loop
    reads it: hexadecimal behind the prefix [0x], decimal otherwise. *)
Definition explicit_value (v : string) : option Z :=
  if PyStr.startswith "0x" v then PyInt.int16 v else PyInt.int10 v.

(** A piece of the member list that is a member without a value. *)
Definition implicit_member (l : string) : Prop :=
  PyStr.strip l <> ""
  /\ PyStr.startswith "/*" (PyStr.strip l) = false
  /\ PyStr.contains "=" (PyStr.strip l) = false.

(** A piece that is a member [n = v] with a value. *)
Definition explicit_member (l n v : string) : Prop :=
  PyStr.startswith "/*" (PyStr.strip l) = false
  /\ PyStr.contains "=" (PyStr.strip l) = true
  /\ Re.split assign_re (PyStr.strip l) = [n; v].

(** A piece that is no member: blank, or a comment fragment. *)
Definition no_member (l : string) : Prop :=
  PyStr.strip l = "" \/ PyStr.startswith "/*" (PyStr.strip l) = true.

Section WrapperRewrite.
Import PythonGenerator.
Context (self : PythonGenerator.t) (env : files).

(** Whether the loop body reaches the assignment to [params[0]] for an
    element, [prefix] being the prefix of its class. *)
Definition rewrites (prefix : string) (e : element) : bool :=
  negb (bool_decide (el_method e ∈ blacklist))
  && negb (bool_decide
             (short_name prefix (el_method e)
                ∈ default [] (overriden_methods env !! el_class e))).

Definition class_prefix (cl : string) : string := default "" (prefixes self !! cl).

(** The same for a method of [parser.methods]: it is wrapped into a
    class, is not blacklisted, and its short name is not overridden. *)
Definition rewritten (m : method) : bool :=
  match wrapper_class (type2class_ self) m with
  | Some cl =>
      rewrites (class_prefix cl) (Element cl 0 (m_rtype m) (m_name m) (m_comment m))
  | None => false
  end.

Definition rewrite_step (prefix_of : string -> string) (ms : list method) (e : element)
    : list method :=
  if rewrites (prefix_of (el_class e)) e
  then alter (with_params set_self) (el_ref e) ms
  else ms.
End WrapperRewrite.

(** The wrapper definitions written are those of the elements whose
    first parameter is rewritten. *)
Definition wrappers_of (env : PythonGenerator.files) (prefix_of : string -> string)
    (el : list PythonGenerator.element) (items : list item) : Prop :=
  (forall e, e ∈ el -> rewrites env (prefix_of (PythonGenerator.el_class e)) e = true ->
     exists args c,
       WrapperDef (PythonGenerator.short_name (prefix_of (PythonGenerator.el_class e)) (PythonGenerator.el_method e)) (PythonGenerator.el_method e) args c
         ∈ items)
  /\ (forall name method args c, WrapperDef name method args c ∈ items ->
        exists e, e ∈ el /\ method = PythonGenerator.el_method e
                  /\ rewrites env (prefix_of (PythonGenerator.el_class e)) e = true).

(** The method a written item declares, wraps or calls, if any. *)
Definition item_method (i : item) : option string :=
  match i with
  | CtypesDecl method _ _ _ => Some method
  | WrapperDef _ method _ _ => Some method
  | LenDef method => Some method
  | GetitemDef method => Some method
  | JavaDecl _ method _ => Some method
  | _ => None
  end.

(** No item is about a blacklisted method. *)
Definition clean (out : list item) : Prop :=
  Forall (fun i => forall m, item_method i = Some m -> m ∉ blacklist) out.

(** The state of the wrapper loops holds nothing about a blacklisted
    method: not in the set [ret], not in what was written. *)
Definition wrapping_clean (st : PythonGenerator.wrapping) : Prop :=
  clean (PythonGenerator.w_out st) /\ forall x, x ∈ PythonGenerator.w_ret st -> x ∉ blacklist.

(** ** A small run used in the examples

    Two prototypes on a player, the second one blacklisted; no header,
    footer or override text. *)

Definition example_include : list string :=
  [ line "VLC_PUBLIC_API int libvlc_media_player_count( libvlc_media_player_t *p_mi );";
    line "VLC_PUBLIC_API void libvlc_video_set_callbacks( libvlc_media_player_t *mp, void *opaque );" ].

Definition example_files : PythonGenerator.files :=
  PythonGenerator.Files [] [] ∅ ∅ ∅ "".

Definition example_count : method :=
  Method "int" "libvlc_media_player_count" [("libvlc_media_player_t*", "p_mi")] "".

Definition example_callbacks : method :=
  Method "void" "libvlc_video_set_callbacks"
    [("libvlc_media_player_t*", "mp"); ("void*", "opaque")] "".

Definition example_generator (methods : list method) : PythonGenerator.t :=
  PythonGenerator.Make (Parser.Make methods [] [])
    (∅ ∪ PythonGenerator.type2class)
    (PythonGenerator.make_prefixes (∅ ∪ PythonGenerator.type2class)).

Definition example_output : list item :=
  [ Raw "class MediaPlayer(object):"; ClassNew; ClassFromParam;
    WrapperDef "count" "libvlc_media_player_count" "self" "";
    LenDef "libvlc_media_player_count";
    CtypesDecl "libvlc_media_player_count" "ctypes.c_int, MediaPlayer" "(1,)," "";
    Raw "# 1 methods not wrapped :";
    NotWrapped ["#  libvlc_video_set_callbacks"] ].

(** ** Outcomes

    [raises_only P r]: the computation [r] returns, or raises an
    exception satisfying [P]. *)
Definition raises_only {A : Type} (P : exn -> Prop) (r : result A) : Prop :=
  match r with
  | Ok _ => True
  | Raise e => P e
  end.


(** ** The methods counted as wrapped

    [is_wrapped type2class methods x]: some method named [x] has a first
    parameter of a defined class, and [x] is not blacklisted. *)
Definition is_wrapped (type2class : gmap string string) (methods : list method)
    (x : string) : bool :=
  existsb (fun m => String.eqb (m_name m) x
                    && bool_decide (is_Some (PythonGenerator.wrapper_class type2class m)))
          methods
  && negb (bool_decide (x ∈ blacklist)).

(** The closing lines of the output: the methods not wrapped, in the
    order of the parser. *)
Definition not_wrapped_summary (type2class : gmap string string)
    (methods : list method) : list item :=
  let unwrapped_methods :=
    List.map (fun m => "#  " +:+ m_name m)
      (List.filter (fun m => negb (is_wrapped type2class methods (m_name m))) methods) in
  match unwrapped_methods with
  | [] => []
  | _ => [ Raw ("# " +:+ PyInt.fmt_d (length unwrapped_methods)
                     +:+ " methods not wrapped :");
           NotWrapped unwrapped_methods ]
  end.

(** The order of the elements the wrapper loop goes over: by class name,
    and within a class by position in [parser.methods]. *)
Definition class_then_position (a b : PythonGenerator.element) : Prop :=
  String.le (PythonGenerator.el_class a) (PythonGenerator.el_class b)
  /\ (PythonGenerator.el_class a = PythonGenerator.el_class b ->
      PythonGenerator.el_ref a < PythonGenerator.el_ref b).

(** A line that [parse_include] takes for a part of a comment. *)
Definition is_comment_line (l : string) : bool :=
  PyStr.startswith "/**" (PyStr.lstrip l) || PyStr.startswith " * " l.

(** The first line of a declaration that goes on on the next line. *)
Definition opens_declaration (l : string) : bool :=
  negb (is_comment_line l)
  && PyStr.startswith "VLC_PUBLIC_API" (PyStr.strip l)
  && negb (PyStr.endswith ");" (PyStr.strip l)).

(** A line in the middle of a declaration. *)
Definition continues_declaration (l : string) : bool :=
  negb (is_comment_line l)
  && negb (PyStr.endswith ");" (PyStr.strip l))
  && negb (PyStr.startswith "VLC_PUBLIC_API" (PyStr.strip l)).

(** The last line of a declaration. *)
Definition closes_declaration (l : string) : bool :=
  negb (is_comment_line l) && PyStr.endswith ");" (PyStr.strip l).

(** The lines of a declaration on one line. *)
Definition on_one_line (ls : list string) : string :=
  PyStr.join " " (List.map PyStr.strip ls).

(** * Properties *)


(** ** The direction table *)

Lemma paramFlag3_cases (typ : string) :
  paramFlag3 typ = [Flag.Out] /\ (typ = "int*" \/ typ = "unsigned*")
  \/ paramFlag3 typ = [Flag.InOut] /\ typ = "libvlc_exception_t*"
  \/ paramFlag3 typ = [Flag.In]
     /\ typ <> "int*" /\ typ <> "unsigned*" /\ typ <> "libvlc_exception_t*".
Proof.
  unfold paramFlag3.
  destruct (String.eqb_spec typ "int*") as [-> | H1]; [left; auto |].
  destruct (String.eqb_spec typ "unsigned*") as [-> | H2]; [left; auto |].
  destruct (String.eqb_spec typ "libvlc_exception_t*") as [-> | H3];
    [right; left; auto | right; right; auto].
Qed.

(** C4, as stated, fails: no two type tokens account for every
    non-input direction with one of them [Out] and the other [InOut],
    since both ["int*"] and ["unsigned*"] are [Out]. *)
Lemma paramFlag3_not_two_exceptions :
  ~ exists t1 t2 : string,
      paramFlag3 t1 = [Flag.Out] /\ paramFlag3 t2 = [Flag.InOut]
      /\ forall typ, typ <> t1 -> typ <> t2 -> paramFlag3 typ = [Flag.In].
Proof.
  intros (t1 & t2 & _ & H2 & Hrest).
  assert (Hi : "int*" <> t2) by (intros <-; discriminate H2).
  assert (Hu : "unsigned*" <> t2) by (intros <-; discriminate H2).
  destruct (decide (t1 = "int*")) as [-> | Hne].
  - specialize (Hrest "unsigned*" ltac:(discriminate) Hu). discriminate Hrest.
  - specialize (Hrest "int*" ltac:(congruence) Hi). discriminate Hrest.
Qed.

(** C4 (amended): the classifier returns a 1-tuple; exactly three type
    tokens get a non-input direction, ["int*"] and ["unsigned*"] being
    [Out] and ["libvlc_exception_t*"] being [InOut]; every other token
    gets [(In,)]. *)
Theorem paramFlag3_three_exceptions :
  paramFlag3 "int*" = [Flag.Out]
  /\ paramFlag3 "unsigned*" = [Flag.Out]
  /\ paramFlag3 "libvlc_exception_t*" = [Flag.InOut]
  /\ forall typ : string,
       length (paramFlag3 typ) = 1
       /\ (paramFlag3 typ <> [Flag.In]
           <-> typ = "int*" \/ typ = "unsigned*" \/ typ = "libvlc_exception_t*").
Proof.
  repeat split; try reflexivity.
  - intros Hne.
    destruct (paramFlag3_cases typ) as [[_ [-> | ->]] | [[_ ->] | [Hin _]]]; auto.
    contradiction.
  - intros H Heq.
    destruct (paramFlag3_cases typ) as [[Ho _] | [[Ho _] | (_ & H1 & H2 & H3)]].
    + rewrite Ho in Heq. discriminate.
    + rewrite Ho in Heq. discriminate.
    + destruct H as [-> | [-> | ->]]; contradiction.
Qed.

Lemma paramFlag3_three_exceptions_witness :
  paramFlag3 "float" = [Flag.In] /\ paramFlag3 "unsigned*" <> [Flag.In].
Proof.
  destruct paramFlag3_three_exceptions as (_ & _ & _ & H).
  split.
  - destruct (H "float") as [_ [Hfwd _]].
    destruct (decide (paramFlag3 "float" = [Flag.In])) as [Heq | Hne]; [exact Heq |].
    destruct (Hfwd Hne) as [E | [E | E]]; discriminate E.
  - destruct (H "unsigned*") as [_ [_ Hback]]. apply Hback. right. left. reflexivity.
Defined.

(** ** Example inputs *)

(** C1: on the line [enum { RED, GREEN=5, BLUE };] the pattern [enum_re]
    does not match, its name group [(\S+)] being mandatory, so
    [parse_typedef] yields no enum at all, and the branch giving the
    dummy name to an anonymous enum is never taken; with a name the
    member list is the expected one. *)
Theorem anonymous_enum_is_dropped :
  Re.match_ enum_re "enum { RED, GREEN=5, BLUE };" = None
  /\ Parser.parse_typedef [line "enum { RED, GREEN=5, BLUE };"] = Ok []
  /\ Parser.parse_typedef [line "enum colour { RED, GREEN=5, BLUE };"]
     = Ok [Enum "enum" "colour" [("RED", "0"); ("GREEN", "5"); ("BLUE", "6")] ""].
Proof. repeat split; vm_compute; reflexivity. Qed.

(** *** The name group of [enum_re]

    A match of [enum_re] always has its second group, whatever the line:
    the test [name is None] of [parse_typedef] never holds, and
    ["libvlc_enum_t"] is never given as a name. *)

Section Groups.
Context {A : Type}.

Lemma lit_inv (p : string) (pos : nat) (s : string)
    (k : nat -> string -> option A) (x : A) :
  Re.lit p pos s k = Some x -> exists pos' s', k pos' s' = Some x.
Proof.
  revert pos s. induction p as [| a p IH]; intros pos s H; simpl in H.
  - eauto.
  - destruct s as [| b s]; [discriminate |].
    destruct (Ascii.eqb a b); [| discriminate]. apply (IH _ _ H).
Qed.

Lemma rep_greedy_inv (cl : Re.cclass) (lo pos : nat) (s : string)
    (k : nat -> string -> option A) (x : A) :
  Re.rep_greedy cl lo pos s k = Some x -> exists pos' s', k pos' s' = Some x.
Proof.
  revert lo pos. induction s as [| a s IH]; intros lo pos H; simpl in H.
  - destruct (lo =? 0)%nat; [eauto | discriminate].
  - destruct (Re.cmatch cl a).
    + destruct (Re.rep_greedy cl (pred lo) (S pos) s k) eqn:Hrec.
      * injection H as <-. apply (IH _ _ Hrec).
      * destruct (lo =? 0)%nat; [eauto | discriminate].
    + destruct (lo =? 0)%nat; [eauto | discriminate].
Qed.

Lemma rep_lazy_inv (cl : Re.cclass) (lo pos : nat) (s : string)
    (k : nat -> string -> option A) (x : A) :
  Re.rep_lazy cl lo pos s k = Some x -> exists pos' s', k pos' s' = Some x.
Proof.
  revert lo pos. induction s as [| a s IH]; intros lo pos H; simpl in H.
  - destruct (lo =? 0)%nat; [| discriminate].
    destruct (k pos "") eqn:Hk; [| discriminate]. injection H as <-. eauto.
  - destruct (lo =? 0)%nat.
    + destruct (k pos (String a s)) eqn:Hk.
      * injection H as <-. eauto.
      * destruct (Re.cmatch cl a); [| discriminate]. apply (IH _ _ H).
    + destruct (Re.cmatch cl a); [| discriminate]. apply (IH _ _ H).
Qed.

Lemma run_inv (r : Re.regex) (pos : nat) (s : string) (c : Re.caps)
    (k : nat -> string -> Re.caps -> option A) (x : A) :
  Re.run r pos s c k = Some x ->
  exists pos' s' c',
    k pos' s' c' = Some x
    /\ (forall i, is_Some (Re.span i c) -> is_Some (Re.span i c'))
    /\ (forall i, always_sets r i = true -> is_Some (Re.span i c')).
Proof.
  revert pos s c k.
  induction r as [p | cl lo greedy | r1 IH1 r2 IH2 | r1 IH1 r2 IH2 | r1 IH1
                  | j r1 IH1 | |]; intros pos s c k H; simpl in H.
  - apply lit_inv in H as (pos' & s' & Hk). exists pos', s', c.
    split; [exact Hk |]. split; [auto | discriminate].
  - destruct greedy.
    + apply rep_greedy_inv in H as (pos' & s' & Hk). exists pos', s', c.
      split; [exact Hk |]. split; [auto | discriminate].
    + apply rep_lazy_inv in H as (pos' & s' & Hk). exists pos', s', c.
      split; [exact Hk |]. split; [auto | discriminate].
  - apply IH1 in H as (p1 & s1 & c1 & H & Hkeep1 & Hset1).
    apply IH2 in H as (p2 & s2 & c2 & H & Hkeep2 & Hset2).
    exists p2, s2, c2. split; [exact H |]. split; [auto |].
    intros i Hi. simpl in Hi. apply orb_true_iff in Hi as [Hi | Hi]; auto.
  - destruct (Re.run r1 pos s c k) eqn:H1.
    + injection H as <-. apply IH1 in H1 as (p1 & s1 & c1 & H & Hkeep & Hset).
      exists p1, s1, c1. split; [exact H |]. split; [auto |].
      intros i Hi. simpl in Hi. apply andb_true_iff in Hi as [Hi _]. auto.
    + apply IH2 in H as (p2 & s2 & c2 & H & Hkeep & Hset).
      exists p2, s2, c2. split; [exact H |]. split; [auto |].
      intros i Hi. simpl in Hi. apply andb_true_iff in Hi as [_ Hi]. auto.
  - destruct (Re.run r1 pos s c k) eqn:H1.
    + injection H as <-. apply IH1 in H1 as (p1 & s1 & c1 & H & Hkeep & _).
      exists p1, s1, c1. split; [exact H |]. split; [auto | discriminate].
    + exists pos, s, c. split; [exact H |]. split; [auto | discriminate].
  - apply IH1 in H as (p1 & s1 & c1 & H & Hkeep & Hset).
    exists p1, s1, ((j, (pos, p1)) :: c1). split; [exact H |]. split.
    + intros i Hi. simpl. destruct (i =? j)%nat; [eexists; reflexivity | auto].
    + intros i Hi. simpl in *. destruct (i =? j)%nat; [eexists; reflexivity | auto].
  - destruct (pos =? 0)%nat; [| discriminate]. exists pos, s, c.
    split; [exact H |]. split; [auto | discriminate].
  - exists pos, s, c. split; [| split; [auto | discriminate]].
    destruct s as [| a [| b s]]; try exact H; try discriminate.
    + destruct a as [[] [] [] [] [] [] [] []]; try discriminate; exact H.
    + destruct a as [[] [] [] [] [] [] [] []]; discriminate.
Qed.
End Groups.

Lemma match_sets_group (r : Re.regex) (i : nat) (l : string) (m : Re.mtch) :
  always_sets r (S i) = true ->
  Re.match_ r l = Some m ->
  is_Some (Re.group l m (S i)).
Proof.
  unfold Re.match_, Re.at_pos. intros Hset H.
  apply run_inv in H as (pos' & s' & c' & Hk & _ & Hsets).
  injection Hk as <-. simpl.
  destruct (Hsets (S i) Hset) as [sp Hsp]. rewrite Hsp. eexists. reflexivity.
Qed.

Lemma enum_name_group_is_set (l : string) (m : Re.mtch) :
  Re.match_ enum_re l = Some m -> is_Some (Re.group l m 2).
Proof. apply match_sets_group. reflexivity. Qed.

Lemma parse_enum_name (l comment : string) (m : Re.mtch) (e : enum) :
  Re.match_ enum_re l = Some m ->
  Parser.parse_enum l comment m = Ok e ->
  exists name, Re.group l m 2 = Some name /\ e_name e = PyStr.strip name.
Proof.
  intros Hm He. destruct (enum_name_group_is_set l m Hm) as [name Hname].
  exists name. split; [exact Hname |].
  unfold Parser.parse_enum in He. rewrite Hname in He.
  destruct (Parser.enum_values _ 0); simpl in He; [| discriminate].
  injection He as <-. reflexivity.
Qed.

(** C7: the documented one-line prototype
    [VLC_PUBLIC_API int foo(const char * name);] is classified as the
    function [foo] returning ["int"] with the parameter list
    [[("char*", "name")]], nothing being printed: [const] is dropped,
    the star ends up on the type (moved there from the name when it is
    written against the name) and the blank inside the type is removed. *)
Theorem parse_include_example :
  Parser.parse_include
    [ line "/**";
      line " * \param name the label";
      line " */";
      line "VLC_PUBLIC_API int foo(const char * name);" ]
  = Ok ([Method "int" "foo" [("char*", "name")] (line "\param name the label")], [])
  /\ Re.match_ api_re "VLC_PUBLIC_API int foo(const char * name);"
     = Some (Re.Mtch 0 41 [(2, (23, 40)); (1, (15, 22))])
  /\ Parser.parse_param "int foo" = Ok ("int", "foo")
  /\ Parser.parse_param "const char * name" = Ok ("char*", "name")
  /\ Parser.parse_param "const char *name" = Ok ("char*", "name")
  /\ Parser.move_stars "char" "*name" = ("char*", "name").
Proof. repeat split; vm_compute; reflexivity. Qed.

(** ** The type check of the two backends *)


Lemma has_key_true type2class typ :
  has_key type2class typ = true <-> is_Some (type2class !! typ).
Proof. unfold has_key. apply bool_decide_eq_true. Qed.

Lemma has_key_false type2class typ :
  has_key type2class typ = false <-> type2class !! typ = None.
Proof.
  unfold has_key. rewrite bool_decide_eq_false, <- eq_None_not_Some. reflexivity.
Qed.

Lemma check_params_spec type2class met params :
  match check_params type2class met params with
  | Ok _ => mapped type2class params
  | Raise e =>
      exists typ name,
        first_unmapped type2class params typ name /\ e = no_conversion typ met name
  end.
Proof.
  induction params as [| [typ name] params IH]; simpl.
  - constructor.
  - destruct (has_key type2class typ) eqn:Hk.
    + apply has_key_true in Hk.
      destruct (check_params type2class met params).
      * constructor; assumption.
      * destruct IH as (typ' & name' & (pre & post & -> & Hpre & Hnone) & ->).
        exists typ', name'. split; [| reflexivity].
        exists ((typ, name) :: pre), post. repeat split; auto.
        constructor; assumption.
    + apply has_key_false in Hk.
      exists typ, name. split; [| reflexivity].
      exists [], params. repeat split; auto. constructor.
Qed.


Lemma python_check_types_spec type2class methods :
  checked type2class methods (PythonGenerator.check_types type2class methods).
Proof.
  induction methods as [| m methods IH]; simpl.
  - constructor.
  - pose proof (check_params_spec type2class (m_name m) (m_params m)) as Hp.
    destruct (check_params type2class (m_name m) (m_params m)) as [[] | e]; simpl.
    + destruct (PythonGenerator.check_types type2class methods) as [[] | e]; simpl in *.
      * constructor; assumption.
      * destruct IH as (pre & m' & post & typ & name & -> & Hpre & Hfirst & ->).
        exists (m :: pre), m', post, typ, name. repeat split; auto.
    + destruct Hp as (typ & name & Hfirst & ->).
      exists [], m, methods, typ, name. repeat split; auto.
Qed.

(** The Java check is the Python one with the blacklisted methods left
    out. *)
Lemma java_check_types_filter type2class methods :
  JavaGenerator.check_types type2class methods
  = PythonGenerator.check_types type2class
      (List.filter (fun m => negb (bool_decide (m_name m ∈ blacklist))) methods).
Proof.
  induction methods as [| m methods IH]; simpl; [reflexivity |].
  destruct (bool_decide (m_name m ∈ blacklist)); simpl; rewrite IH; reflexivity.
Qed.

Lemma traverse_lookup (type2class : gmap string string) (params : list param) :
  mapped type2class params ->
  exists tys,
    traverse (fun p : param => must (KeyError p.1) (type2class !! p.1)) params = Ok tys
    /\ Forall2 (fun (p : param) ty => type2class !! p.1 = Some ty) params tys.
Proof.
  induction 1 as [| p params [ty Hty] _ (tys & Htys & Hall)]; simpl.
  - exists []. split; [reflexivity | constructor].
  - rewrite Hty. simpl. rewrite Htys. simpl.
    exists (ty :: tys). split; [reflexivity | constructor; assumption].
Qed.

Lemma python_init_ok (p : Parser.t) (g : PythonGenerator.t) :
  PythonGenerator.init p = Ok g ->
  PythonGenerator.parser g = p
  /\ Forall (fun m => mapped (PythonGenerator.type2class_ g) (m_params m))
            (Parser.methods p).
Proof.
  unfold PythonGenerator.init. intros H.
  destruct (PythonGenerator.convert_enum_names (Parser.enums p) ∅) as [names | e];
    simpl in H; [| discriminate].
  pose proof (python_check_types_spec (names ∪ PythonGenerator.type2class)
                (Parser.methods p)) as Hc.
  destruct (PythonGenerator.check_types (names ∪ PythonGenerator.type2class)
              (Parser.methods p)) as [[] | e]; simpl in H; [| discriminate].
  injection H as <-. split; [reflexivity | exact Hc].
Qed.

(** C2, as stated, fails: the declaration
    [VLC_PUBLIC_API foo_t libvlc_get_foo( void );] passes the check of
    both backends although its return type has no entry, and is emitted
    with the fallback [FIXME_foo_t]. *)
Lemma unmapped_return_type_is_emitted :
  let p := Parser.Make [Method "foo_t" "libvlc_get_foo" [] ""] [] [] in
  let g := PythonGenerator.Make p (∅ ∪ PythonGenerator.type2class)
             (PythonGenerator.make_prefixes (∅ ∪ PythonGenerator.type2class)) in
  let j := JavaGenerator.Make p (∅ ∪ JavaGenerator.type2class) in
  Parser.init [[line "VLC_PUBLIC_API foo_t libvlc_get_foo( void );"]] = Ok p
  /\ PythonGenerator.init p = Ok g
  /\ PythonGenerator.type2class_ g !! "foo_t" = None
  /\ PythonGenerator.output_ctypes g (Method "foo_t" "libvlc_get_foo" [] "")
     = Ok [CtypesDecl "libvlc_get_foo" "FIXME_foo_t" "" ""]
  /\ JavaGenerator.init p = Ok j
  /\ JavaGenerator.type2class_ j !! "foo_t" = None
  /\ JavaGenerator.declare_methods j (Parser.methods p)
     = Ok [JavaDecl "FIXME_foo_t" "libvlc_get_foo" ""].
Proof.
  cbv zeta. repeat split; vm_compute; reflexivity.
Qed.

(** C2 (amended): in both backends the check made when the generator is
    built covers the parameter types only.  Either every parameter type
    of every method checked has an entry in the mapping, or the check
    raises, before anything is written, the exception naming the first
    type without an entry, its function and its parameter; the Python
    backend checks every parsed method, the Java backend all but the
    blacklisted ones.  Return types are not checked: a checked method is
    emitted with the entry of its return type or, without one, with
    [FIXME_] followed by the type. *)
Theorem parameter_types_are_checked
    (type2class : gmap string string) (methods : list method) :
  checked type2class methods (PythonGenerator.check_types type2class methods)
  /\ checked type2class
       (List.filter (fun m => negb (bool_decide (m_name m ∈ blacklist))) methods)
       (JavaGenerator.check_types type2class methods)
  /\ (forall (p : Parser.t) (g : PythonGenerator.t),
        PythonGenerator.init p = Ok g ->
        Forall (fun m => mapped (PythonGenerator.type2class_ g) (m_params m))
               (Parser.methods p))
  /\ (forall (self : PythonGenerator.t) (m : method) (comment : string),
        mapped (PythonGenerator.type2class_ self) (m_params m) ->
        m_name m ∉ blacklist ->
        PythonGenerator.epydoc_comment (m_comment m) false = Ok comment ->
        exists tys flags,
          Forall2 (fun (p : param) ty => PythonGenerator.type2class_ self !! p.1 = Some ty)
                  (m_params m) tys
          /\ PythonGenerator.output_ctypes self m
             = Ok [CtypesDecl (m_name m)
                     (PyStr.join ", "
                        (default ("FIXME_" +:+ m_rtype m)
                                 (PythonGenerator.type2class_ self !! m_rtype m) :: tys))
                     flags comment]).
Proof.
  split; [apply python_check_types_spec |].
  split; [rewrite java_check_types_filter; apply python_check_types_spec |].
  split; [intros p g H; apply (python_init_ok p g H) |].
  intros self m comment Hmapped Hblack Hdoc.
  destruct (traverse_lookup _ _ Hmapped) as (tys & Htys & Hall).
  exists tys. eexists. split; [exact Hall |].
  unfold PythonGenerator.output_ctypes.
  rewrite bool_decide_eq_false_2 by exact Hblack.
  rewrite Htys. simpl. rewrite Hdoc. simpl. reflexivity.
Qed.

Lemma parameter_types_are_checked_witness :
  exists flags,
    PythonGenerator.output_ctypes
      (PythonGenerator.Make (Parser.Make [] [] []) PythonGenerator.type2class ∅)
      (Method "foo_t" "libvlc_media_get_foo" [("libvlc_media_t*", "p_md")] "")
    = Ok [CtypesDecl "libvlc_media_get_foo" "FIXME_foo_t, Media" flags ""].
Proof.
  destruct (parameter_types_are_checked PythonGenerator.type2class []) as (_ & _ & _ & H).
  destruct (H (PythonGenerator.Make (Parser.Make [] [] []) PythonGenerator.type2class ∅)
              (Method "foo_t" "libvlc_media_get_foo" [("libvlc_media_t*", "p_md")] "")
              "")
    as (tys & flags & Hall & Hout).
  - repeat constructor. vm_compute. eexists. reflexivity.
  - vm_compute. intros Hin. repeat (inversion Hin as [| ? ? ? Hin']; subst; clear Hin; rename Hin' into Hin).
  - vm_compute. reflexivity.
  - exists flags. rewrite Hout.
    inversion Hall as [| ? ty ? tys' Hty Hall' ]; subst.
    inversion Hall'; subst.
    vm_compute in Hty. injection Hty as <-. reflexivity.
Defined.

Lemma python_check_types_app type2class pre methods :
  Forall (fun m => mapped type2class (m_params m)) pre ->
  PythonGenerator.check_types type2class (pre ++ methods)
  = PythonGenerator.check_types type2class methods.
Proof.
  induction 1 as [| m pre Hm _ IH]; simpl; [reflexivity |].
  pose proof (check_params_spec type2class (m_name m) (m_params m)) as Hp.
  destruct (check_params type2class (m_name m) (m_params m)) as [[] | e]; simpl.
  - exact IH.
  - destruct Hp as (typ & name & (ppre & ppost & Heq & _ & Hnone) & _).
    rewrite Heq in Hm. apply Forall_app in Hm as [_ Hm].
    apply Forall_cons in Hm as [[ty Hty] _]. simpl in Hty. congruence.
Qed.

Lemma check_params_first type2class met pre typ name post :
  mapped type2class pre ->
  type2class !! typ = None ->
  check_params type2class met (pre ++ (typ, name) :: post)
  = Raise (no_conversion typ met name).
Proof.
  intros Hpre Hnone. induction Hpre as [| [t n] pre Ht _ IH]; simpl.
  - apply has_key_false in Hnone. rewrite Hnone. reflexivity.
  - apply has_key_true in Ht. simpl in Ht. rewrite Ht. exact IH.
Qed.

(** C10: the check of the Python backend goes over every parsed method,
    the blacklisted ones included.  When the first parameter type
    without an entry belongs to a blacklisted method, building the
    Python generator raises the exception naming that type, the method
    and the parameter, although [output_ctypes] writes nothing for that
    method and the Java check passes over it. *)
Theorem blacklisted_method_is_checked
    (p : Parser.t) (names : gmap string string)
    (pre post : list method) (m : method)
    (ppre ppost : list param) (typ name : string) :
  PythonGenerator.convert_enum_names (Parser.enums p) ∅ = Ok names ->
  Parser.methods p = pre ++ m :: post ->
  m_name m ∈ blacklist ->
  m_params m = ppre ++ (typ, name) :: ppost ->
  (names ∪ PythonGenerator.type2class) !! typ = None ->
  Forall (fun m' => mapped (names ∪ PythonGenerator.type2class) (m_params m')) pre ->
  mapped (names ∪ PythonGenerator.type2class) ppre ->
  PythonGenerator.init p = Raise (no_conversion typ (m_name m) name)
  /\ (forall self : PythonGenerator.t, PythonGenerator.output_ctypes self m = Ok [])
  /\ (forall type2class : gmap string string,
        JavaGenerator.check_types type2class (m :: post)
        = JavaGenerator.check_types type2class post).
Proof.
  intros Hnames Hmethods Hblack Hparams Hnone Hpre Hppre.
  split; [| split].
  - unfold PythonGenerator.init. rewrite Hnames. simpl.
    rewrite Hmethods, python_check_types_app by exact Hpre.
    simpl. rewrite Hparams.
    rewrite (check_params_first _ _ _ _ _ _ Hppre Hnone). reflexivity.
  - intros self. unfold PythonGenerator.output_ctypes.
    rewrite bool_decide_eq_true_2 by exact Hblack. reflexivity.
  - intros type2class. simpl.
    rewrite bool_decide_eq_true_2 by exact Hblack. reflexivity.
Qed.

Lemma blacklisted_method_is_checked_witness :
  Parser.init
    [[ line "VLC_PUBLIC_API void libvlc_set_exit_handler( libvlc_instance_t *p_i, exit_cb_t cb );" ]]
  = Ok (Parser.Make
          [ Method "void" "libvlc_set_exit_handler"
              [("libvlc_instance_t*", "p_i"); ("exit_cb_t", "cb")] "" ] [] [])
  /\ PythonGenerator.init
       (Parser.Make
          [ Method "void" "libvlc_set_exit_handler"
              [("libvlc_instance_t*", "p_i"); ("exit_cb_t", "cb")] "" ] [] [])
     = Raise (Exception "No conversion for exit_cb_t (from libvlc_set_exit_handler:cb)").
Proof.
  split; [vm_compute; reflexivity |].
  refine (proj1 (blacklisted_method_is_checked
            (Parser.Make
               [ Method "void" "libvlc_set_exit_handler"
                   [("libvlc_instance_t*", "p_i"); ("exit_cb_t", "cb")] "" ] [] [])
            ∅ [] []
            (Method "void" "libvlc_set_exit_handler"
               [("libvlc_instance_t*", "p_i"); ("exit_cb_t", "cb")] "")
            [("libvlc_instance_t*", "p_i")] [] "exit_cb_t" "cb"
            _ _ _ _ _ _ _)).
  - reflexivity.
  - reflexivity.
  - apply list_elem_of_here.
  - reflexivity.
  - vm_compute. reflexivity.
  - constructor.
  - repeat constructor. vm_compute. eexists. reflexivity.
Defined.

(** ** The running counter of enum members *)


Lemma enum_values_cons (l : string) (rest : list string) (val : Z) :
  Parser.enum_values (l :: rest) val
  = if PyStr.startswith "/*" (PyStr.strip l) then Parser.enum_values rest val
    else if PyStr.contains "=" (PyStr.strip l) then
      match Re.split assign_re (PyStr.strip l) with
      | [n; v] =>
          val ← must ValueError (explicit_value v);
          values ← Parser.enum_values rest (val + 1);
          Ok ((n, v) :: values)
      | _ => Raise ValueError
      end
    else
      values ← Parser.enum_values rest (val + 1);
      Ok (if String.eqb (PyStr.strip l) "" then values
          else (PyStr.strip l, PyInt.str val) :: values).
Proof. reflexivity. Qed.

Lemma enum_values_implicit (l : string) (rest : list string) (val : Z) :
  implicit_member l ->
  Parser.enum_values (l :: rest) val
  = values ← Parser.enum_values rest (val + 1);
    Ok ((PyStr.strip l, PyInt.str val) :: values).
Proof.
  intros (Hne & Hc & He). rewrite enum_values_cons, Hc, He.
  apply String.eqb_neq in Hne. rewrite Hne. reflexivity.
Qed.

Lemma enum_values_explicit (l n v : string) (rest : list string) (val z : Z) :
  explicit_member l n v ->
  explicit_value v = Some z ->
  Parser.enum_values (l :: rest) val
  = values ← Parser.enum_values rest (z + 1); Ok ((n, v) :: values).
Proof.
  intros (Hc & He & Hs) Hv. rewrite enum_values_cons, Hc, He, Hs, Hv.
  reflexivity.
Qed.

Lemma enum_values_no_member (trailing : list string) (val : Z) :
  Forall no_member trailing -> Parser.enum_values trailing val = Ok [].
Proof.
  intros H. revert val.
  induction H as [| l trailing [Hb | Hc] _ IH]; intros val;
    [reflexivity | rewrite enum_values_cons ..].
  - rewrite Hb. simpl. rewrite IH. reflexivity.
  - rewrite Hc. apply IH.
Qed.

Lemma enum_values_run (body trailing : list string) (val : Z) :
  Forall implicit_member body ->
  Forall no_member trailing ->
  Parser.enum_values (body ++ trailing) val
  = Ok (imap (fun i l => (PyStr.strip l, PyInt.str (val + Z.of_nat i))) body).
Proof.
  intros Hbody Htrail. revert val.
  induction Hbody as [| l body Hl _ IH]; intros val.
  - simpl. apply enum_values_no_member, Htrail.
  - rewrite <- app_comm_cons, enum_values_implicit by exact Hl.
    rewrite IH. simpl. rewrite Z.add_0_r. do 2 f_equal.
    apply imap_ext. intros i x _. simpl. do 2 f_equal. lia.
Qed.

(** C5: the counter of [parse_typedef] starts at 0; a member without a
    value is given the current counter, printed in decimal; a member
    with a value sets the counter to that value, read in base 16 behind
    the prefix [0x] and in base 10 otherwise; after either kind of member
    the counter advances by one.  Hence a member list without explicit
    values (blank pieces or comment fragments, if any, coming last) is
    numbered 0, 1, 2, ... in order. *)
Theorem enum_counter :
  (forall (l : string) (rest : list string) (val : Z),
     implicit_member l ->
     Parser.enum_values (l :: rest) val
     = values ← Parser.enum_values rest (val + 1);
       Ok ((PyStr.strip l, PyInt.str val) :: values))
  /\ (forall (l n v : string) (rest : list string) (val z : Z),
        explicit_member l n v ->
        explicit_value v = Some z ->
        Parser.enum_values (l :: rest) val
        = values ← Parser.enum_values rest (z + 1); Ok ((n, v) :: values))
  /\ (forall (l comment : string) (m : Re.mtch) (body trailing : list string),
        Re.split paramlist_re (default "" (Re.group l m 3)) = body ++ trailing ->
        Forall implicit_member body ->
        Forall no_member trailing ->
        exists e,
          Parser.parse_enum l comment m = Ok e
          /\ e_values e
             = imap (fun i s => (PyStr.strip s, PyInt.str (Z.of_nat i))) body).
Proof.
  split; [exact enum_values_implicit |].
  split; [exact enum_values_explicit |].
  intros l comment m body trailing Hsplit Hbody Htrail.
  unfold Parser.parse_enum. rewrite Hsplit, (enum_values_run _ _ 0 Hbody Htrail).
  simpl. eexists. split; reflexivity.
Qed.

Lemma enum_counter_witness :
  Parser.enum_values ["A"; " B "; "C=0x1f"; "D"; "E = 7"; "F"; ""] 0
  = Ok [("A", "0"); ("B", "1"); ("C", "0x1f"); ("D", "32"); ("E", "7"); ("F", "8")]
  /\ Re.match_ enum_re "enum x { A, B, C, };"
     = Some (Re.Mtch 0 20 [(3, (9, 18)); (2, (5, 6)); (1, (0, 4))])
  /\ exists e,
       Parser.parse_enum "enum x { A, B, C, };"
         "" (Re.Mtch 0 20 [(3, (9, 18)); (2, (5, 6)); (1, (0, 4))]) = Ok e
       /\ e_values e = [("A", "0"); ("B", "1"); ("C", "2")].
Proof.
  destruct enum_counter as (Himp & Hexp & Hrun).
  split; [| split; [vm_compute; reflexivity |]].
  - rewrite (Himp "A") by (repeat split; [discriminate | vm_compute; reflexivity ..]).
    rewrite (Himp " B ") by (repeat split; [vm_compute; discriminate | vm_compute; reflexivity ..]).
    rewrite (Hexp "C=0x1f" "C" "0x1f" _ _ 31%Z)
      by (try (repeat split); vm_compute; reflexivity).
    rewrite (Himp "D") by (repeat split; [discriminate | vm_compute; reflexivity ..]).
    rewrite (Hexp "E = 7" "E" "7" _ _ 7%Z)
      by (try (repeat split); vm_compute; reflexivity).
    vm_compute. reflexivity.
  - destruct (Hrun "enum x { A, B, C, };" ""
                (Re.Mtch 0 20 [(3, (9, 18)); (2, (5, 6)); (1, (0, 4))])
                ["A"; "B"; "C"] [""]) as (e & He & Hv).
    + vm_compute. reflexivity.
    + repeat constructor; try discriminate; vm_compute; reflexivity.
    + repeat constructor.
    + exists e. split; [exact He | exact Hv].
Defined.

(** ** Enum members from the declaration to the output *)

(** C6, as stated, fails: the member [libvlc_Playing=0x10] is stored
    with the value text ["0x10"], and the Python backend writes that
    text, not the decimal ["16"], next to the shortened name
    ["Playing"]; the Java backend writes the symbol and the same text. *)
Lemma hex_member_is_not_decimal :
  Parser.parse_typedef [line "enum libvlc_state_t { libvlc_Playing=0x10 };"]
  = Ok [Enum "enum" "libvlc_state_t" [("libvlc_Playing", "0x10")] ""]
  /\ PythonGenerator.enum_members [("libvlc_Playing", "0x10")]
     = Ok ([EnumName "0x10" "Playing"], [("Playing", "0x10")])
  /\ render (EnumName "0x10" "Playing") = "        0x10: 'Playing',"
  /\ render (EnumAssign "State" [("Playing", "0x10")]) = "State.Playing=State(0x10)"
  /\ JavaGenerator.enum_members [("libvlc_Playing", "0x10")]
     = [JavaMember "libvlc_Playing" "0x10"]
  /\ explicit_value "0x10" = Some 16%Z
  /\ PyInt.str 16 = "16".
Proof. repeat split; vm_compute; reflexivity. Qed.

Lemma python_enum_members_spec (values : list (string * string))
    (out : list item) (l : list (string * string)) :
  PythonGenerator.enum_members values = Ok (out, l) ->
  Forall2 (fun (kv nv : string * string) =>
             PythonGenerator.member_name kv.1 = Ok nv.1 /\ nv.2 = kv.2) values l
  /\ out = List.map (fun nv : string * string => EnumName nv.2 nv.1) l.
Proof.
  revert out l. induction values as [| [k v] values IH]; intros out l H; simpl in H.
  - injection H as <- <-. split; [constructor | reflexivity].
  - destruct (PythonGenerator.member_name k) as [n | e] eqn:Hn; simpl in H; [| discriminate].
    destruct (PythonGenerator.enum_members values) as [[out' l'] | e]; simpl in H;
      [| discriminate].
    injection H as <- <-. destruct (IH out' l' eq_refl) as [Hall ->].
    split; [| reflexivity].
    constructor; [split; [exact Hn | reflexivity] | exact Hall].
Qed.

(** C6 (amended): the value of an enum member goes from the declaration
    to the output as text, unchanged.  A member declared with a value is
    stored with the text of that value as written (a hexadecimal value
    stays hexadecimal, it is not turned into decimal), a member without
    one with the decimal text of the counter; both backends write the
    stored text of every member, in order.  The Java backend writes the
    symbol itself, the Python backend the constant name derived from the
    symbol by [member_name]. *)
Theorem enum_values_are_written_as_stored :
  (forall (l n v : string) (rest : list string) (val : Z)
          (values : list (string * string)),
     explicit_member l n v ->
     Parser.enum_values (l :: rest) val = Ok values ->
     head values = Some (n, v))
  /\ (forall (values : list (string * string)) (out : list item)
             (l : list (string * string)),
        PythonGenerator.enum_members values = Ok (out, l) ->
        Forall2 (fun (kv : string * string) (i : item) =>
                   exists n, PythonGenerator.member_name kv.1 = Ok n
                             /\ i = EnumName kv.2 n) values out
        /\ Forall2 (fun (kv nv : string * string) =>
                      PythonGenerator.member_name kv.1 = Ok nv.1 /\ nv.2 = kv.2) values l)
  /\ (forall values : list (string * string),
        Forall2 (fun (kv : string * string) (i : item) => i = JavaMember kv.1 kv.2)
                values (JavaGenerator.enum_members values)).
Proof.
  split; [| split].
  - intros l n v rest val values (Hc & He & Hs) H.
    rewrite enum_values_cons, Hc, He, Hs in H.
    destruct (explicit_value v) as [z |]; simpl in H; [| discriminate].
    destruct (Parser.enum_values rest (z + 1)) as [vs | e]; simpl in H; [| discriminate].
    injection H as <-. reflexivity.
  - intros values out l H.
    destruct (python_enum_members_spec values out l H) as [Hall ->].
    split; [| exact Hall].
    clear H. induction Hall as [| kv nv values l [Hn Hv] _ IH]; simpl; constructor.
    + exists nv.1. rewrite Hv. split; [exact Hn | reflexivity].
    + exact IH.
  - intros values. unfold JavaGenerator.enum_members.
    induction values as [| kv values IH]; simpl; constructor; [reflexivity | exact IH].
Qed.

Lemma enum_values_are_written_as_stored_witness :
  head [("libvlc_Playing", "0x10"); ("libvlc_Paused", "17")]
  = Some ("libvlc_Playing", "0x10")
  /\ Forall2 (fun (kv : string * string) (i : item) =>
               exists n, PythonGenerator.member_name kv.1 = Ok n /\ i = EnumName kv.2 n)
            [("libvlc_Playing", "0x10"); ("libvlc_Paused", "17")]
            [EnumName "0x10" "Playing"; EnumName "17" "Paused"].
Proof.
  destruct enum_values_are_written_as_stored as (Hparse & Hpy & _).
  split.
  - apply (Hparse "libvlc_Playing=0x10" "libvlc_Playing" "0x10" ["libvlc_Paused"] 0%Z).
    + repeat split; vm_compute; reflexivity.
    + vm_compute. reflexivity.
  - apply (Hpy [("libvlc_Playing", "0x10"); ("libvlc_Paused", "17")]
               [EnumName "0x10" "Playing"; EnumName "17" "Paused"]
               [("Playing", "0x10"); ("Paused", "17")]).
    vm_compute. reflexivity.
Defined.

(** ** Parameter names out of the documentation *)

Lemma put_existing_names (names bad : list string) :
  length names <= length bad ->
  foldl (fun acc '(i, _) => bad ← acc; n ← list_get names i; list_set bad i n)
        (Ok bad) (imap pair names)
  = Ok (names ++ drop (length names) bad).
Proof.
  intros Hlen.
  enough (Hgen : forall ns rest, names = ns ++ rest ->
            foldl (fun acc '(i, _) => bad ← acc; n ← list_get names i; list_set bad i n)
                  (Ok bad) (imap pair ns)
            = Ok (ns ++ drop (length ns) bad)).
  { apply (Hgen names []). symmetry. apply app_nil_r. }
  induction ns as [| x ns IH] using rev_ind; intros rest Hnames.
  - reflexivity.
  - rewrite imap_app, foldl_app. simpl.
    rewrite (IH ([x] ++ rest)) by (rewrite Hnames, <- app_assoc; reflexivity).
    simpl.
    assert (Hx : names !! (length ns + 0) = Some x).
    { rewrite Hnames, <- app_assoc, Nat.add_0_r. apply list_lookup_middle. reflexivity. }
    unfold list_get. rewrite Hx. simpl.
    assert (Hlt : length ns < length bad).
    { rewrite Hnames in Hlen. rewrite !length_app in Hlen. simpl in Hlen. lia. }
    unfold list_set. rewrite bool_decide_eq_true_2
      by (rewrite length_app, length_drop; lia).
    f_equal. rewrite insert_app_r.
    destruct (lookup_lt_is_Some_2 bad (length ns) Hlt) as [b Hb].
    rewrite (drop_S bad b (length ns) Hb). simpl.
    rewrite <- app_assoc, length_app. simpl.
    rewrite Nat.add_1_r. reflexivity.
Qed.

Lemma traverse_enum_names (names : list string) (params : list param) (i : nat) :
  i + length params <= length names ->
  traverse_enum (fun i (p : param) => n ← list_get names i; Ok (p.1, n)) i params
  = Ok (zip (List.map fst params) (take (length params) (drop i names))).
Proof.
  unfold list_get.
  revert i. induction params as [| p params IH]; intros i Hlen.
  - reflexivity.
  - simpl in Hlen.
    assert (Hlt : i < length names) by lia.
    destruct (lookup_lt_is_Some_2 names i Hlt) as [n Hn].
    cbn [traverse_enum length]. rewrite Hn.
    rewrite IH by lia.
    rewrite (drop_S names n i Hn). reflexivity.
Qed.

(** C8: when some parameter of a function has an empty name, the names
    taken from the documentation give a parameter list of the same
    length with the same types, and [recover_names] returns without
    raising.  With fewer tags than parameters, position [i] gets the
    [i]-th tag when there is one and [param<i>] otherwise, counting from
    zero, and two lines are printed, the second with the function name
    and the documentation (line breaks shown as spaces); with enough
    tags, the first ones are used in order and nothing is printed. *)
Theorem recover_names_same_length (method comment : string) (params : list param) :
  (exists p : param, p ∈ params /\ p.2 = "") ->
  exists (params' : list param) (printed : list string),
    Parser.recover_names method comment params = Ok (params', printed)
    /\ length params' = length params
    /\ List.map fst params' = List.map fst params
    /\ (length (Re.findall1 comment_re comment) < length params ->
        (forall i, i < length params ->
           List.map snd params' !! i
           = Some (default ("param" +:+ PyInt.fmt_d i)
                           (Re.findall1 comment_re comment !! i)))
        /\ printed
           = [ "### Error ###";
               "### Cannot get parameter names from comment for " +:+ method
                 +:+ ": " +:+ PyStr.replace PyStr.nl " " comment ])
    /\ (length params <= length (Re.findall1 comment_re comment) ->
        List.map snd params' = take (length params) (Re.findall1 comment_re comment)
        /\ printed = []).
Proof.
  intros (p & Hin & Hempty).
  unfold Parser.recover_names.
  assert (Hex : existsb (fun p : param => String.eqb p.2 "") params = true).
  { apply existsb_exists. exists p. split.
    - apply list_elem_of_In, Hin.
    - rewrite Hempty. reflexivity. }
  rewrite Hex. clear p Hin Hempty Hex.
  set (names := Re.findall1 comment_re comment).
  set (n := length params).
  set (badnames := List.map (fun i => "param" +:+ PyInt.fmt_d i) (seq 0 n)).
  assert (Hbad : length badnames = n)
    by (unfold badnames; rewrite length_map, length_seq; reflexivity).
  destruct (decide (length names < n)) as [Hshort | Hlong].
  - rewrite bool_decide_eq_true_2 by exact Hshort.
    rewrite put_existing_names by lia. simpl.
    assert (Hlen' : length (names ++ drop (length names) badnames) = n)
      by (rewrite length_app, length_drop; lia).
    rewrite traverse_enum_names by (simpl; unfold n, param in *; lia). simpl.
    fold n. rewrite drop_0, take_ge by lia.
    eexists _, _. split; [reflexivity |].
    split; [rewrite length_zip_with, length_map; unfold n, param in *; lia |].
    split; [apply fst_zip; rewrite length_map; unfold n, param in *; lia |].
    split; [| intros; unfold n, param in *; lia].
    intros _. split; [| reflexivity].
    intros i Hi. rewrite snd_zip by (rewrite length_map; unfold n, param in *; lia).
    destruct (decide (i < length names)) as [Hlt | Hge].
    + rewrite lookup_app_l by exact Hlt.
      destruct (lookup_lt_is_Some_2 names i Hlt) as [x Hx]. rewrite Hx. reflexivity.
    + rewrite lookup_app_r by lia. rewrite lookup_drop.
      replace (length names + (i - length names)) with i by lia.
      rewrite (lookup_ge_None_2 names i) by lia. simpl.
      unfold badnames. rewrite list_lookup_fmap, lookup_seq_lt by exact Hi.
      reflexivity.
  - rewrite bool_decide_eq_false_2 by exact Hlong. simpl.
    rewrite traverse_enum_names by (simpl; unfold n, param in *; lia). simpl.
    fold n. rewrite drop_0.
    eexists _, _. split; [reflexivity |].
    split; [rewrite length_zip_with, length_map, length_take; unfold n, param in *; lia |].
    split; [apply fst_zip; rewrite length_map, length_take; unfold n, param in *; lia |].
    split; [intros; unfold n, param in *; lia |].
    intros _. split; [| reflexivity].
    apply snd_zip. rewrite length_map, length_take. unfold n, param in *. lia.
Qed.

Lemma recover_names_same_length_witness :
  Parser.recover_names "foo" (line "\param name the label")
    [("char*", ""); ("int", ""); ("float*", "")]
  = Ok ([("char*", "name"); ("int", "param1"); ("float*", "param2")],
        [ "### Error ###";
          "### Cannot get parameter names from comment for foo: \param name the label " ]).
Proof.
  destruct (recover_names_same_length "foo" (line "\param name the label")
              [("char*", ""); ("int", ""); ("float*", "")])
    as (params' & printed & Hrun & Hlen & Htypes & Hshort & _).
  - exists ("char*", ""). split; [apply list_elem_of_here | reflexivity].
  - rewrite Hrun. vm_compute in Hrun. injection Hrun as <- <-. reflexivity.
Defined.

(** ** Sorting and grouping keep the elements *)

Section SortedFacts.
Context {A : Type} (key : A -> string).

Lemma insert_sorted_perm (x : A) (l : list A) : insert_sorted key x l ≡ₚ x :: l.
Proof.
  induction l as [| y l IH]; simpl; [reflexivity |].
  destruct (String.leb (key x) (key y)); [reflexivity |].
  rewrite IH. apply Permutation_swap.
Qed.

Lemma sorted_perm (l : list A) : sorted key l ≡ₚ l.
Proof.
  induction l as [| x l IH]; simpl; [reflexivity |].
  rewrite insert_sorted_perm, IH. reflexivity.
Qed.

Lemma elem_of_sorted (x : A) (l : list A) : x ∈ sorted key l <-> x ∈ l.
Proof. rewrite (sorted_perm l). reflexivity. Qed.

Lemma groupby_concat (l : list A) : concat (List.map snd (groupby key l)) = l.
Proof.
  induction l as [| x l IH]; simpl; [reflexivity |].
  destruct (groupby key l) as [| [k g] gs]; simpl in *.
  - rewrite <- IH. reflexivity.
  - destruct (String.eqb (key x) k); simpl; rewrite <- IH; reflexivity.
Qed.

Lemma groupby_keys (l : list A) :
  Forall (fun kg : string * list A => Forall (fun x => key x = kg.1) kg.2)
         (groupby key l).
Proof.
  induction l as [| x l IH]; simpl; [constructor |].
  destruct (groupby key l) as [| [k g] gs]; simpl in *.
  - repeat constructor.
  - destruct (String.eqb_spec (key x) k) as [Heq | Hne].
    + apply Forall_cons in IH as [Hg Hgs].
      constructor; [| exact Hgs]. simpl in *. constructor; assumption.
    + constructor; [| exact IH]. repeat constructor.
Qed.
End SortedFacts.

(** ** What [generate_wrappers] does to the parser's methods *)

Section Wrappers.
Import PythonGenerator.
Context (self : PythonGenerator.t) (env : files).


Lemma wrap_method_methods prefix e st st' :
  wrap_method env prefix e st = Ok st' ->
  w_methods st' = rewrite_step env (fun _ => prefix) (w_methods st) e.
Proof.
  unfold wrap_method, rewrite_step, rewrites. intros H.
  destruct (bool_decide (el_method e ∈ blacklist)); simpl in *.
  - injection H as <-. reflexivity.
  - destruct (bool_decide (short_name prefix (el_method e)
                             ∈ default [] (overriden_methods env !! el_class e)));
      simpl in *.
    + injection H as <-. reflexivity.
    + destruct (epydoc_comment (el_comment e) true); simpl in H; [| discriminate].
      injection H as <-. reflexivity.
Qed.

Lemma wrap_methods_methods prefix el st st' :
  wrap_methods env prefix el st = Ok st' ->
  w_methods st' = foldl (rewrite_step env (fun _ => prefix)) (w_methods st) el.
Proof.
  revert st. induction el as [| e el IH]; intros st H; simpl in H.
  - injection H as <-. reflexivity.
  - destruct (wrap_method env prefix e st) as [st1 | ex] eqn:H1; simpl in H;
      [| discriminate].
    simpl. rewrite <- (wrap_method_methods _ _ _ _ H1). apply IH, H.
Qed.

Lemma rewrite_step_ext (f g : string -> string) (el : list element) (ms : list method) :
  Forall (fun e => f (el_class e) = g (el_class e)) el ->
  foldl (rewrite_step env f) ms el = foldl (rewrite_step env g) ms el.
Proof.
  intros H. revert ms. induction H as [| e el He _ IH]; intros ms; simpl.
  - reflexivity.
  - unfold rewrite_step at 2 4. rewrite He. apply IH.
Qed.

Lemma wrap_class_methods classname el st st' :
  Forall (fun e => el_class e = classname) el ->
  wrap_class self env classname el st = Ok st' ->
  w_methods st' = foldl (rewrite_step env (class_prefix self)) (w_methods st) el.
Proof.
  intros Hkey H. unfold wrap_class in H.
  apply wrap_methods_methods in H. simpl in H. rewrite H.
  apply rewrite_step_ext.
  eapply Forall_impl; [exact Hkey |]. intros e ->. reflexivity.
Qed.

Lemma wrap_classes_methods groups st st' :
  Forall (fun kg : string * list element =>
            Forall (fun e => el_class e = kg.1) kg.2) groups ->
  wrap_classes self env groups st = Ok st' ->
  w_methods st'
  = foldl (rewrite_step env (class_prefix self)) (w_methods st) (concat (List.map snd groups)).
Proof.
  intros Hkeys. revert st.
  induction Hkeys as [| [k g] groups Hg _ IH]; intros st H; simpl in H.
  - injection H as <-. reflexivity.
  - destruct (wrap_class self env k g st) as [st1 | ex] eqn:H1; simpl in H;
      [| discriminate].
    simpl in *. rewrite foldl_app.
    rewrite <- (wrap_class_methods _ _ _ _ Hg H1). apply IH, H.
Qed.

Lemma with_params_set_self_idem (m : method) :
  with_params set_self (with_params set_self m) = with_params set_self m.
Proof. destruct m as [rt n [| [typ name] ps] c]; reflexivity. Qed.

Lemma rewrite_fold_lookup (f : string -> string) (el : list element)
    (ms : list method) (i : nat) :
  foldl (rewrite_step env f) ms el !! i = ms !! i
  \/ foldl (rewrite_step env f) ms el !! i = with_params set_self <$> ms !! i.
Proof.
  revert ms. induction el as [| e el IH]; intros ms; simpl; [left; reflexivity |].
  assert (Hstep : rewrite_step env f ms e !! i = ms !! i
                  \/ rewrite_step env f ms e !! i = with_params set_self <$> ms !! i).
  { unfold rewrite_step. destruct (rewrites env (f (el_class e)) e); [| left; reflexivity].
    destruct (decide (el_ref e = i)) as [<- | Hne].
    - right. apply list_lookup_alter_eq.
    - left. apply list_lookup_alter_ne, Hne. }
  destruct (IH (rewrite_step env f ms e)) as [-> | ->], Hstep as [-> | ->]; auto.
  right. destruct (ms !! i); simpl; [| reflexivity].
  rewrite with_params_set_self_idem. reflexivity.
Qed.

Lemma rewrite_fold_miss (f : string -> string) (el : list element)
    (ms : list method) (i : nat) :
  (forall e, e ∈ el -> el_ref e = i -> rewrites env (f (el_class e)) e = false) ->
  foldl (rewrite_step env f) ms el !! i = ms !! i.
Proof.
  revert ms. induction el as [| e el IH]; intros ms H; simpl; [reflexivity |].
  rewrite IH by (intros e' Hin; apply H; right; exact Hin).
  unfold rewrite_step.
  destruct (rewrites env (f (el_class e)) e) eqn:Hr; [| reflexivity].
  apply list_lookup_alter_ne. intros Heq.
  rewrite (H e (list_elem_of_here _ _) Heq) in Hr. discriminate.
Qed.

Lemma rewrite_fold_hit (f : string -> string) (el : list element)
    (ms : list method) (i : nat) :
  (exists e, e ∈ el /\ el_ref e = i /\ rewrites env (f (el_class e)) e = true) ->
  foldl (rewrite_step env f) ms el !! i = with_params set_self <$> ms !! i.
Proof.
  revert ms. induction el as [| e el IH]; intros ms (e0 & Hin & Href & Hr).
  - inversion Hin.
  - simpl. apply elem_of_cons in Hin as [<- | Hin].
    + destruct (rewrite_fold_lookup f el (rewrite_step env f ms e0) i) as [-> | ->];
        unfold rewrite_step; rewrite Hr, <- Href, list_lookup_alter_eq.
      * reflexivity.
      * destruct (ms !! el_ref e0); simpl; [| reflexivity].
        rewrite with_params_set_self_idem. reflexivity.
    + rewrite IH by (exists e0; auto).
      unfold rewrite_step. destruct (rewrites env (f (el_class e)) e); [| reflexivity].
      destruct (decide (el_ref e = i)) as [<- | Hne].
      * rewrite list_lookup_alter_eq.
        destruct (ms !! el_ref e); simpl; [| reflexivity].
        rewrite with_params_set_self_idem. reflexivity.
      * rewrite list_lookup_alter_ne by exact Hne. reflexivity.
Qed.

Lemma elem_of_elements (e : element) (methods : list method) :
  e ∈ elements (type2class_ self) methods
  <-> exists m cl,
        methods !! el_ref e = Some m
        /\ wrapper_class (type2class_ self) m = Some cl
        /\ e = Element cl (el_ref e) (m_rtype m) (m_name m) (m_comment m).
Proof.
  unfold elements. rewrite elem_of_sorted, list_elem_of_omap. split.
  - intros (o & Hin & Ho). simpl in Ho. subst o.
    apply elem_of_lookup_imap in Hin as (i & m & Heq & Hm).
    destruct (wrapper_class (type2class_ self) m) as [cl |] eqn:Hcl;
      simpl in Heq; [| discriminate].
    injection Heq as ->. simpl. exists m, cl. auto.
  - intros (m & cl & Hm & Hcl & He). exists (Some e). split; [| reflexivity].
    apply elem_of_lookup_imap. exists (el_ref e), m. split; [| exact Hm].
    rewrite Hcl. simpl. rewrite <- He. reflexivity.
Qed.

Lemma generate_wrappers_methods (methods : list method) (w : wrapping) :
  generate_wrappers self env methods = Ok w ->
  forall i m,
    methods !! i = Some m ->
    w_methods w !! i = Some (if rewritten self env m then with_params set_self m else m).
Proof.
  unfold generate_wrappers. intros H i m Hm.
  apply wrap_classes_methods in H; [| apply groupby_keys].
  rewrite groupby_concat in H. simpl in H. rewrite H. clear H.
  unfold rewritten.
  destruct (wrapper_class (type2class_ self) m) as [cl |] eqn:Hcl.
  - set (e0 := Element cl i (m_rtype m) (m_name m) (m_comment m)).
    change (rewrites env (class_prefix self cl) (Element cl 0 (m_rtype m) (m_name m) (m_comment m)))
      with (rewrites env (class_prefix self (el_class e0)) e0).
    destruct (rewrites env (class_prefix self (el_class e0)) e0) eqn:Hr.
    + rewrite rewrite_fold_hit; [rewrite Hm; reflexivity |].
      exists e0. split; [| split; [reflexivity | exact Hr]].
      apply elem_of_elements. exists m, cl. auto.
    + rewrite rewrite_fold_miss; [exact Hm |].
      intros e Hin Href. apply elem_of_elements in Hin as (m' & cl' & Hm' & Hcl' & He).
      rewrite Href, Hm in Hm'. injection Hm' as <-.
      rewrite Hcl in Hcl'. injection Hcl' as <-.
      rewrite He, Href. exact Hr.
  - rewrite rewrite_fold_miss; [exact Hm |].
    intros e Hin Href. apply elem_of_elements in Hin as (m' & cl' & Hm' & Hcl' & He).
    rewrite Href, Hm in Hm'. injection Hm' as <-. congruence.
Qed.

Lemma generate_wrappers_length (methods : list method) (w : wrapping) :
  generate_wrappers self env methods = Ok w ->
  length (w_methods w) = length methods.
Proof.
  intros H.
  destruct (decide (length (w_methods w) = length methods)) as [Heq | Hne]; [exact Heq |].
  exfalso.
  destruct (decide (length (w_methods w) < length methods)) as [Hlt | Hge].
  - destruct (lookup_lt_is_Some_2 methods (length (w_methods w))) as [m Hm]; [lia |].
    pose proof (generate_wrappers_methods methods w H _ m Hm) as Hw.
    apply lookup_lt_Some in Hw. lia.
  - unfold generate_wrappers in H.
    apply wrap_classes_methods in H; [| apply groupby_keys].
    rewrite groupby_concat in H. simpl in H.
    destruct (lookup_lt_is_Some_2 (w_methods w) (length methods)) as [m Hm]; [lia |].
    rewrite H in Hm.
    destruct (rewrite_fold_lookup (class_prefix self) (elements (type2class_ self) methods)
                methods (length methods)) as [Hl | Hl];
      rewrite Hl, (lookup_ge_None_2 methods (length methods)) in Hm by lia;
      discriminate.
Qed.
End Wrappers.

(** ** Which methods the output declares *)


Lemma clean_app (out1 out2 : list item) : clean (out1 ++ out2) <-> clean out1 /\ clean out2.
Proof. apply Forall_app. Qed.

Lemma clean_no_method (out : list item) :
  Forall (fun i => item_method i = None) out -> clean out.
Proof.
  intros H. eapply Forall_impl; [exact H |].
  intros i Hi m Hm. rewrite Hi in Hm. discriminate.
Qed.

Section Output.
Import PythonGenerator.

Lemma enum_members_no_method values out l :
  enum_members values = Ok (out, l) -> Forall (fun i => item_method i = None) out.
Proof.
  intros H. apply python_enum_members_spec in H as [_ ->].
  apply Forall_forall. intros i Hi. apply list_elem_of_In, in_map_iff in Hi as (nv & <- & _).
  reflexivity.
Qed.

Lemma enum_classes_no_method type2class enums out :
  enum_classes type2class enums = Ok out -> Forall (fun i => item_method i = None) out.
Proof.
  revert out. induction enums as [| e enums IH]; intros out H; simpl in H.
  - injection H as <-. constructor.
  - destruct (negb (String.eqb (e_typ e) "enum")); [discriminate |].
    destruct (type2class !! e_name e) as [pyname |]; simpl in H; [| discriminate].
    destruct (enum_members (e_values e)) as [[names l] | ex] eqn:Hm; simpl in H;
      [| discriminate].
    destruct (enum_classes type2class enums) as [out' | ex]; simpl in H; [| discriminate].
    injection H as <-.
    repeat (apply Forall_cons; split; [reflexivity |]).
    apply Forall_app. split; [apply (enum_members_no_method _ _ _ Hm) |].
    repeat (apply Forall_cons; split; [reflexivity |]).
    apply IH. reflexivity.
Qed.

Lemma insert_code_no_method self env f out :
  insert_code self env f = Ok out -> Forall (fun i => item_method i = None) out.
Proof.
  revert out. induction f as [| l f IH]; intros out H; cbn [insert_code] in H.
  - injection H as <-. constructor.
  - match type of H with
    | (?c ≫= _) = _ =>
        destruct c as [o | ex] eqn:Hc; cbn [mbind result_bind] in H; [| discriminate]
    end.
    destruct (insert_code self env f) as [out' | ex]; cbn [mbind result_bind] in H;
      [| discriminate].
    injection H as <-. apply Forall_app. split; [| apply IH; reflexivity].
    destruct (PyStr.startswith "build_date" l).
    + injection Hc as <-. repeat constructor.
    + destruct (PyStr.startswith "# GENERATED_ENUMS" l).
      * unfold generate_enums in Hc.
        destruct (enum_classes (type2class_ self) (Parser.enums (parser self)))
          as [o' | ex] eqn:He; simpl in Hc; [| discriminate].
        injection Hc as <-. constructor; [reflexivity |].
        apply (enum_classes_no_method _ _ _ He).
      * injection Hc as <-. repeat constructor.
Qed.


Lemma wrap_method_clean env prefix e st st' :
  wrap_method env prefix e st = Ok st' -> wrapping_clean st -> wrapping_clean st'.
Proof.
  unfold wrap_method. intros H [Hout Hret].
  destruct (bool_decide (el_method e ∈ blacklist)) eqn:Hb.
  - injection H as <-. split; assumption.
  - apply bool_decide_eq_false in Hb.
    assert (Hret' : forall x, x ∈ ({[el_method e]} ∪ w_ret st : gset string) -> x ∉ blacklist).
    { intros x Hx. apply elem_of_union in Hx as [Hx | Hx]; [| apply Hret, Hx].
      apply elem_of_singleton in Hx. subst x. exact Hb. }
    destruct (bool_decide (short_name prefix (el_method e)
                             ∈ default [] (overriden_methods env !! el_class e))).
    + injection H as <-. split; assumption.
    + destruct (epydoc_comment (el_comment e) true) as [c | ex]; simpl in H;
        [| discriminate].
      injection H as <-. split; [| exact Hret']. simpl.
      apply clean_app. split; [exact Hout |].
      assert (Hm : forall m, Some (el_method e) = Some m -> m ∉ blacklist)
        by (intros m [= <-]; exact Hb).
      destruct (String.eqb (short_name prefix (el_method e)) "count");
        [| destruct (PyStr.endswith "item_at_index" (short_name prefix (el_method e)))];
        repeat (apply Forall_cons; split; [exact Hm |]); constructor.
Qed.

Lemma wrap_methods_clean env prefix el st st' :
  wrap_methods env prefix el st = Ok st' -> wrapping_clean st -> wrapping_clean st'.
Proof.
  revert st. induction el as [| e el IH]; intros st H Hst; simpl in H.
  - injection H as <-. exact Hst.
  - destruct (wrap_method env prefix e st) as [st1 | ex] eqn:H1; simpl in H;
      [| discriminate].
    apply (IH st1 H). apply (wrap_method_clean _ _ _ _ _ H1 Hst).
Qed.

Lemma wrap_class_clean self env classname el st st' :
  wrap_class self env classname el st = Ok st' -> wrapping_clean st -> wrapping_clean st'.
Proof.
  unfold wrap_class. intros H [Hout Hret].
  apply (wrap_methods_clean _ _ _ _ _ H). split; [| exact Hret]. simpl.
  apply clean_app. split; [exact Hout |].
  apply clean_no_method.
  repeat (apply Forall_cons; split; [reflexivity |]).
  repeat (apply Forall_app; split).
  - destruct (docstring env !! classname); repeat constructor.
  - destruct (PyStr.contains "def __new__" (default "" (overrides env !! classname)));
      repeat constructor.
  - constructor; [reflexivity |].
    destruct (overrides env !! classname); repeat constructor.
Qed.

Lemma wrap_classes_clean self env groups st st' :
  wrap_classes self env groups st = Ok st' -> wrapping_clean st -> wrapping_clean st'.
Proof.
  revert st. induction groups as [| [k g] groups IH]; intros st H Hst; simpl in H.
  - injection H as <-. exact Hst.
  - destruct (wrap_class self env k g st) as [st1 | ex] eqn:H1; simpl in H;
      [| discriminate].
    apply (IH st1 H). apply (wrap_class_clean _ _ _ _ _ _ H1 Hst).
Qed.

Lemma generate_wrappers_clean self env methods w :
  generate_wrappers self env methods = Ok w -> wrapping_clean w.
Proof.
  unfold generate_wrappers. intros H.
  apply (wrap_classes_clean _ _ _ _ _ H). split; [constructor |].
  simpl. intros x Hx. apply not_elem_of_empty in Hx. contradiction.
Qed.

Lemma output_ctypes_clean self m out :
  output_ctypes self m = Ok out -> clean out.
Proof.
  unfold output_ctypes. intros H.
  destruct (bool_decide (m_name m ∈ blacklist)) eqn:Hb.
  - injection H as <-. constructor.
  - apply bool_decide_eq_false in Hb.
    match type of H with
    | (?c ≫= _) = _ => destruct c as [tys | ex]; simpl in H; [| discriminate]
    end.
    destruct (epydoc_comment (m_comment m) false) as [c | ex]; simpl in H;
      [| discriminate].
    injection H as <-. constructor; [| constructor].
    intros x [= <-]. exact Hb.
Qed.

Lemma declare_methods_spec self wrapped methods decls unwrapped :
  declare_methods self wrapped methods = Ok (decls, unwrapped) ->
  clean decls
  /\ unwrapped
     = List.map (fun m => "#  " +:+ m_name m)
         (List.filter (fun m => negb (bool_decide (m_name m ∈ wrapped))) methods).
Proof.
  revert decls unwrapped.
  induction methods as [| l methods IH]; intros decls unwrapped H; simpl in H.
  - injection H as <- <-. split; [constructor | reflexivity].
  - destruct (output_ctypes self l) as [out | ex] eqn:Hout; simpl in H; [| discriminate].
    destruct (declare_methods self wrapped methods) as [[out' unw] | ex]; simpl in H;
      [| discriminate].
    injection H as <- <-. destruct (IH out' unw eq_refl) as [Hc ->].
    split.
    + apply clean_app. split; [apply (output_ctypes_clean _ _ _ Hout) | exact Hc].
    + simpl. destruct (bool_decide (m_name l ∈ wrapped)); reflexivity.
Qed.

Lemma wrappers_of_nil env prefix_of : wrappers_of env prefix_of [] [].
Proof.
  split.
  - intros e He. inversion He.
  - intros name method args c H. inversion H.
Qed.

Lemma wrappers_of_app env prefix_of el1 el2 items1 items2 :
  wrappers_of env prefix_of el1 items1 ->
  wrappers_of env prefix_of el2 items2 ->
  wrappers_of env prefix_of (el1 ++ el2) (items1 ++ items2).
Proof.
  intros [H1 H1'] [H2 H2']. split.
  - intros e He Hr. apply elem_of_app in He as [He | He].
    + destruct (H1 e He Hr) as (args & c & Hin). exists args, c.
      apply elem_of_app. left. exact Hin.
    + destruct (H2 e He Hr) as (args & c & Hin). exists args, c.
      apply elem_of_app. right. exact Hin.
  - intros name method args c Hin. apply elem_of_app in Hin as [Hin | Hin].
    + destruct (H1' _ _ _ _ Hin) as (e & He & Hm & Hr). exists e.
      split; [apply elem_of_app; left; exact He | auto].
    + destruct (H2' _ _ _ _ Hin) as (e & He & Hm & Hr). exists e.
      split; [apply elem_of_app; right; exact He | auto].
Qed.

Lemma wrappers_of_no_wrapper env prefix_of items1 el items2 :
  (forall name method args c, WrapperDef name method args c ∉ items1) ->
  wrappers_of env prefix_of el items2 ->
  wrappers_of env prefix_of el (items1 ++ items2).
Proof.
  intros Hnone [H2 H2']. split.
  - intros e He Hr. destruct (H2 e He Hr) as (args & c & Hin). exists args, c.
    apply elem_of_app. right. exact Hin.
  - intros name method args c Hin. apply elem_of_app in Hin as [Hin | Hin].
    + destruct (Hnone _ _ _ _ Hin).
    + apply (H2' _ _ _ _ Hin).
Qed.

Lemma wrappers_of_ext env (f g : string -> string) el items :
  Forall (fun e => f (el_class e) = g (el_class e)) el ->
  wrappers_of env f el items -> wrappers_of env g el items.
Proof.
  intros Hfg [H1 H2]. rewrite Forall_forall in Hfg. split.
  - intros e He Hr. rewrite <- (Hfg e He) in *. apply (H1 e He Hr).
  - intros name method args c Hin.
    destruct (H2 _ _ _ _ Hin) as (e & He & Hm & Hr). exists e.
    rewrite <- (Hfg e He). auto.
Qed.

Lemma wrap_method_out env prefix e st st' :
  wrap_method env prefix e st = Ok st' ->
  exists items,
    w_out st' = w_out st ++ items
    /\ wrappers_of env (fun _ => prefix) [e] items.
Proof.
  unfold wrap_method, wrappers_of, rewrites. intros H.
  destruct (bool_decide (el_method e ∈ blacklist)) eqn:Hb.
  { injection H as <-. exists []. rewrite app_nil_r. split; [reflexivity |].
    split.
    - intros e' He' Hr. apply list_elem_of_singleton in He' as ->.
      rewrite Hb in Hr. discriminate.
    - intros name method args c Hin. inversion Hin. }
  destruct (bool_decide (short_name prefix (el_method e)
                           ∈ default [] (overriden_methods env !! el_class e))) eqn:Ho.
  { injection H as <-. exists []. rewrite app_nil_r. split; [reflexivity |].
    split.
    - intros e' He' Hr. apply list_elem_of_singleton in He' as ->.
      rewrite Hb, Ho in Hr. discriminate.
    - intros name method args c Hin. inversion Hin. }
  destruct (epydoc_comment (el_comment e) true) as [c |]; simpl in H; [| discriminate].
  injection H as <-. simpl. eexists. split; [reflexivity |].
  split.
  - intros e' He' _. apply list_elem_of_singleton in He' as ->.
    eexists _, c.
    destruct (String.eqb (short_name prefix (el_method e)) "count");
      [| destruct (PyStr.endswith "item_at_index" (short_name prefix (el_method e)))];
      apply list_elem_of_here.
  - intros name method args c' Hin. exists e.
    split; [apply list_elem_of_here |]. rewrite Hb, Ho. split; [| reflexivity].
    destruct (String.eqb (short_name prefix (el_method e)) "count");
      [| destruct (PyStr.endswith "item_at_index" (short_name prefix (el_method e)))];
      repeat (apply elem_of_cons in Hin as [Hin | Hin]; [congruence |]);
      inversion Hin.
Qed.

Lemma wrap_methods_out env prefix el st st' :
  wrap_methods env prefix el st = Ok st' ->
  exists items,
    w_out st' = w_out st ++ items
    /\ wrappers_of env (fun _ => prefix) el items.
Proof.
  revert st. induction el as [| e el IH]; intros st H; simpl in H.
  - injection H as <-. exists []. rewrite app_nil_r.
    split; [reflexivity | apply wrappers_of_nil].
  - destruct (wrap_method env prefix e st) as [st1 | ex] eqn:H1; simpl in H;
      [| discriminate].
    destruct (wrap_method_out _ _ _ _ _ H1) as (i1 & Ho1 & Hw1).
    destruct (IH _ H) as (i2 & Ho2 & Hw2).
    exists (i1 ++ i2). rewrite Ho2, Ho1, <- app_assoc. split; [reflexivity |].
    apply (wrappers_of_app _ _ [e] el _ _ Hw1 Hw2).
Qed.

Lemma wrap_class_out self env classname el st st' :
  Forall (fun e => el_class e = classname) el ->
  wrap_class self env classname el st = Ok st' ->
  exists items,
    w_out st' = w_out st ++ items
    /\ wrappers_of env (class_prefix self) el items.
Proof.
  intros Hkey H. unfold wrap_class in H.
  apply wrap_methods_out in H as (items & Ho & Hw). simpl in Ho.
  eexists. rewrite Ho, <- app_assoc. split; [reflexivity |].
  apply wrappers_of_no_wrapper.
  - intros name method args c Hin.
    repeat (apply elem_of_cons in Hin as [Hin | Hin]; [discriminate |]).
    repeat (apply elem_of_app in Hin as [Hin | Hin]).
    + destruct (docstring env !! classname);
        repeat (apply elem_of_cons in Hin as [Hin | Hin]; [discriminate |]);
        inversion Hin.
    + destruct (PyStr.contains "def __new__" (default "" (overrides env !! classname)));
        repeat (apply elem_of_cons in Hin as [Hin | Hin]; [discriminate |]);
        inversion Hin.
    + repeat (apply elem_of_cons in Hin as [Hin | Hin]; [discriminate |]).
      destruct (overrides env !! classname);
        repeat (apply elem_of_cons in Hin as [Hin | Hin]; [discriminate |]);
        inversion Hin.
  - eapply wrappers_of_ext; [| exact Hw].
    eapply Forall_impl; [exact Hkey |]. intros e ->. reflexivity.
Qed.

Lemma wrap_classes_out self env groups st st' :
  Forall (fun kg : string * list element =>
            Forall (fun e => el_class e = kg.1) kg.2) groups ->
  wrap_classes self env groups st = Ok st' ->
  exists items,
    w_out st' = w_out st ++ items
    /\ wrappers_of env (class_prefix self) (concat (List.map snd groups)) items.
Proof.
  intros Hkeys. revert st.
  induction Hkeys as [| [k g] groups Hg _ IH]; intros st H; simpl in H.
  - injection H as <-. exists []. rewrite app_nil_r.
    split; [reflexivity | apply wrappers_of_nil].
  - destruct (wrap_class self env k g st) as [st1 | ex] eqn:H1; simpl in H;
      [| discriminate].
    destruct (wrap_class_out _ _ _ _ _ _ Hg H1) as (i1 & Ho1 & Hw1).
    destruct (IH _ H) as (i2 & Ho2 & Hw2).
    exists (i1 ++ i2). rewrite Ho2, Ho1, <- app_assoc. split; [reflexivity |].
    simpl. apply (wrappers_of_app _ _ _ _ _ _ Hw1 Hw2).
Qed.

Lemma generate_wrappers_out self env methods w :
  generate_wrappers self env methods = Ok w ->
  wrappers_of env (class_prefix self) (elements (type2class_ self) methods) (w_out w).
Proof.
  unfold generate_wrappers. intros H.
  apply wrap_classes_out in H as (items & Ho & Hw); [| apply groupby_keys].
  rewrite groupby_concat in Hw. simpl in Ho. rewrite Ho. exact Hw.
Qed.

(** What [save] is made of. *)
Lemma save_inv self env self' out :
  save self env = Ok (self', out) ->
  exists head w decls unwrapped_methods foot,
    insert_code self env (header_py env) = Ok head
    /\ generate_wrappers self env (Parser.methods (parser self)) = Ok w
    /\ self' = Make (Parser.Make (w_methods w) (Parser.enums (parser self))
                       (Parser.printed (parser self)))
                    (type2class_ self) (prefixes self)
    /\ declare_methods self' (w_ret w) (w_methods w) = Ok (decls, unwrapped_methods)
    /\ insert_code self' env (footer_py env) = Ok foot
    /\ out = head ++ w_out w ++ decls ++ foot
             ++ match unwrapped_methods with
                | [] => []
                | _ => [ Raw ("# " +:+ PyInt.fmt_d (length unwrapped_methods)
                                   +:+ " methods not wrapped :");
                         NotWrapped unwrapped_methods ]
                end.
Proof.
  unfold save. intros H.
  destruct (insert_code self env (header_py env)) as [head | ex]; simpl in H;
    [| discriminate].
  destruct (generate_wrappers self env (Parser.methods (parser self))) as [w | ex];
    simpl in H; [| discriminate].
  match type of H with
  | (?c ≫= _) = _ => destruct c as [[decls unw] | ex] eqn:Hd; simpl in H; [| discriminate]
  end.
  match type of H with
  | (?c ≫= _) = _ => destruct c as [foot | ex] eqn:Hf; simpl in H; [| discriminate]
  end.
  injection H as <- <-.
  exists head, w, decls, unw, foot. repeat split; auto.
Qed.
End Output.

(** ** The blacklist and the first parameter in [save] *)

Section Save.
Import PythonGenerator.

Lemma example_run :
  Parser.init [example_include]
  = Ok (Parser.Make [example_count; example_callbacks] [] [])
  /\ PythonGenerator.init (Parser.Make [example_count; example_callbacks] [] [])
     = Ok (example_generator [example_count; example_callbacks])
  /\ save (example_generator [example_count; example_callbacks]) example_files
     = Ok (example_generator
             [with_params set_self example_count; example_callbacks],
           example_output).
Proof. repeat split; vm_compute; reflexivity. Qed.

(** C3, as stated, fails: the blacklisted [libvlc_video_set_callbacks]
    is neither wrapped nor declared, but it is in the closing list of
    the methods not wrapped. *)
Lemma blacklisted_method_is_listed :
  "libvlc_video_set_callbacks" ∈ blacklist
  /\ process example_files [example_include]
     = Ok (example_generator [with_params set_self example_count; example_callbacks],
           example_output)
  /\ NotWrapped ["#  libvlc_video_set_callbacks"] ∈ example_output
  /\ render (NotWrapped ["#  libvlc_video_set_callbacks"])
     = "#  libvlc_video_set_callbacks".
Proof.
  split; [apply list_elem_of_further, list_elem_of_here |].
  split; [vm_compute; reflexivity |].
  split; [| vm_compute; reflexivity].
  unfold example_output. do 7 apply list_elem_of_further. apply list_elem_of_here.
Qed.

(** C3 (amended): in what [save] writes, no wrapper method, no ctypes
    declaration and no [__len__] / [__getitem__] definition is about a
    blacklisted method; the closing list of the methods not wrapped,
    however, names every blacklisted method that was parsed. *)
Theorem blacklisted_method_only_in_summary
    (self self' : PythonGenerator.t) (env : files) (out : list item) (name : string) :
  save self env = Ok (self', out) ->
  name ∈ blacklist ->
  (forall i, i ∈ out -> item_method i <> Some name)
  /\ (forall m, m ∈ Parser.methods (parser self) -> m_name m = name ->
        exists unwrapped_methods,
          NotWrapped unwrapped_methods ∈ out
          /\ "#  " +:+ name ∈ unwrapped_methods).
Proof.
  intros Hsave Hblack.
  destruct (save_inv _ _ _ _ Hsave)
    as (head & w & decls & unw & foot & Hhead & Hw & -> & Hdecl & Hfoot & ->).
  destruct (generate_wrappers_clean _ _ _ _ Hw) as [Hwout Hwret].
  destruct (declare_methods_spec _ _ _ _ _ Hdecl) as [Hdclean Hunw].
  split.
  - assert (Hclean : clean (head ++ w_out w ++ decls ++ foot
                              ++ match unw with
                                 | [] => []
                                 | _ => [ Raw ("# " +:+ PyInt.fmt_d (length unw)
                                                    +:+ " methods not wrapped :");
                                          NotWrapped unw ]
                                 end)).
    { repeat (apply clean_app; split); auto.
      - apply clean_no_method, (insert_code_no_method _ _ _ _ Hhead).
      - apply clean_no_method, (insert_code_no_method _ _ _ _ Hfoot).
      - apply clean_no_method. destruct unw; repeat constructor. }
    intros i Hi Hm.
    apply (proj1 (Forall_forall _ _) Hclean i Hi name Hm Hblack).
  - intros m Hin Hname.
    apply list_elem_of_lookup in Hin as [k Hk].
    pose proof (generate_wrappers_methods self env _ w Hw k m Hk) as Hk'.
    assert (Hlisted : "#  " +:+ name ∈ unw).
    { rewrite Hunw. apply list_elem_of_In, in_map_iff.
      exists (if rewritten self env m then with_params set_self m else m). split.
      - rewrite <- Hname. destruct (rewritten self env m); reflexivity.
      - apply filter_In. split.
        + apply list_elem_of_In, list_elem_of_lookup. exists k. exact Hk'.
        + apply negb_true_iff, bool_decide_eq_false. intros Hret.
          apply (Hwret _ Hret).
          replace (m_name (if rewritten self env m then with_params set_self m else m))
            with name by (rewrite <- Hname; destruct (rewritten self env m); reflexivity).
          exact Hblack. }
    exists unw. split; [| exact Hlisted].
    destruct unw as [| u unw']; [inversion Hlisted |].
    rewrite !elem_of_app. do 4 right.
    apply list_elem_of_further, list_elem_of_here.
Qed.

Lemma blacklisted_method_only_in_summary_witness :
  item_method (CtypesDecl "libvlc_media_player_count" "ctypes.c_int, MediaPlayer" "(1,)," "")
  <> Some "libvlc_video_set_callbacks"
  /\ exists unwrapped_methods,
       NotWrapped unwrapped_methods ∈ example_output
       /\ "#  " +:+ "libvlc_video_set_callbacks" ∈ unwrapped_methods.
Proof.
  destruct (blacklisted_method_only_in_summary
              (example_generator [example_count; example_callbacks])
              (example_generator [with_params set_self example_count; example_callbacks])
              example_files example_output "libvlc_video_set_callbacks")
    as [Hnone Hlisted].
  - vm_compute. reflexivity.
  - apply list_elem_of_further, list_elem_of_here.
  - split.
    + apply Hnone. unfold example_output.
      do 5 apply list_elem_of_further. apply list_elem_of_here.
    + apply (Hlisted example_callbacks).
      * apply list_elem_of_further, list_elem_of_here.
      * reflexivity.
Defined.

(** C9: [save] does not leave the parser's methods as they were.  For
    every method whose class wrapper is generated (it is wrapped into a
    class, so it has a first parameter, is not blacklisted and its short
    name is not overridden: these are the methods a wrapper definition
    is written for), [generate_wrappers] replaces the name of the first
    parameter by ["self"] in the parser's own list, keeping its type and
    everything else; the lists of the other methods are left alone.  The
    loop of [save] that follows runs over the lists so changed, and the
    parser holds them when [save] returns. *)
Theorem wrapper_rewrites_first_parameter
    (self self' : PythonGenerator.t) (env : files) (out : list item) :
  save self env = Ok (self', out) ->
  exists (w : wrapping) (decls : list item) (unwrapped_methods : list string),
    generate_wrappers self env (Parser.methods (parser self)) = Ok w
    /\ declare_methods self' (w_ret w) (w_methods w) = Ok (decls, unwrapped_methods)
    /\ Parser.methods (parser self') = w_methods w
    /\ length (w_methods w) = length (Parser.methods (parser self))
    /\ (forall i m,
          Parser.methods (parser self) !! i = Some m ->
          rewritten self env m = true ->
          exists typ name rest short args comment,
            m_params m = (typ, name) :: rest
            /\ w_methods w !! i
               = Some (Method (m_rtype m) (m_name m) ((typ, "self") :: rest) (m_comment m))
            /\ WrapperDef short (m_name m) args comment ∈ out)
    /\ (forall i m,
          Parser.methods (parser self) !! i = Some m ->
          rewritten self env m = false ->
          w_methods w !! i = Some m)
    /\ (forall short method args comment,
          WrapperDef short method args comment ∈ w_out w ->
          exists i m,
            Parser.methods (parser self) !! i = Some m
            /\ m_name m = method
            /\ rewritten self env m = true).
Proof.
  intros Hsave.
  destruct (save_inv _ _ _ _ Hsave)
    as (head & w & decls & unw & foot & _ & Hw & -> & Hdecl & _ & ->).
  destruct (generate_wrappers_out _ _ _ _ Hw) as [Hwritten Honly].
  exists w, decls, unw.
  split; [exact Hw |]. split; [exact Hdecl |]. split; [reflexivity |].
  split; [apply (generate_wrappers_length _ _ _ _ Hw) |].
  split; [| split].
  - intros i m Hm Hr.
    pose proof (generate_wrappers_methods self env _ w Hw i m Hm) as Hi.
    rewrite Hr in Hi. unfold rewritten in Hr.
    destruct (wrapper_class (type2class_ self) m) as [cl |] eqn:Hcl; [| discriminate].
    destruct (Hwritten (Element cl i (m_rtype m) (m_name m) (m_comment m)))
      as (args & c & Hin).
    { apply elem_of_elements. exists m, cl. auto. }
    { exact Hr. }
    unfold wrapper_class in Hcl.
    destruct m as [rt n [| [typ name] rest] c']; simpl in Hcl; [discriminate |].
    exists typ, name, rest. eexists _, args, c.
    split; [reflexivity |]. split; [exact Hi |].
    rewrite !elem_of_app. right. left. exact Hin.
  - intros i m Hm Hr.
    pose proof (generate_wrappers_methods self env _ w Hw i m Hm) as Hi.
    rewrite Hr in Hi. exact Hi.
  - intros short method args c Hin.
    destruct (Honly _ _ _ _ Hin) as (e & He & -> & Hr).
    apply elem_of_elements in He as (m & cl & Hm & Hcl & He).
    exists (el_ref e), m. split; [exact Hm |].
    rewrite He. split; [reflexivity |].
    unfold rewritten. rewrite Hcl. rewrite He in Hr. exact Hr.
Qed.

Lemma wrapper_rewrites_first_parameter_witness :
  Parser.methods
    (parser (example_generator [with_params set_self example_count; example_callbacks]))
  !! 0
  = Some (Method "int" "libvlc_media_player_count" [("libvlc_media_player_t*", "self")] "").
Proof.
  destruct (wrapper_rewrites_first_parameter
              (example_generator [example_count; example_callbacks])
              (example_generator [with_params set_self example_count; example_callbacks])
              example_files example_output)
    as (w & decls & unw & _ & _ & Hsame & _ & Hhit & _).
  - vm_compute. reflexivity.
  - destruct (Hhit 0 example_count)
      as (typ & name & rest & short & args & c & Hparams & Hlookup & _).
    + reflexivity.
    + vm_compute. reflexivity.
    + rewrite Hsame, Hlookup. injection Hparams as <- <- <-. reflexivity.
Defined.
End Save.

(** * Further properties of the generator *)

(** ** Which exceptions can be raised *)

Lemma raises_only_bind {A B : Type} (P : exn -> Prop) (m : result A)
    (f : A -> result B) :
  raises_only P m ->
  (forall a, m = Ok a -> raises_only P (f a)) ->
  raises_only P (m ≫= f).
Proof. destruct m as [a | e]; simpl; auto. Qed.

Lemma raises_only_must {A : Type} (P : exn -> Prop) (e : exn) (o : option A) :
  P e -> raises_only P (must e o).
Proof. destruct o; simpl; auto. Qed.

Lemma raises_only_traverse {A B : Type} (P : exn -> Prop) (f : A -> result B)
    (l : list A) :
  Forall (fun a => raises_only P (f a)) l -> raises_only P (traverse f l).
Proof.
  induction 1 as [| a l Ha _ IH]; simpl; [exact I |].
  apply raises_only_bind; [exact Ha |]. intros b _.
  apply raises_only_bind; [exact IH |]. intros bs _. exact I.
Qed.














Lemma python_init_inv (p : Parser.t) (g : PythonGenerator.t) :
  PythonGenerator.init p = Ok g ->
  exists names,
    PythonGenerator.convert_enum_names (Parser.enums p) ∅ = Ok names
    /\ g = PythonGenerator.Make p (names ∪ PythonGenerator.type2class)
             (PythonGenerator.make_prefixes (names ∪ PythonGenerator.type2class)).
Proof.
  unfold PythonGenerator.init. intros H.
  destruct (PythonGenerator.convert_enum_names (Parser.enums p) ∅) as [names | e];
    simpl in H; [| discriminate].
  destruct (PythonGenerator.check_types _ _) as [[] | e]; simpl in H; [| discriminate].
  injection H as <-. exists names. auto.
Qed.





(** ** The parser: which exceptions, and what [parse_param] returns *)

Lemma parse_param_raises (s : string) :
  raises_only (eq AttributeError) (Parser.parse_param s).
Proof.
  unfold Parser.parse_param.
  apply raises_only_bind.
  - destruct (PyStr.contains "VLC_FORWARD" _); [| exact I].
    apply raises_only_bind; [apply raises_only_must; reflexivity |]. intros; exact I.
  - intros s' _. destruct (Re.search param_re s'); [| exact I].
    destruct (Parser.move_stars _ _). exact I.
Qed.

Lemma recover_names_returns (method comment : string) (params : list param) :
  exists r, Parser.recover_names method comment params = Ok r.
Proof.
  unfold Parser.recover_names.
  destruct (existsb _ params); [| eexists; reflexivity].
  set (names := Re.findall1 comment_re comment).
  destruct (decide (length names < length params)) as [Hshort | Hlong].
  - rewrite bool_decide_eq_true_2 by exact Hshort.
    rewrite put_existing_names by (rewrite length_map, length_seq; lia).
    cbn [mbind result_bind].
    rewrite traverse_enum_names
      by (rewrite length_app, length_drop, length_map, length_seq; lia).
    eexists. reflexivity.
  - rewrite bool_decide_eq_false_2 by exact Hlong. cbn [mbind result_bind].
    rewrite traverse_enum_names by (simpl; lia).
    eexists. reflexivity.
Qed.

Lemma parse_api_raises (l comment : string) (m : Re.mtch) :
  raises_only (eq AttributeError) (Parser.parse_api l comment m).
Proof.
  unfold Parser.parse_api.
  apply raises_only_bind; [apply parse_param_raises |]. intros [rtype method] _.
  apply raises_only_bind.
  { apply raises_only_traverse, Forall_forall. intros p _. apply parse_param_raises. }
  intros params _.
  match goal with
  | |- raises_only _ (Parser.recover_names ?a ?b ?c ≫= _) =>
      destruct (recover_names_returns a b c) as [[ps pr] ->]
  end.
  exact I.
Qed.

Lemma include_lines_raises (st : Parser.include_state) (f : list string) :
  raises_only (eq AttributeError) (Parser.include_lines st f).
Proof.
  revert st. induction f as [| l f IH]; intros st; [exact I |].
  cbn [Parser.include_lines].
  apply raises_only_bind.
  - unfold Parser.include_line. destruct st as [acc comment].
    assert (Hc : forall l' acc',
              raises_only (eq AttributeError)
                match Re.match_ api_re l' with
                | Some m =>
                    '(met, printed) ← Parser.parse_api l' comment m;
                    Ok (Parser.IncludeState acc' "", Some met, printed)
                | None => Ok (Parser.IncludeState acc' comment, None, [])
                end).
    { intros l' acc'. destruct (Re.match_ api_re l'); [| exact I].
      apply raises_only_bind; [apply parse_api_raises |]. intros [met pr] _. exact I. }
    destruct (PyStr.startswith "/**" (PyStr.lstrip l)); [exact I |].
    destruct (PyStr.startswith " * " l); [exact I |].
    destruct (negb (String.eqb acc "")).
    + destruct (PyStr.endswith ");" (PyStr.strip l)); apply Hc.
    + destruct (PyStr.startswith "VLC_PUBLIC_API" (PyStr.strip l)
                && negb (PyStr.endswith ");" (PyStr.strip l))); [exact I | apply Hc].
  - intros [[st' y] pr] _.
    apply raises_only_bind; [apply IH |]. intros [ms pr'] _. exact I.
Qed.

Lemma enum_values_raises (pieces : list string) (val : Z) :
  raises_only (eq ValueError) (Parser.enum_values pieces val).
Proof.
  revert val. induction pieces as [| l pieces IH]; intros val; [exact I |].
  rewrite enum_values_cons.
  destruct (PyStr.startswith "/*" (PyStr.strip l)); [apply IH |].
  destruct (PyStr.contains "=" (PyStr.strip l)).
  - destruct (Re.split assign_re (PyStr.strip l)) as [| n [| v [| ? ?]]]; try reflexivity.
    apply raises_only_bind; [apply raises_only_must; reflexivity |]. intros z _.
    apply raises_only_bind; [apply IH |]. intros; exact I.
  - apply raises_only_bind; [apply IH |]. intros; exact I.
Qed.

Lemma typedef_lines_raises (st : Parser.typedef_state) (f : list string) :
  raises_only (eq ValueError) (Parser.typedef_lines st f).
Proof.
  revert st. induction f as [| l f IH]; intros st; [exact I |].
  cbn [Parser.typedef_lines].
  apply raises_only_bind.
  - unfold Parser.typedef_line. destruct st as [acc comment simple].
    assert (Hc : forall l' acc',
              raises_only (eq ValueError)
                match Re.match_ enum_re l' with
                | Some m =>
                    e ← Parser.parse_enum l' comment m;
                    Ok (Parser.TypedefState acc' "" simple, Some e)
                | None => Ok (Parser.TypedefState acc' comment simple, None)
                end).
    { intros l' acc'. destruct (Re.match_ enum_re l'); [| exact I].
      apply raises_only_bind; [| intros; exact I].
      unfold Parser.parse_enum.
      apply raises_only_bind; [apply enum_values_raises |]. intros; exact I. }
    destruct (PyStr.startswith "/**" (PyStr.lstrip l)); [exact I |].
    destruct (PyStr.startswith " * " l); [exact I |].
    destruct (PyStr.startswith "/*" (PyStr.strip l)); [exact I |].
    destruct simple as [sc |]; [exact I |].
    destruct (bool_decide (is_Some (Re.match_ enum_start_re (PyStr.strip l)))
              && negb (PyStr.endswith ";" (PyStr.strip l))); [exact I |].
    destruct (negb (String.eqb acc "")); [| apply Hc].
    destruct (PyStr.endswith ";" _); [apply Hc | exact I].
  - intros [st' y] _.
    apply raises_only_bind; [apply IH |]. intros; exact I.
Qed.

(** X3: reading the include files can fail in two ways only.
    [parse_typedef] raises nothing but a [ValueError] (an enum member
    whose value is not an integer literal, or with more than one [=]);
    [parse_include] raises nothing but an [AttributeError] (a
    [VLC_FORWARD] expression that [forward_re] does not match); the
    recovery of parameter names never raises. *)
Theorem parser_raises_only_value_or_attribute_error :
  (forall f : list string, raises_only (eq ValueError) (Parser.parse_typedef f))
  /\ (forall f : list string, raises_only (eq AttributeError) (Parser.parse_include f))
  /\ (forall (method comment : string) (params : list param),
        exists r, Parser.recover_names method comment params = Ok r)
  /\ (forall list_of_files : list (list string),
        raises_only (fun e => e = ValueError \/ e = AttributeError)
                    (Parser.init list_of_files)).
Proof.
  split; [intros f; apply typedef_lines_raises |].
  split; [intros f; apply include_lines_raises |].
  split; [exact recover_names_returns |].
  intros files. unfold Parser.init. generalize (Parser.Make [] [] []).
  induction files as [| f files IH]; intros self; [exact I |].
  cbn [Parser.init_from].
  pose proof (typedef_lines_raises (Parser.TypedefState "" "" None) f) as Ht.
  pose proof (include_lines_raises (Parser.IncludeState "" "") f) as Hi.
  unfold Parser.parse_typedef, Parser.parse_include.
  destruct (Parser.typedef_lines _ f) as [es | e]; simpl in *; [| left; auto].
  destruct (Parser.include_lines _ f) as [[ms out] | e]; simpl in *; [| right; auto].
  apply IH.
Qed.

Lemma move_stars_no_star (typ name typ' name' : string) :
  Parser.move_stars typ name = (typ', name') -> PyStr.startswith "*" name' = false.
Proof.
  revert typ. induction name as [| c name IH]; intros typ H.
  - injection H as <- <-. reflexivity.
  - simpl in H.
    destruct (Ascii.eqb_spec c "*"%char) as [-> | Hne].
    + apply (IH _ H).
    + assert (Heq : (typ, String c name) = (typ', name')).
      { rewrite <- H. destruct c as [[] [] [] [] [] [] [] []]; try reflexivity.
        exfalso. apply Hne. reflexivity. }
      injection Heq as <- <-.
      change (PyStr.startswith "*" (String c name)) with (Ascii.eqb "*"%char c && true).
      destruct (Ascii.eqb_spec "*"%char c) as [<- | _]; [contradiction | reflexivity].
Qed.

Lemma replace_blank_none (s : string) :
  PyStr.mem " "%char (PyStr.replace " " "" s) = false.
Proof.
  change (PyStr.replace " " "" s) with (PyStr.replace_from " " "" s 0).
  induction s as [| c s IH]; [reflexivity |].
  change (PyStr.replace_from " " "" (String c s) 0)
    with (if Ascii.eqb " "%char c && true
          then PyStr.replace_from " " "" s 0
          else String c (PyStr.replace_from " " "" s 0)).
  destruct (Ascii.eqb_spec " "%char c) as [<- | Hne]; [exact IH |].
  change (Ascii.eqb c " "%char || PyStr.mem " "%char (PyStr.replace_from " " "" s 0)
          = false).
  rewrite IH, orb_false_r. apply Ascii.eqb_neq. congruence.
Qed.

(** X4: whatever the expression, the type [parse_param] returns has no
    space in it, and the name it returns does not begin with a star. *)
Theorem parse_param_type_and_name (s typ name : string) :
  Parser.parse_param s = Ok (typ, name) ->
  PyStr.mem " "%char typ = false /\ PyStr.startswith "*" name = false.
Proof.
  unfold Parser.parse_param. intros H.
  match type of H with
  | (?c ≫= _) = _ => destruct c as [s' | e]; cbn [mbind result_bind] in H; [| discriminate]
  end.
  destruct (Re.search param_re s') as [m |].
  - destruct (Parser.move_stars _ _) as [typ1 name1] eqn:Hstars.
    injection H as <- <-. split; [apply replace_blank_none |].
    destruct (String.eqb name1 "const*"); [reflexivity |].
    apply (move_stars_no_star _ _ _ _ Hstars).
  - injection H as <- <-. split; [apply replace_blank_none | reflexivity].
Qed.

Lemma parse_param_type_and_name_witness :
  PyStr.mem " "%char "char**" = false /\ PyStr.startswith "*" "argv" = false.
Proof.
  apply (parse_param_type_and_name "const char * *argv").
  vm_compute. reflexivity.
Defined.

(** ** Strings read backwards *)

Lemma string_app_cons (c : ascii) (a b : string) :
  String c a +:+ b = String c (a +:+ b).
Proof. reflexivity. Qed.

Lemma string_app_nil_r (s : string) : s +:+ "" = s.
Proof.
  induction s as [| c s IH]; [reflexivity |].
  rewrite string_app_cons, IH. reflexivity.
Qed.

Lemma string_app_assoc (a b c : string) : (a +:+ b) +:+ c = a +:+ (b +:+ c).
Proof.
  induction a as [| x a IH]; [reflexivity |].
  rewrite !string_app_cons, IH. reflexivity.
Qed.

Lemma rev_onto_app (s acc : string) : PyStr.rev_onto s acc = PyStr.rev s +:+ acc.
Proof.
  unfold PyStr.rev. revert acc. induction s as [| c s IH]; intros acc.
  - reflexivity.
  - cbn [PyStr.rev_onto].
    rewrite (IH (String c acc)), (IH (String c "")), string_app_assoc. reflexivity.
Qed.

Lemma rev_cons (c : ascii) (s : string) :
  PyStr.rev (String c s) = PyStr.rev s +:+ String c "".
Proof. unfold PyStr.rev at 1. cbn [PyStr.rev_onto]. apply rev_onto_app. Qed.

Lemma rev_app (a b : string) : PyStr.rev (a +:+ b) = PyStr.rev b +:+ PyStr.rev a.
Proof.
  induction a as [| c a IH].
  - change ("" +:+ b) with b. rewrite string_app_nil_r. reflexivity.
  - rewrite string_app_cons, !rev_cons, IH, string_app_assoc. reflexivity.
Qed.

Lemma rev_involutive (s : string) : PyStr.rev (PyStr.rev s) = s.
Proof.
  induction s as [| c s IH]; [reflexivity |].
  rewrite rev_cons, rev_app, IH. reflexivity.
Qed.

Lemma lstrip_chars_head (set s : string) :
  match PyStr.lstrip_chars set s with
  | EmptyString => True
  | String c _ => PyStr.mem c set = false
  end.
Proof.
  induction s as [| c s IH]; simpl; [exact I |].
  destruct (PyStr.mem c set) eqn:Hc; [exact IH | exact Hc].
Qed.

(** ** The documentation of an enum *)

(** X5: the cleaned documentation of an enum is empty, or it is a text
    not ending in a period followed by exactly one period. *)
Theorem clean_comment_one_period (comment : string) :
  Parser.clean_comment comment = ""
  \/ exists body,
       Parser.clean_comment comment = body +:+ "."
       /\ PyStr.endswith "." body = false.
Proof.
  unfold Parser.clean_comment.
  set (c := PyStr.strip _).
  destruct (String.eqb_spec c "") as [-> | _]; [left; reflexivity |].
  right. exists (PyStr.rstrip_chars "." (PyStr.capitalize c)).
  split; [reflexivity |].
  unfold PyStr.endswith, PyStr.rstrip_chars. rewrite rev_involutive.
  pose proof (lstrip_chars_head "." (PyStr.rev (PyStr.capitalize c))) as Hh.
  destruct (PyStr.lstrip_chars "." (PyStr.rev (PyStr.capitalize c))) as [| x y];
    [reflexivity |].
  change (PyStr.startswith (PyStr.rev ".") (String x y)) with (Ascii.eqb "."%char x && true).
  change (Ascii.eqb "."%char x || false = false) in Hh.
  rewrite orb_false_r in Hh. rewrite Hh. reflexivity.
Qed.

(** ** The constant generated for an enum member *)

Lemma split_on_not_nil (sep : ascii) (s cur : string) : PyStr.split_on sep s cur <> [].
Proof.
  revert cur. induction s as [| c s IH]; intros cur; simpl; [discriminate |].
  destruct (Ascii.eqb c sep); [discriminate | apply IH].
Qed.

Lemma join_cons (sep x : string) (l : list string) :
  l <> [] -> PyStr.join sep (x :: l) = x +:+ sep +:+ PyStr.join sep l.
Proof. destruct l; [contradiction | reflexivity]. Qed.

Lemma join_split_on (sep : ascii) (s cur : string) :
  PyStr.join (String sep "") (PyStr.split_on sep s cur) = PyStr.rev cur +:+ s.
Proof.
  revert cur. induction s as [| c s IH]; intros cur; cbn [PyStr.split_on].
  - cbn [PyStr.join]. rewrite string_app_nil_r. reflexivity.
  - destruct (Ascii.eqb_spec c sep) as [-> | Hne].
    + rewrite join_cons by apply split_on_not_nil. rewrite IH. reflexivity.
    + rewrite IH, rev_cons, string_app_assoc. reflexivity.
Qed.

Lemma join_two_not_empty (a b : string) : PyStr.join "_" [a; b] <> "".
Proof.
  cbn [PyStr.join]. destruct a; [discriminate |]. rewrite string_app_cons. discriminate.
Qed.

Lemma member_name_stem (k : string) :
  k <> "" ->
  exists n, last (PyStr.split "_" k) = Some n
            /\ (if bool_decide (String.length n <= 1)
                then PyStr.join "_" (drop (length (PyStr.split "_" k) - 2) (PyStr.split "_" k))
                else n) <> "".
Proof.
  intros Hk. unfold PyStr.split.
  pose proof (join_split_on "_" k "") as Hjoin.
  change (PyStr.rev "" +:+ k) with k in Hjoin.
  pose proof (split_on_not_nil "_" k "") as Hne.
  destruct (PyStr.split_on "_" k "") as [| n front _] using rev_ind; [contradiction |].
  clear Hne. exists n. split; [apply last_snoc |].
  destruct (bool_decide (String.length n <= 1)) eqn:Hlen.
  - destruct front as [| a front _] using rev_ind.
    + simpl. simpl in Hjoin. congruence.
    + rewrite !length_app. simpl.
      replace (length front + 1 + 1 - 2) with (length front + 0) by lia.
      rewrite <- app_assoc, drop_app_length'. 2: lia.
      simpl. apply join_two_not_empty.
  - apply bool_decide_eq_false in Hlen. destruct n; simpl in Hlen; [lia | discriminate].
Qed.

(** X6: the constant name derived from an enum member is never empty
    and never begins with a digit; the derivation fails, with an
    [IndexError], for the empty symbol only. *)
Theorem member_name_is_identifier_start (k : string) :
  (k = "" -> PythonGenerator.member_name k = Raise IndexError)
  /\ (k <> "" ->
      exists c rest,
        PythonGenerator.member_name k = Ok (String c rest)
        /\ PyStr.is_digit c = false).
Proof.
  split; [intros ->; reflexivity |].
  intros Hk. destruct (member_name_stem k Hk) as (n & Hlast & Hne).
  unfold PythonGenerator.member_name. rewrite Hlast. cbn [must mbind result_bind].
  destruct (if bool_decide (String.length n <= 1) then _ else n) as [| c rest];
    [contradiction |].
  cbn [must mbind result_bind].
  destruct (PyStr.is_digit c) eqn:Hd.
  - exists "_"%char, (String c rest). split; reflexivity.
  - exists c, rest. split; [reflexivity | exact Hd].
Qed.

Lemma member_name_is_identifier_start_witness :
  PythonGenerator.member_name "" = Raise IndexError
  /\ exists c rest,
       PythonGenerator.member_name "libvlc_version_1_1" = Ok (String c rest)
       /\ PyStr.is_digit c = false.
Proof.
  split.
  - apply (proj1 (member_name_is_identifier_start "")). reflexivity.
  - apply (proj2 (member_name_is_identifier_start "libvlc_version_1_1")). discriminate.
Defined.

(** ** Enums outside the [libvlc_] name space *)

Lemma lit_none {A : Type} (p : string) (pos : nat) (s : string)
    (k : nat -> string -> option A) :
  PyStr.startswith p s = false -> Re.lit p pos s k = None.
Proof.
  revert pos s. induction p as [| a p IH]; intros pos s H; [discriminate |].
  destruct s as [| b s]; [reflexivity |].
  cbn [Re.lit]. cbn [PyStr.startswith] in H.
  destruct (Ascii.eqb a b); [apply IH, H | reflexivity].
Qed.

Lemma find_none_inv (sub : string) (c : ascii) (s : string) :
  PyStr.find sub (String c s) = None ->
  PyStr.startswith sub (String c s) = false /\ PyStr.find sub s = None.
Proof.
  cbn [PyStr.find]. destruct (PyStr.startswith sub (String c s)); [discriminate |].
  destruct (PyStr.find sub s); [discriminate | auto].
Qed.

Lemma scan_without_prefix (p : string) (r : Re.regex) (pos : nat) (s : string) :
  PyStr.find p s = None ->
  Re.scan_from (Re.Seq (Re.Lit p) r) pos s 0 = [].
Proof.
  revert pos. induction s as [| c s IH]; intros pos H.
  - cbn [Re.scan_from]. unfold Re.at_pos. cbn [Re.run].
    rewrite lit_none; [reflexivity |].
    cbn [PyStr.find] in H. destruct (PyStr.startswith p ""); [discriminate | reflexivity].
  - apply find_none_inv in H as [Hstart Hrest].
    cbn [Re.scan_from]. unfold Re.at_pos. cbn [Re.run].
    rewrite lit_none by exact Hstart. apply IH, Hrest.
Qed.

Lemma python_convert_enum_name_raises (name : string) :
  raises_only (eq IndexError) (PythonGenerator.convert_enum_name name).
Proof.
  unfold PythonGenerator.convert_enum_name.
  apply raises_only_bind; [apply raises_only_must; reflexivity |]. intros stem _.
  destruct (String.eqb name "libvlc_event_e"); [exact I |].
  destruct (PyStr.contains "_" stem.1); [exact I |].
  apply raises_only_bind; [apply raises_only_must; reflexivity |]. intros c _.
  destruct (negb (PyStr.is_upper c)); exact I.
Qed.

Lemma java_convert_enum_name_raises (name : string) :
  raises_only (eq IndexError) (JavaGenerator.convert_enum_name name).
Proof.
  unfold JavaGenerator.convert_enum_name.
  apply raises_only_bind; [apply raises_only_must; reflexivity |]. intros stem _.
  destruct (PyStr.contains "_" stem.1); [exact I |].
  apply raises_only_bind; [apply raises_only_must; reflexivity |]. intros c _.
  destruct (negb (PyStr.is_upper c)); exact I.
Qed.

Lemma python_convert_foreign_name (name : string) :
  PyStr.find "libvlc_" name = None ->
  PythonGenerator.convert_enum_name name = Raise IndexError.
Proof.
  intros H. unfold PythonGenerator.convert_enum_name, Re.findall2, Re.scan.
  unfold pyname_re. cbn [Re.cat].
  rewrite scan_without_prefix by exact H. reflexivity.
Qed.

Lemma java_convert_foreign_name (name : string) :
  PyStr.find "libvlc_" name = None ->
  JavaGenerator.convert_enum_name name = Raise IndexError.
Proof.
  intros H. unfold JavaGenerator.convert_enum_name, Re.findall2, Re.scan.
  unfold javaname_re. cbn [Re.cat].
  rewrite scan_without_prefix by exact H. reflexivity.
Qed.

Lemma python_convert_enum_names_foreign (enums : list enum) (res : gmap string string) :
  Forall (fun e => e_typ e = "enum") enums ->
  (exists e, e ∈ enums /\ PyStr.find "libvlc_" (e_name e) = None) ->
  PythonGenerator.convert_enum_names enums res = Raise IndexError.
Proof.
  intros Hall. revert res. induction Hall as [| e enums Htyp _ IH]; intros res (e0 & Hin & Hf).
  - inversion Hin.
  - cbn [PythonGenerator.convert_enum_names]. rewrite Htyp. simpl negb. cbv iota.
    pose proof (python_convert_enum_name_raises (e_name e)) as Hr.
    destruct (PythonGenerator.convert_enum_name (e_name e)) as [py | ex] eqn:Hc.
    + cbn [mbind result_bind]. apply IH.
      apply elem_of_cons in Hin as [-> | Hin]; [| exists e0; auto].
      rewrite (python_convert_foreign_name _ Hf) in Hc. discriminate.
    + simpl in Hr. subst ex. reflexivity.
Qed.

Lemma java_convert_enum_names_foreign (enums : list enum) (res : gmap string string) :
  Forall (fun e => e_typ e = "enum") enums ->
  (exists e, e ∈ enums /\ PyStr.find "libvlc_" (e_name e) = None) ->
  JavaGenerator.convert_enum_names enums res = Raise IndexError.
Proof.
  intros Hall. revert res. induction Hall as [| e enums Htyp _ IH]; intros res (e0 & Hin & Hf).
  - inversion Hin.
  - cbn [JavaGenerator.convert_enum_names]. rewrite Htyp. simpl negb. cbv iota.
    pose proof (java_convert_enum_name_raises (e_name e)) as Hr.
    destruct (JavaGenerator.convert_enum_name (e_name e)) as [py | ex] eqn:Hc.
    + cbn [mbind result_bind]. apply IH.
      apply elem_of_cons in Hin as [-> | Hin]; [| exists e0; auto].
      rewrite (java_convert_foreign_name _ Hf) in Hc. discriminate.
    + simpl in Hr. subst ex. reflexivity.
Qed.

(** X7: an enum whose name does not contain [libvlc_] stops both
    generators: with enums all of kind ["enum"], as the parser yields
    them, building the Python or the Java generator raises an
    [IndexError], whatever the methods. *)
Theorem foreign_enum_name_stops_generators (p : Parser.t) :
  Forall (fun e => e_typ e = "enum") (Parser.enums p) ->
  (exists e, e ∈ Parser.enums p /\ PyStr.find "libvlc_" (e_name e) = None) ->
  PythonGenerator.init p = Raise IndexError
  /\ JavaGenerator.init p = Raise IndexError.
Proof.
  intros Hall Hex. unfold PythonGenerator.init, JavaGenerator.init.
  rewrite python_convert_enum_names_foreign, java_convert_enum_names_foreign by assumption.
  split; reflexivity.
Qed.

Lemma foreign_enum_name_stops_generators_witness :
  Parser.init [[line "enum colour { RED, GREEN=5, BLUE };"]]
  = Ok (Parser.Make []
          [Enum "enum" "colour" [("RED", "0"); ("GREEN", "5"); ("BLUE", "6")] ""] [])
  /\ PythonGenerator.init
       (Parser.Make []
          [Enum "enum" "colour" [("RED", "0"); ("GREEN", "5"); ("BLUE", "6")] ""] [])
     = Raise IndexError
  /\ JavaGenerator.init
       (Parser.Make []
          [Enum "enum" "colour" [("RED", "0"); ("GREEN", "5"); ("BLUE", "6")] ""] [])
     = Raise IndexError.
Proof.
  split; [vm_compute; reflexivity |].
  apply foreign_enum_name_stops_generators.
  - repeat constructor.
  - eexists. split; [apply list_elem_of_here | reflexivity].
Defined.

(** ** The declarations of the Java backend *)

Lemma java_traverse_params (type2class : gmap string string) (params : list param) :
  mapped type2class params ->
  exists tys,
    Forall2 (fun (p : param) ty => type2class !! p.1 = Some ty) params tys
    /\ traverse (fun p : param =>
                  ty ← must (KeyError p.1) (type2class !! p.1);
                  Ok (ty +:+ " " +:+ p.2)) params
       = Ok (zip_with (fun ty (p : param) => ty +:+ " " +:+ p.2) tys params).
Proof.
  induction 1 as [| p params [ty Hty] _ (tys & Hall & Htr)].
  - exists []. split; [constructor | reflexivity].
  - exists (ty :: tys). split; [constructor; assumption |].
    cbn [traverse]. rewrite Hty. cbn [must mbind result_bind]. rewrite Htr. reflexivity.
Qed.

Lemma java_init_inv (p : Parser.t) (j : JavaGenerator.t) :
  JavaGenerator.init p = Ok j ->
  JavaGenerator.parser j = p
  /\ Forall (fun m => mapped (JavaGenerator.type2class_ j) (m_params m))
       (List.filter (fun m => negb (bool_decide (m_name m ∈ blacklist)))
                    (Parser.methods p)).
Proof.
  unfold JavaGenerator.init. intros H.
  destruct (JavaGenerator.convert_enum_names (Parser.enums p) ∅) as [names | e];
    simpl in H; [| discriminate].
  pose proof (python_check_types_spec (names ∪ JavaGenerator.type2class)
                (List.filter (fun m => negb (bool_decide (m_name m ∈ blacklist)))
                             (Parser.methods p))) as Hc.
  rewrite <- java_check_types_filter in Hc.
  destruct (JavaGenerator.check_types _ _) as [[] | e]; simpl in H; [| discriminate].
  injection H as <-. split; [reflexivity | exact Hc].
Qed.

(** X8: once the Java generator is built, the loop of
    [generate_libvlc] over the methods cannot fail: it writes one
    declaration for each method that is not blacklisted, in the order of
    the parser, with the mapped type and the name of every parameter. *)
Theorem java_declarations_after_init (p : Parser.t) (j : JavaGenerator.t) :
  JavaGenerator.init p = Ok j ->
  exists out,
    JavaGenerator.declare_methods j (Parser.methods p) = Ok out
    /\ Forall2
         (fun (m : method) (i : item) =>
            exists tys,
              Forall2 (fun (q : param) ty => JavaGenerator.type2class_ j !! q.1 = Some ty)
                      (m_params m) tys
              /\ i = JavaDecl
                       (default ("FIXME_" +:+ m_rtype m)
                                (JavaGenerator.type2class_ j !! m_rtype m))
                       (m_name m)
                       (PyStr.join ", "
                          (zip_with (fun ty (q : param) => ty +:+ " " +:+ q.2)
                                    tys (m_params m))))
         (List.filter (fun m => negb (bool_decide (m_name m ∈ blacklist)))
                      (Parser.methods p))
         out.
Proof.
  intros H. destruct (java_init_inv p j H) as [_ Hmapped].
  induction (Parser.methods p) as [| m methods IH].
  - exists []. split; [reflexivity | constructor].
  - cbn [JavaGenerator.declare_methods List.filter] in *.
    destruct (bool_decide (m_name m ∈ blacklist)); simpl negb in *; cbv iota in *.
    + destruct (IH Hmapped) as (out & -> & Hall).
      exists out. split; [reflexivity | exact Hall].
    + apply Forall_cons in Hmapped as [Hm Hrest].
      destruct (IH Hrest) as (out & -> & Hall).
      destruct (java_traverse_params _ _ Hm) as (tys & Htys & ->).
      eexists. split; [reflexivity |].
      constructor; [| exact Hall]. exists tys. split; [exact Htys | reflexivity].
Qed.

Lemma java_declarations_after_init_witness :
  JavaGenerator.declare_methods
    (JavaGenerator.Make (Parser.Make [example_count; example_callbacks] [] [])
       (∅ ∪ JavaGenerator.type2class))
    [example_count; example_callbacks]
  = Ok [JavaDecl "int" "libvlc_media_player_count" "LibVlcMediaPlayer p_mi"].
Proof.
  destruct (java_declarations_after_init
              (Parser.Make [example_count; example_callbacks] [] [])
              (JavaGenerator.Make (Parser.Make [example_count; example_callbacks] [] [])
                 (∅ ∪ JavaGenerator.type2class)))
    as (out & Hout & _).
  - vm_compute. reflexivity.
  - simpl Parser.methods in Hout. rewrite Hout.
    vm_compute in Hout. injection Hout as <-. reflexivity.
Defined.

(** ** The set of wrapped methods and the closing summary *)

Section Wrapped.
Import PythonGenerator.

Lemma wrap_method_ret env prefix e st st' :
  wrap_method env prefix e st = Ok st' ->
  forall x, x ∈ w_ret st' <-> x ∈ w_ret st \/ (el_method e = x /\ x ∉ blacklist).
Proof.
  unfold wrap_method. intros H x.
  destruct (bool_decide (el_method e ∈ blacklist)) eqn:Hb.
  - injection H as <-. apply bool_decide_eq_true in Hb. split; [auto |].
    intros [Hx | [<- Hn]]; [exact Hx | contradiction].
  - apply bool_decide_eq_false in Hb.
    assert (Hret : x ∈ ({[el_method e]} ∪ w_ret st : gset string)
                   <-> x ∈ w_ret st \/ (el_method e = x /\ x ∉ blacklist)).
    { rewrite elem_of_union, elem_of_singleton. split.
      - intros [-> | Hx]; auto.
      - intros [Hx | [<- _]]; auto. }
    destruct (bool_decide _) in H.
    + injection H as <-. exact Hret.
    + destruct (epydoc_comment (el_comment e) true); simpl in H; [| discriminate].
      injection H as <-. exact Hret.
Qed.

Lemma wrap_methods_ret env prefix el st st' :
  wrap_methods env prefix el st = Ok st' ->
  forall x, x ∈ w_ret st'
            <-> x ∈ w_ret st \/ exists e, e ∈ el /\ el_method e = x /\ x ∉ blacklist.
Proof.
  revert st. induction el as [| e el IH]; intros st H x; simpl in H.
  - injection H as <-. split; [auto |]. intros [Hx | (e & He & _)]; [exact Hx | inversion He].
  - destruct (wrap_method env prefix e st) as [st1 | ex] eqn:H1; simpl in H;
      [| discriminate].
    rewrite (IH _ H x), (wrap_method_ret _ _ _ _ _ H1 x). split.
    + intros [[Hx | [Hm Hn]] | (e' & He' & Hm & Hn)]; auto.
      * right. exists e. split; [apply list_elem_of_here | auto].
      * right. exists e'. split; [apply list_elem_of_further, He' | auto].
    + intros [Hx | (e' & He' & Hm & Hn)]; auto.
      apply elem_of_cons in He' as [-> | He']; auto.
      right. exists e'. auto.
Qed.

Lemma wrap_classes_ret self env groups st st' :
  wrap_classes self env groups st = Ok st' ->
  forall x, x ∈ w_ret st'
            <-> x ∈ w_ret st
                \/ exists e, e ∈ concat (List.map snd groups)
                              /\ el_method e = x /\ x ∉ blacklist.
Proof.
  revert st. induction groups as [| [k g] groups IH]; intros st H x; simpl in H.
  - injection H as <-. split; [auto |]. intros [Hx | (e & He & _)]; [exact Hx | inversion He].
  - destruct (wrap_class self env k g st) as [st1 | ex] eqn:H1; simpl in H;
      [| discriminate].
    unfold wrap_class in H1. apply wrap_methods_ret with (x := x) in H1. simpl in H1.
    rewrite (IH _ H x), H1. simpl. split.
    + intros [[Hx | (e & He & Hm & Hn)] | (e & He & Hm & Hn)]; auto.
      * right. exists e. split; [apply elem_of_app; left; exact He | auto].
      * right. exists e. split; [apply elem_of_app; right; exact He | auto].
    + intros [Hx | (e & He & Hm & Hn)]; auto.
      apply elem_of_app in He as [He | He].
      * left. right. exists e. auto.
      * right. exists e. auto.
Qed.

Lemma generate_wrappers_ret
    (self : PythonGenerator.t) (env : files) (methods : list method) (w : wrapping) :
  generate_wrappers self env methods = Ok w ->
  forall x,
    x ∈ w_ret w
    <-> exists m, m ∈ methods /\ m_name m = x
                  /\ is_Some (wrapper_class (type2class_ self) m)
                  /\ x ∉ blacklist.
Proof.
  unfold generate_wrappers. intros H x.
  rewrite (wrap_classes_ret _ _ _ _ _ H x), groupby_concat. simpl. split.
  - intros [Hx | (e & He & Hm & Hn)]; [apply not_elem_of_empty in Hx; contradiction |].
    apply elem_of_elements in He as (m & cl & Hlook & Hcl & He).
    exists m. split; [apply list_elem_of_lookup; eauto |].
    split; [rewrite <- Hm, He; reflexivity |].
    split; [rewrite Hcl; eexists; reflexivity | exact Hn].
  - intros (m & Hin & Hm & [cl Hcl] & Hn). right.
    apply list_elem_of_lookup in Hin as [i Hi].
    exists (Element cl i (m_rtype m) (m_name m) (m_comment m)).
    split; [| auto].
    apply elem_of_elements. exists m, cl. auto.
Qed.

(** X9: the set [generate_wrappers] returns holds exactly the names of
    the methods whose first parameter is of a defined class and that are
    not blacklisted; a method overridden in [override.py] is in it all
    the same. *)
Theorem wrapped_methods_are_the_eligible_ones
    (self : PythonGenerator.t) (env : files) (methods : list method) (w : wrapping) :
  generate_wrappers self env methods = Ok w ->
  forall x,
    x ∈ w_ret w
    <-> exists m, m ∈ methods /\ m_name m = x
                  /\ is_Some (wrapper_class (type2class_ self) m)
                  /\ x ∉ blacklist.
Proof. apply generate_wrappers_ret. Qed.

Lemma wrapped_methods_are_the_eligible_ones_witness :
  "libvlc_media_player_count"
    ∈ ({[ "libvlc_media_player_count" ]} ∪ ∅ : gset string).
Proof.
  refine (proj2 (wrapped_methods_are_the_eligible_ones
           (example_generator [example_count; example_callbacks]) example_files
           [example_count; example_callbacks]
           (Wrapping ({[ "libvlc_media_player_count" ]} ∪ ∅)
              [with_params set_self example_count; example_callbacks]
              [ Raw "class MediaPlayer(object):"; ClassNew; ClassFromParam;
                WrapperDef "count" "libvlc_media_player_count" "self" "";
                LenDef "libvlc_media_player_count" ])
           _ "libvlc_media_player_count") _).
  - vm_compute. reflexivity.
  - exists example_count. split; [apply list_elem_of_here |].
    split; [reflexivity |]. split; [vm_compute; eexists; reflexivity |].
    vm_compute. intros Hin.
    repeat (inversion Hin as [| ? ? ? Hin']; subst; clear Hin; rename Hin' into Hin).
Defined.
Lemma generate_wrappers_names self env methods w :
  generate_wrappers self env methods = Ok w ->
  List.map m_name (w_methods w) = List.map m_name methods.
Proof.
  intros H. apply list_eq. intros i.
  change (List.map m_name (w_methods w)) with (m_name <$> w_methods w).
  change (List.map m_name methods) with (m_name <$> methods).
  rewrite !list_lookup_fmap.
  destruct (methods !! i) as [m |] eqn:Hm.
  - rewrite (generate_wrappers_methods self env methods w H i m Hm). simpl.
    destruct (rewritten self env m); reflexivity.
  - rewrite (lookup_ge_None_2 (w_methods w) i); [reflexivity |].
    rewrite (generate_wrappers_length _ _ _ _ H). apply lookup_ge_None_1, Hm.
Qed.

Lemma unwrapped_by_name (P : string -> bool) (l : list method) :
  List.map (fun m => "#  " +:+ m_name m) (List.filter (fun m => P (m_name m)) l)
  = List.map (fun n => "#  " +:+ n) (List.filter P (List.map m_name l)).
Proof.
  induction l as [| m l IH]; simpl; [reflexivity |].
  destruct (P (m_name m)); simpl; rewrite IH; reflexivity.
Qed.

Lemma is_wrapped_ret self env methods w :
  generate_wrappers self env methods = Ok w ->
  forall x, bool_decide (x ∈ w_ret w) = is_wrapped (type2class_ self) methods x.
Proof.
  intros H x. pose proof (generate_wrappers_ret self env methods w H x) as Hret.
  unfold is_wrapped.
  destruct (bool_decide (x ∈ w_ret w)) eqn:Hx; symmetry.
  - apply bool_decide_eq_true in Hx. apply Hret in Hx as (m & Hin & Hm & Hcl & Hn).
    apply andb_true_iff. split.
    + apply existsb_exists. exists m. split; [apply list_elem_of_In, Hin |].
      apply andb_true_iff. split; [apply String.eqb_eq, Hm |].
      apply bool_decide_eq_true, Hcl.
    + apply negb_true_iff, bool_decide_eq_false, Hn.
  - apply bool_decide_eq_false in Hx. apply andb_false_iff.
    destruct (bool_decide (x ∈ blacklist)) eqn:Hb; [right; reflexivity |].
    left. apply bool_decide_eq_false in Hb.
    destruct (existsb _ methods) eqn:He; [| reflexivity].
    exfalso. apply Hx, Hret.
    apply existsb_exists in He as (m & Hin & Hm).
    apply andb_true_iff in Hm as [Hm Hcl].
    exists m. split; [apply list_elem_of_In, Hin |].
    split; [apply String.eqb_eq, Hm |].
    split; [apply bool_decide_eq_true in Hcl; exact Hcl | exact Hb].
Qed.

(** X10: [save] ends what it writes with the summary of the methods not
    wrapped: a line with their number, then the list, collected in the
    order of the parser and written sorted, of every method (the
    blacklisted ones too) whose name is not the name of a method wrapped
    into a class; nothing is added when there is none. *)
Theorem save_ends_with_summary
    (self self' : PythonGenerator.t) (env : files) (out : list item) :
  save self env = Ok (self', out) ->
  exists front,
    out = front ++ not_wrapped_summary (type2class_ self) (Parser.methods (parser self)).
Proof.
  intros Hsave.
  destruct (save_inv _ _ _ _ Hsave)
    as (head & w & decls & unw & foot & _ & Hw & -> & Hdecl & _ & ->).
  destruct (declare_methods_spec _ _ _ _ _ Hdecl) as [_ Hunw].
  exists (head ++ w_out w ++ decls ++ foot).
  rewrite <- !app_assoc. do 4 f_equal.
  assert (Heq : unw
                = List.map (fun m => "#  " +:+ m_name m)
                    (List.filter
                       (fun m => negb (is_wrapped (type2class_ self)
                                         (Parser.methods (parser self)) (m_name m)))
                       (Parser.methods (parser self)))).
  { rewrite Hunw.
    pose proof (unwrapped_by_name (fun n => negb (bool_decide (n ∈ w_ret w)))
                  (w_methods w)) as E1.
    pose proof (unwrapped_by_name
                  (fun n => negb (is_wrapped (type2class_ self)
                                    (Parser.methods (parser self)) n))
                  (Parser.methods (parser self))) as E2.
    cbv beta in E1, E2. rewrite E1, E2.
    rewrite (generate_wrappers_names _ _ _ _ Hw). f_equal.
    apply filter_ext. intros n. rewrite (is_wrapped_ret _ _ _ _ Hw). reflexivity. }
  unfold not_wrapped_summary. rewrite <- Heq. reflexivity.
Qed.

Lemma save_ends_with_summary_witness :
  exists front,
    example_output
    = front ++ [ Raw "# 1 methods not wrapped :";
                 NotWrapped ["#  libvlc_video_set_callbacks"] ].
Proof.
  destruct (save_ends_with_summary
              (example_generator [example_count; example_callbacks])
              (example_generator [with_params set_self example_count; example_callbacks])
              example_files example_output) as [front Hfront].
  - vm_compute. reflexivity.
  - exists front. rewrite Hfront. f_equal.
Defined.
End Wrapped.

(** ** The prefix of a class *)

Section Prefixes.
Import PythonGenerator.

Lemma prefixes_fold_from (l : list (string * string)) (d : gmap string string)
    (cl p : string) :
  foldl (fun d '(k, v) =>
           if bool_decide (v ∈ defined_classes) then <[v := PyStr.drop_end 2 k]> d else d)
        d l !! cl = Some p ->
  d !! cl = Some p
  \/ (cl ∈ defined_classes /\ exists k, (k, cl) ∈ l /\ p = PyStr.drop_end 2 k).
Proof.
  revert d. induction l as [| [k v] l IH]; intros d H; simpl in H; [left; exact H |].
  destruct (IH _ H) as [Hd | (Hdef & k' & Hin & Hp)].
  - destruct (bool_decide (v ∈ defined_classes)) eqn:Hv; [| left; exact Hd].
    apply bool_decide_eq_true in Hv.
    destruct (decide (v = cl)) as [-> | Hne].
    + rewrite lookup_insert_eq in Hd. injection Hd as <-.
      right. split; [exact Hv |]. exists k. split; [apply list_elem_of_here | reflexivity].
    + rewrite lookup_insert_ne in Hd by exact Hne. left. exact Hd.
  - right. split; [exact Hdef |]. exists k'. split; [apply list_elem_of_further, Hin | exact Hp].
Qed.

Lemma prefixes_fold_has (l : list (string * string)) (d : gmap string string)
    (cl : string) :
  cl ∈ defined_classes ->
  is_Some (d !! cl) \/ (exists k, (k, cl) ∈ l) ->
  is_Some (foldl (fun d '(k, v) =>
                    if bool_decide (v ∈ defined_classes)
                    then <[v := PyStr.drop_end 2 k]> d else d)
                 d l !! cl).
Proof.
  intros Hdef. revert d. induction l as [| [k v] l IH]; intros d H; simpl.
  - destruct H as [H | (k & Hin)]; [exact H | inversion Hin].
  - apply IH. destruct H as [H | (k' & Hin)].
    + left. destruct (bool_decide (v ∈ defined_classes)); [| exact H].
      destruct (decide (v = cl)) as [-> | Hne].
      * rewrite lookup_insert_eq. eexists. reflexivity.
      * rewrite lookup_insert_ne by exact Hne. exact H.
    + apply elem_of_cons in Hin as [[= <- <-] | Hin]; [| right; exists k'; exact Hin].
      left. rewrite bool_decide_eq_true_2 by exact Hdef.
      rewrite lookup_insert_eq. eexists. reflexivity.
Qed.

(** X11: once the Python generator is built, every class a method is
    wrapped into has a prefix, and that prefix is the name of a C type
    mapped to the class without its last two bytes; the short name of a
    wrapper is never computed with the empty default prefix. *)
Theorem wrapper_class_has_prefix (p : Parser.t) (g : PythonGenerator.t)
    (m : method) (cl : string) :
  PythonGenerator.init p = Ok g ->
  wrapper_class (type2class_ g) m = Some cl ->
  exists k,
    type2class_ g !! k = Some cl
    /\ prefixes g !! cl = Some (PyStr.drop_end 2 k)
    /\ class_prefix g cl = PyStr.drop_end 2 k.
Proof.
  intros Hinit Hcl. destruct (python_init_inv p g Hinit) as (names & _ & ->).
  simpl in *. set (t2c := names ∪ PythonGenerator.type2class) in *.
  unfold wrapper_class in Hcl.
  destruct (m_params m) as [| [typ name] ps]; [discriminate |].
  destruct (t2c !! typ) as [cl' |] eqn:Htyp; [| discriminate].
  destruct (bool_decide (cl' ∈ defined_classes)) eqn:Hdef; [| discriminate].
  injection Hcl as ->. apply bool_decide_eq_true in Hdef.
  destruct (prefixes_fold_has (map_to_list t2c) ∅ cl Hdef) as [pre Hpre].
  { right. exists typ. apply elem_of_map_to_list, Htyp. }
  destruct (prefixes_fold_from _ _ _ _ Hpre) as [Hempty | (_ & k & Hin & ->)].
  { rewrite lookup_empty in Hempty. discriminate. }
  exists k. apply elem_of_map_to_list in Hin.
  split; [exact Hin |]. unfold class_prefix, make_prefixes. simpl.
  unfold make_prefixes. rewrite Hpre. split; reflexivity.
Qed.

Lemma wrapper_class_has_prefix_witness :
  exists k,
    type2class_ (example_generator [example_count]) !! k = Some "MediaPlayer"
    /\ prefixes (example_generator [example_count]) !! "MediaPlayer"
       = Some (PyStr.drop_end 2 k)
    /\ class_prefix (example_generator [example_count]) "MediaPlayer"
       = PyStr.drop_end 2 k.
Proof.
  apply (wrapper_class_has_prefix (Parser.Make [example_count] [] []) _ example_count).
  - vm_compute. reflexivity.
  - vm_compute. reflexivity.
Defined.
End Prefixes.

(** ** One group for each class *)

Section GroupsByKey.
Context {A : Type} (key : A -> string).

Lemma insert_sorted_sorted (x : A) (l : list A) :
  StronglySorted (fun a b => String.le (key a) (key b)) l ->
  StronglySorted (fun a b => String.le (key a) (key b)) (insert_sorted key x l).
Proof.
  induction 1 as [| y l Hl IH Hy]; simpl; [repeat constructor |].
  destruct (String.leb (key x) (key y)) eqn:Hxy.
  - constructor; [constructor; assumption |].
    apply Is_true_true in Hxy. constructor; [exact Hxy |].
    eapply Forall_impl; [exact Hy |]. intros z Hz. simpl in Hz.
    etrans; [exact Hxy | exact Hz].
  - constructor; [exact IH |].
    rewrite (insert_sorted_perm key x l). constructor; [| exact Hy].
    destruct (total String.le (key x) (key y)) as [H | H]; [| exact H].
    apply Is_true_true in H. unfold String.le in H. congruence.
Qed.

Lemma sorted_sorted (l : list A) :
  StronglySorted (fun a b => String.le (key a) (key b)) (sorted key l).
Proof.
  induction l as [| x l IH]; simpl; [constructor | apply insert_sorted_sorted, IH].
Qed.

Lemma groupby_head (x : A) (l : list A) :
  exists g gs, groupby key (x :: l) = (key x, x :: g) :: gs.
Proof.
  simpl. destruct (groupby key l) as [| [k g] gs]; [eauto |].
  destruct (String.eqb_spec (key x) k) as [<- | _]; eauto.
Qed.

Lemma groupby_key_elem (l : list A) (k : string) :
  k ∈ List.map fst (groupby key l) <-> exists x, x ∈ l /\ key x = k.
Proof.
  split.
  - intros Hk. apply list_elem_of_In, in_map_iff in Hk as ([k' g] & <- & Hin).
    pose proof (groupby_keys key l) as Hkeys. rewrite Forall_forall in Hkeys.
    apply list_elem_of_In in Hin. specialize (Hkeys _ Hin). simpl in *.
    assert (Hne : exists x, x ∈ g).
    { clear Hkeys. revert k' g Hin. induction l as [| y l IH]; intros k' g Hin;
        simpl in Hin; [inversion Hin |].
      destruct (groupby key l) as [| [k1 g1] gs].
      - apply list_elem_of_singleton in Hin as [= -> ->]. exists y. apply list_elem_of_here.
      - destruct (String.eqb (key y) k1).
        + apply elem_of_cons in Hin as [[= -> ->] | Hin].
          * exists y. apply list_elem_of_here.
          * apply (IH k' g). right. exact Hin.
        + apply elem_of_cons in Hin as [[= -> ->] | Hin].
          * exists y. apply list_elem_of_here.
          * apply (IH k' g Hin). }
    destruct Hne as [x Hx]. exists x. split.
    + rewrite <- (groupby_concat key l). apply list_elem_of_In, in_concat.
      exists g. split; [| apply list_elem_of_In, Hx].
      apply in_map_iff. exists (k', g). split; [reflexivity |].
      apply list_elem_of_In, Hin.
    + rewrite Forall_forall in Hkeys. apply (Hkeys x Hx).
  - intros (x & Hx & <-). induction l as [| y l IH]; [inversion Hx |].
    apply elem_of_cons in Hx as [-> | Hx].
    + destruct (groupby_head y l) as (g & gs & ->). apply list_elem_of_here.
    + specialize (IH Hx). simpl.
      destruct (groupby key l) as [| [k g] gs]; [inversion IH |].
      destruct (String.eqb_spec (key y) k) as [<- | _]; [exact IH |].
      simpl. right. exact IH.
Qed.

Lemma groupby_sorted_nodup (l : list A) :
  StronglySorted (fun a b => String.le (key a) (key b)) l ->
  NoDup (List.map fst (groupby key l)).
Proof.
  induction 1 as [| x l Hl IH Hx]; simpl; [constructor |].
  pose proof (groupby_key_elem l) as Helem.
  destruct l as [| h l'].
  - simpl. repeat constructor. intros Hin. inversion Hin.
  - destruct (groupby_head h l') as (g & gs & Hg). rewrite Hg in *.
    destruct (String.eqb_spec (key x) (key h)) as [Heq | Hne]; [exact IH |].
    simpl. constructor; [| exact IH].
    intros Hin. apply Helem in Hin as (y & Hy & Hkey).
    apply Forall_cons in Hx as [Hxh _].
    assert (Hhy : String.le (key h) (key y)).
    { apply elem_of_cons in Hy as [-> | Hy]; [reflexivity |].
      inversion Hl as [| ? ? _ Hh]; subst. rewrite Forall_forall in Hh.
      apply Hh, Hy. }
    rewrite Hkey in Hhy. apply Hne. apply (anti_symm String.le); assumption.
Qed.
End GroupsByKey.

(** X12: the wrapper loop goes over one group for each class: the
    classes of the groups are pairwise different, no group is empty, and
    a class has a group exactly when some method (blacklisted or not)
    has a first parameter of that class. *)
Theorem one_group_per_class (type2class : gmap string string) (methods : list method) :
  NoDup (List.map fst
           (groupby PythonGenerator.el_class
              (PythonGenerator.elements type2class methods)))
  /\ Forall (fun kg : string * list PythonGenerator.element => kg.2 <> [])
            (groupby PythonGenerator.el_class
               (PythonGenerator.elements type2class methods))
  /\ (forall cl,
        cl ∈ List.map fst
               (groupby PythonGenerator.el_class
                  (PythonGenerator.elements type2class methods))
        <-> exists m, m ∈ methods
                      /\ PythonGenerator.wrapper_class type2class m = Some cl).
Proof.
  split; [apply groupby_sorted_nodup, sorted_sorted |].
  split.
  - generalize (PythonGenerator.elements type2class methods). intros l.
    induction l as [| x l IH]; simpl; [constructor |].
    destruct (groupby PythonGenerator.el_class l) as [| [k g] gs].
    + repeat constructor. discriminate.
    + destruct (String.eqb _ k).
      * apply Forall_cons in IH as [_ IH]. constructor; [discriminate | exact IH].
      * constructor; [discriminate | exact IH].
  - intros cl. rewrite groupby_key_elem. split.
    + intros (e & He & <-).
      apply (elem_of_elements (PythonGenerator.Make (Parser.Make [] [] []) type2class ∅))
        in He as (m & cl & Hm & Hcl & ->).
      exists m. split; [apply list_elem_of_lookup; eauto | exact Hcl].
    + intros (m & Hin & Hcl). apply list_elem_of_lookup in Hin as [i Hi].
      exists (PythonGenerator.Element cl i (m_rtype m) (m_name m) (m_comment m)).
      split; [| reflexivity].
      apply (elem_of_elements (PythonGenerator.Make (Parser.Make [] [] []) type2class ∅)).
      exists m, cl. auto.
Qed.

(** ** The order of the wrapped methods *)

Section ElementOrder.
Import PythonGenerator.

Lemma insert_sorted_stable (x : element) (l : list element) :
  Forall (fun y => el_ref x < el_ref y) l ->
  StronglySorted class_then_position l ->
  StronglySorted class_then_position (insert_sorted el_class x l).
Proof.
  intros Hx Hl. induction Hl as [| y l Hl IH Hy]; simpl; [repeat constructor |].
  apply Forall_cons in Hx as [Hxy Hxl].
  destruct (String.leb (el_class x) (el_class y)) eqn:Hle.
  - apply Is_true_true in Hle.
    constructor; [constructor; assumption |].
    constructor; [split; [exact Hle | intros _; exact Hxy] |].
    rewrite Forall_forall in Hy, Hxl. apply Forall_forall. intros z Hz. split.
    + etrans; [exact Hle | apply (Hy z Hz)].
    + intros _. apply (Hxl z Hz).
  - constructor; [apply IH, Hxl |].
    rewrite (insert_sorted_perm el_class x l). constructor; [| exact Hy].
    assert (Hyx : String.le (el_class y) (el_class x)).
    { destruct (total String.le (el_class x) (el_class y)) as [H | H]; [| exact H].
      apply Is_true_true in H. unfold String.le in H. congruence. }
    split; [exact Hyx |]. intros Heq. rewrite Heq in Hle.
    assert (Hrefl : String.le (el_class x) (el_class x)) by reflexivity.
    apply Is_true_true in Hrefl. congruence.
Qed.

Lemma candidates_by_position (type2class : gmap string string) (methods : list method)
    (n : nat) :
  let l := omap id (imap (fun i m =>
                            (fun cl => Element cl (n + i) (m_rtype m) (m_name m) (m_comment m))
                              <$> wrapper_class type2class m) methods) in
  Forall (fun e => n <= el_ref e) l
  /\ StronglySorted (fun a b => el_ref a < el_ref b) l.
Proof.
  revert n. induction methods as [| m methods IH]; intros n; simpl.
  - split; constructor.
  - specialize (IH (S n)).
    assert (Hext : imap ((fun i m0 =>
                            (fun cl => Element cl (n + i) (m_rtype m0) (m_name m0)
                                         (m_comment m0))
                              <$> wrapper_class type2class m0) ∘ S) methods
                   = imap (fun i m0 =>
                             (fun cl => Element cl (S n + i) (m_rtype m0) (m_name m0)
                                          (m_comment m0))
                               <$> wrapper_class type2class m0) methods).
    { apply imap_ext. intros i x _. simpl. rewrite Nat.add_succ_r. reflexivity. }
    rewrite Hext. simpl in IH. destruct IH as [Hge Hs].
    assert (Hge' : Forall (fun e => n <= el_ref e)
                     (omap id (imap (fun i m0 =>
                                       (fun cl => Element cl (S n + i) (m_rtype m0)
                                                    (m_name m0) (m_comment m0))
                                         <$> wrapper_class type2class m0) methods))).
    { eapply Forall_impl; [exact Hge |]. intros e He. simpl in He. lia. }
    destruct (wrapper_class type2class m) as [cl |]; simpl; [| split; assumption].
    rewrite Nat.add_0_r. split.
    + constructor; [simpl; lia | exact Hge'].
    + constructor; [exact Hs |].
      eapply Forall_impl; [exact Hge |]. intros e He. simpl in *. lia.
Qed.

Lemma sorted_stable (l : list element) :
  StronglySorted (fun a b => el_ref a < el_ref b) l ->
  StronglySorted class_then_position (sorted el_class l).
Proof.
  induction 1 as [| x l Hl IH Hx]; simpl; [constructor |].
  apply insert_sorted_stable; [| exact IH].
  rewrite (sorted_perm el_class l). exact Hx.
Qed.

(** X13: the wrapped methods are taken class by class, in the order of
    the class names, and within a class in the order in which the parser
    read them. *)
Theorem elements_by_class_then_position
    (type2class : gmap string string) (methods : list method) :
  StronglySorted
    (fun a b => String.le (el_class a) (el_class b)
                /\ (el_class a = el_class b -> el_ref a < el_ref b))
    (elements type2class methods).
Proof.
  unfold elements. apply sorted_stable.
  apply (candidates_by_position type2class methods 0).
Qed.
End ElementOrder.

(** ** The override definitions file *)

Section OverrideFile.
Import Override.

Lemma read_plain_lines (pre : list string) (st : reading) :
  Forall (fun l => Re.match_ class_re l = None) pre ->
  foldl read_line st pre = Reading (r_code st) (r_data st ++ pre) (r_current st).
Proof.
  intros H. revert st. induction H as [| l pre Hl _ IH]; intros st; simpl.
  - rewrite app_nil_r. destruct st; reflexivity.
  - rewrite IH. unfold read_line at 1 2 3. rewrite Hl. simpl.
    rewrite <- app_assoc. reflexivity.
Qed.

(** X14: the lines of the override file that come before its first class
    line are dropped: the file gives the same result without them. *)
Theorem override_preamble_is_dropped (pre : list string) (l : string)
    (rest : list string) :
  Forall (fun x => Re.match_ class_re x = None) pre ->
  is_Some (Re.match_ class_re l) ->
  parse_override (pre ++ l :: rest) = parse_override (l :: rest).
Proof.
  intros Hpre [m Hm].
  assert (E : read_code (pre ++ l :: rest) = read_code (l :: rest)).
  { unfold read_code. rewrite foldl_app, (read_plain_lines pre _ Hpre).
    cbn [foldl r_code r_data r_current].
    assert (E : forall st, r_current st = None -> r_code st = ∅ ->
                           read_line st l
                           = Reading ∅ [] (Some (default "" (Re.group l m 1)))).
    { intros st Hc Hd. unfold read_line. rewrite Hm, Hc, Hd. reflexivity. }
    rewrite !E by reflexivity. reflexivity. }
  unfold parse_override. rewrite E. reflexivity.
Qed.

Lemma override_preamble_is_dropped_witness :
  parse_override [line "import ctypes"; line ""; line "class Media:"; line "    pass"]
  = parse_override [line "class Media:"; line "    pass"].
Proof.
  apply (override_preamble_is_dropped [line "import ctypes"; line ""]).
  - repeat constructor.
  - vm_compute. eexists. reflexivity.
Defined.

Lemma split_docstring_raises (v : string) :
  raises_only (eq ValueError) (split_docstring v).
Proof.
  unfold split_docstring. destruct (PyStr.startswith dq3 (PyStr.lstrip v)); [| exact I].
  destruct (split dq3 v 2) as [| a [| b [| c [| ? ?]]]]; simpl; auto.
Qed.

Lemma split_docstring_plain (v rest : string) :
  split_docstring v = Ok (None, rest) -> rest = v.
Proof.
  unfold split_docstring. destruct (PyStr.startswith dq3 (PyStr.lstrip v)).
  - destruct (split dq3 v 2) as [| a [| b [| c [| ? ?]]]]; discriminate.
  - intros [= <-]. reflexivity.
Qed.

Lemma split_docstrings_raise (items : list (option string * string))
    (c0 d0 : gmap (option string) string) :
  (exists k v, (k, v) ∈ items /\ split_docstring v = Raise ValueError)
  <-> split_docstrings items c0 d0 = Raise ValueError.
Proof.
  revert c0 d0. induction items as [| [k v] items IH]; intros c0 d0; simpl.
  - split; [intros (k & v & Hin & _); inversion Hin | discriminate].
  - pose proof (split_docstring_raises v) as Hr.
    destruct (split_docstring v) as [[doc rest] | e] eqn:Hv; simpl in *.
    + transitivity (exists k0 v0, (k0, v0) ∈ items
                                   /\ split_docstring v0 = Raise ValueError).
      * split.
        -- intros (k0 & v0 & Hin & Hv0).
           apply elem_of_cons in Hin as [[= -> ->] | Hin]; [congruence | eauto].
        -- intros (k0 & v0 & Hin & Hv0). exists k0, v0.
           split; [right; exact Hin | exact Hv0].
      * destruct doc; apply IH.
    + subst e. split; [reflexivity |]. intros _. exists k, v.
      split; [apply list_elem_of_here | exact Hv].
Qed.

Lemma split_docstrings_raises_only (items : list (option string * string))
    (c0 d0 : gmap (option string) string) :
  raises_only (eq ValueError) (split_docstrings items c0 d0).
Proof.
  revert c0 d0. induction items as [| [k v] items IH]; intros c0 d0; simpl; [exact I |].
  apply raises_only_bind; [apply split_docstring_raises |].
  intros [[d |] rest] _; apply IH.
Qed.

Lemma split_docstrings_lookup (items : list (option string * string))
    (c0 d0 c d : gmap (option string) string) :
  NoDup items.*1 ->
  split_docstrings items c0 d0 = Ok (c, d) ->
  forall k,
    (forall v, (k, v) ∈ items ->
       exists doc rest,
         split_docstring v = Ok (doc, rest)
         /\ c !! k = match doc with Some _ => Some rest | None => c0 !! k end
         /\ d !! k = match doc with Some x => Some x | None => d0 !! k end)
    /\ (k ∉ items.*1 -> c !! k = c0 !! k /\ d !! k = d0 !! k).
Proof.
  revert c0 d0. induction items as [| [k0 v0] items IH]; intros c0 d0 Hnd H k;
    simpl in H.
  - injection H as <- <-. split; [intros v Hin; inversion Hin | auto].
  - rewrite fmap_cons in Hnd. apply NoDup_cons in Hnd as [Hk0 Hnd].
    change ((k0, v0).1) with k0 in Hk0.
    destruct (split_docstring v0) as [[doc0 rest0] | e] eqn:Hv0; simpl in H;
      [| discriminate].
    set (c1 := match doc0 with Some _ => <[k0 := rest0]> c0 | None => c0 end).
    set (d1 := match doc0 with Some x => <[k0 := x]> d0 | None => d0 end).
    assert (H1 : split_docstrings items c1 d1 = Ok (c, d))
      by (unfold c1, d1; destruct doc0; exact H).
    destruct (IH c1 d1 Hnd H1 k) as [Hin Hout]. split.
    + intros v Hv. apply elem_of_cons in Hv as [Hv | Hv].
      * injection Hv as -> ->. exists doc0, rest0. split; [exact Hv0 |].
        destruct (Hout Hk0) as [-> ->]. unfold c1, d1.
        destruct doc0; [rewrite !lookup_insert_eq |]; auto.
      * assert (Hne : k0 <> k).
        { intros ->. apply Hk0, list_elem_of_fmap. exists (k, v). auto. }
        destruct (Hin v Hv) as (doc & rest & Hd & Hc1 & Hd1).
        exists doc, rest. split; [exact Hd |]. rewrite Hc1, Hd1. unfold c1, d1.
        destruct doc0; [rewrite !lookup_insert_ne by exact Hne |]; auto.
    + intros Hk. rewrite fmap_cons in Hk. apply not_elem_of_cons in Hk as [Hne Hk].
      change ((k0, v0).1) with k0 in Hne.
      destruct (Hout Hk) as [-> ->]. unfold c1, d1.
      destruct doc0; [rewrite !lookup_insert_ne by congruence |]; auto.
Qed.

(** X15: [parse_override] fails, with a [ValueError] and nothing else,
    exactly when the text kept for some key begins with a docstring
    delimiter that is not closed.  When it returns, every key of the
    text read has its entries: the docstring if the text begins with
    one, the text behind it (or the whole text) as code, and the names
    of the [def] lines of that code as overridden methods; other keys
    have none. *)
Theorem parse_override_result (f : list string) :
  raises_only (eq ValueError) (parse_override f)
  /\ ((exists k v, read_code f !! k = Some v /\ split_docstring v = Raise ValueError)
      <-> parse_override f = Raise ValueError)
  /\ (forall r, parse_override f = Ok r ->
        forall k,
          match read_code f !! k with
          | Some v =>
              exists doc rest,
                split_docstring v = Ok (doc, rest)
                /\ code r !! k = Some rest
                /\ docstring r !! k = doc
                /\ overridden_methods r !! k = Some (findall_lines def_re rest)
          | None =>
              code r !! k = None /\ docstring r !! k = None
              /\ overridden_methods r !! k = None
          end).
Proof.
  unfold parse_override. split; [| split].
  - apply raises_only_bind; [apply split_docstrings_raises_only |].
    intros [c d] _. exact I.
  - transitivity (exists k v, (k, v) ∈ map_to_list (read_code f)
                              /\ split_docstring v = Raise ValueError).
    + split; intros (k & v & Hk & Hv); exists k, v;
        (split; [apply elem_of_map_to_list, Hk | exact Hv]).
    + rewrite (split_docstrings_raise _ (read_code f) ∅).
      destruct (split_docstrings _ _ _) as [[c d] | e]; simpl;
        [split; discriminate | split; intros [= ->]; reflexivity].
  - intros r Hr k.
    destruct (split_docstrings _ _ _) as [[c d] | e] eqn:Hs; simpl in Hr;
      [| discriminate].
    injection Hr as <-. simpl.
    destruct (split_docstrings_lookup _ _ _ _ _
                (NoDup_fst_map_to_list (read_code f)) Hs k) as [Hin Hout].
    rewrite lookup_fmap.
    destruct (read_code f !! k) as [v |] eqn:Hk.
    + apply elem_of_map_to_list in Hk as Hkv.
      destruct (Hin v Hkv) as (doc & rest & Hv & Hc & Hd).
      exists doc, rest. rewrite Hc, Hd. split; [exact Hv |].
      destruct doc as [x |]; simpl.
      * auto.
      * apply split_docstring_plain in Hv as ->.
        rewrite lookup_empty. auto.
    + destruct Hout as [Hc Hd].
      * intros Hel. apply list_elem_of_fmap in Hel as ([k' v'] & -> & Hel).
        apply elem_of_map_to_list in Hel. simpl in Hk. congruence.
      * rewrite Hc, Hd, lookup_empty. auto.
Qed.
End OverrideFile.

Lemma parse_override_result_witness :
  exists r,
    Override.parse_override
      [ line "import ctypes"; line "class Instance:";
        line ("    " +:+ dq3 +:+ "Create an instance."); line ("    " +:+ dq3);
        line "    def media_new(self, mrl):"; line "        return 1" ]
    = Ok r
    /\ Override.docstring r !! Some "Instance" = Some (line "Create an instance." +:+ "    ")
    /\ Override.overridden_methods r !! Some "Instance" = Some ["media_new"]
    /\ Override.code r !! Some "Media" = None.
Proof.
  set (f := [ line "import ctypes"; line "class Instance:";
              line ("    " +:+ dq3 +:+ "Create an instance."); line ("    " +:+ dq3);
              line "    def media_new(self, mrl):"; line "        return 1" ]).
  pose proof (proj2 (proj2 (parse_override_result f))) as H.
  destruct (Override.parse_override f) as [r | e] eqn:E;
    [| exfalso; vm_compute in E; discriminate].
  exists r. split; [reflexivity |].
  pose proof (H r eq_refl (Some "Instance")) as Hi.
  pose proof (H r eq_refl (Some "Media")) as Hm.
  assert (Ei : Override.read_code f !! Some "Instance"
               = Some (line ("    " +:+ dq3 +:+ "Create an instance.")
                       +:+ line ("    " +:+ dq3)
                       +:+ line "    def media_new(self, mrl):"
                       +:+ line "        return 1"))
    by (vm_compute; reflexivity).
  assert (Em : Override.read_code f !! Some "Media" = None) by (vm_compute; reflexivity).
  rewrite Ei in Hi. rewrite Em in Hm.
  destruct Hi as (doc & rest & Hs & _ & Hd & Ho).
  vm_compute in Hs. injection Hs as <- <-.
  split; [exact Hd |]. split; [rewrite Ho; vm_compute; reflexivity |].
  exact (proj1 Hm).
Defined.

(** ** The consistency checks *)

(** X16: a function for which the parser had to make up parameter names,
    and printed its error lines, is reported by the checks of the main
    program as well: with the one line for a blank comment, or else with
    the one for a mismatch between the comment and the parameters. *)
Theorem made_up_names_are_reported (rtype method comment : string)
    (params params' : list param) (printed : list string) :
  Parser.recover_names method comment params = Ok (params', printed) ->
  printed <> [] ->
  check_method (Method rtype method params' comment)
  = [ if String.eqb (PyStr.strip comment) ""
      then "No comment for " +:+ method
      else "Docstring comment parameters mismatch for " +:+ method ].
Proof.
  unfold Parser.recover_names.
  destruct (existsb _ params); [| intros [= <- <-] Hp; contradiction].
  set (names := Re.findall1 comment_re comment).
  destruct (decide (length names < length params)) as [Hshort | Hlong].
  - rewrite bool_decide_eq_true_2 by exact Hshort.
    rewrite put_existing_names by (rewrite length_map, length_seq; lia).
    cbn [mbind result_bind].
    rewrite traverse_enum_names
      by (rewrite length_app, length_drop, length_map, length_seq; lia).
    cbn [mbind result_bind]. intros [= <- <-] _.
    unfold check_method. cbn [m_comment m_name m_params].
    destruct (String.eqb (PyStr.strip comment) ""); [reflexivity |].
    fold names. rewrite bool_decide_eq_true_2; [reflexivity |].
    rewrite length_zip_with, length_map, length_take, length_drop, length_app,
      length_drop, length_map, length_seq.
    unfold param in *. lia.
  - rewrite bool_decide_eq_false_2 by exact Hlong. cbn [mbind result_bind].
    rewrite traverse_enum_names by (simpl; lia).
    cbn [mbind result_bind]. intros [= <- <-] Hp. contradiction.
Qed.

Lemma made_up_names_are_reported_witness :
  check_method (Method "void" "libvlc_foo"
                  [("int", "first"); ("char*", "param1")]
                  (line "Do it." +:+ line "\param first the first one"))
  = [ "Docstring comment parameters mismatch for libvlc_foo" ].
Proof.
  apply (made_up_names_are_reported "void" "libvlc_foo"
           (line "Do it." +:+ line "\param first the first one")
           [("int", ""); ("char*", "")]
           [("int", "first"); ("char*", "param1")]
           [ "### Error ###";
             "### Cannot get parameter names from comment for libvlc_foo: "
               +:+ "Do it. \param first the first one " ]).
  - vm_compute. reflexivity.
  - discriminate.
Defined.

(** ** Comments without markup *)

Lemma mem_app (c : ascii) (a b : string) :
  PyStr.mem c (a +:+ b) = PyStr.mem c a || PyStr.mem c b.
Proof.
  induction a as [| x a IH]; [reflexivity |].
  rewrite string_app_cons. cbn [PyStr.mem]. rewrite IH, orb_assoc. reflexivity.
Qed.

Lemma mem_rev (c : ascii) (s : string) : PyStr.mem c (PyStr.rev s) = PyStr.mem c s.
Proof.
  induction s as [| x s IH]; [reflexivity |].
  rewrite rev_cons, mem_app, IH. cbn [PyStr.mem].
  rewrite orb_false_r. apply orb_comm.
Qed.

Lemma mem_lstrip (c : ascii) (s : string) :
  PyStr.mem c s = false -> PyStr.mem c (PyStr.lstrip s) = false.
Proof.
  induction s as [| x s IH]; [reflexivity |]. intros H. cbn [PyStr.lstrip].
  destruct (PyStr.is_space x); [| exact H].
  apply IH. cbn [PyStr.mem] in H. apply orb_false_iff in H as [_ H]. exact H.
Qed.

Lemma mem_strip (c : ascii) (s : string) :
  PyStr.mem c s = false -> PyStr.mem c (PyStr.strip s) = false.
Proof.
  intros H. unfold PyStr.strip, PyStr.rstrip.
  rewrite mem_rev. apply mem_lstrip. rewrite mem_rev. apply mem_lstrip, H.
Qed.

Lemma replace_absent (c : ascii) (old new s : string) :
  PyStr.mem c s = false -> PyStr.replace (String c old) new s = s.
Proof.
  unfold PyStr.replace. induction s as [| x s IH]; [reflexivity |].
  intros H. cbn [PyStr.mem] in H. apply orb_false_iff in H as [Hx H].
  cbn [PyStr.replace_from PyStr.startswith].
  rewrite Ascii.eqb_sym, Hx. cbn [andb]. rewrite IH by exact H. reflexivity.
Qed.

Lemma contains_absent (c : ascii) (sub s : string) :
  PyStr.mem c s = false -> PyStr.contains (String c sub) s = false.
Proof.
  intros H. unfold PyStr.contains.
  enough (E : PyStr.find (String c sub) s = None)
    by (rewrite E; apply bool_decide_eq_false_2; intros [? [=]]).
  induction s as [| x s IH]; [reflexivity |].
  cbn [PyStr.mem] in H. apply orb_false_iff in H as [Hx H].
  cbn [PyStr.find PyStr.startswith]. rewrite Ascii.eqb_sym, Hx. cbn [andb].
  rewrite IH by exact H. reflexivity.
Qed.

Lemma splitlines_on_absent (c : ascii) (s cur : string) :
  PyStr.mem c s = false -> PyStr.mem c cur = false ->
  Forall (fun l => PyStr.mem c l = false) (PyStr.splitlines_on s cur).
Proof.
  assert (Hrev : forall t, PyStr.mem c t = false -> PyStr.mem c (PyStr.rev t) = false)
    by (intros t Ht; rewrite mem_rev; exact Ht).
  revert cur. induction s as [| x s IH]; intros cur Hs Hcur; cbn [PyStr.splitlines_on].
  - destruct cur; [constructor |]. constructor; [apply Hrev, Hcur | constructor].
  - cbn [PyStr.mem] in Hs. apply orb_false_iff in Hs as [Hx Hs].
    destruct (Ascii.eqb x "010").
    { constructor; [apply Hrev, Hcur | apply IH; [exact Hs | reflexivity]]. }
    destruct (Ascii.eqb x "013").
    + destruct s as [| d s']; [constructor; [apply Hrev, Hcur | constructor] |].
      specialize (IH "" Hs eq_refl).
      destruct (Ascii.eqb d "010") eqn:Hd.
      * constructor; [apply Hrev, Hcur |].
        cbn [PyStr.splitlines_on] in IH. rewrite Hd in IH.
        inversion IH; assumption.
      * constructor; [apply Hrev, Hcur | exact IH].
    + apply IH; [exact Hs |]. cbn [PyStr.mem]. rewrite Hx, Hcur. reflexivity.
Qed.

Lemma filter_all {A : Type} (f : A -> bool) (l : list A) :
  Forall (fun x => f x = true) l -> List.filter f l = l.
Proof.
  induction 1 as [| x l Hx _ IH]; [reflexivity |].
  cbn [List.filter]. rewrite Hx, IH. reflexivity.
Qed.

Lemma filter_none {A : Type} (f : A -> bool) (l : list A) :
  Forall (fun x => f x = false) l -> List.filter f l = [].
Proof.
  induction 1 as [| x l Hx _ IH]; [reflexivity |].
  cbn [List.filter]. rewrite Hx, IH. reflexivity.
Qed.

Lemma splitlines_on_nil (s cur : string) :
  PyStr.splitlines_on s cur = [] -> s = "".
Proof.
  revert cur. induction s as [| x s IH]; intros cur; [reflexivity |].
  cbn [PyStr.splitlines_on].
  destruct (Ascii.eqb x "010"); [discriminate |].
  destruct (Ascii.eqb x "013").
  - destruct s as [| d s']; [discriminate |]. destruct (Ascii.eqb d "010"); discriminate.
  - intros H. pose proof (IH _ H) as ->. discriminate H.
Qed.

Lemma last_char_cons (c d : ascii) (s : string) :
  PyStr.last_char (String c (String d s)) = PyStr.last_char (String d s).
Proof. reflexivity. Qed.

Lemma last_char_snoc (s : string) (c : ascii) :
  PyStr.last_char (s +:+ String c "") = Some c.
Proof.
  induction s as [| x s IH]; [reflexivity |].
  rewrite string_app_cons. destruct s as [| y s]; [reflexivity |].
  rewrite string_app_cons, last_char_cons, <- string_app_cons. exact IH.
Qed.

Lemma lstrip_head (s : string) :
  match PyStr.lstrip s with
  | EmptyString => True
  | String c _ => PyStr.is_space c = false
  end.
Proof.
  induction s as [| c s IH]; simpl; [exact I |].
  destruct (PyStr.is_space c) eqn:Hc; [exact IH | exact Hc].
Qed.

Lemma strip_last_char (s : string) :
  match PyStr.last_char (PyStr.strip s) with
  | Some c => PyStr.is_space c = false
  | None => True
  end.
Proof.
  unfold PyStr.strip, PyStr.rstrip.
  pose proof (lstrip_head (PyStr.rev (PyStr.lstrip s))) as H.
  destruct (PyStr.lstrip (PyStr.rev (PyStr.lstrip s))) as [| c t]; [exact I |].
  rewrite rev_cons, last_char_snoc. exact H.
Qed.

Lemma join_splitlines_on (s cur : string) :
  PyStr.mem "013" s = false ->
  PyStr.last_char s <> Some "010"%char ->
  PyStr.join PyStr.nl (PyStr.splitlines_on s cur) = PyStr.rev cur +:+ s.
Proof.
  revert cur. induction s as [| x s IH]; intros cur Hcr Hlast; cbn [PyStr.splitlines_on].
  - destruct cur; [reflexivity |]. cbn [PyStr.join]. rewrite string_app_nil_r. reflexivity.
  - cbn [PyStr.mem] in Hcr. apply orb_false_iff in Hcr as [Hx Hcr].
    assert (Htail : PyStr.last_char s <> Some "010"%char)
      by (destruct s; [discriminate | exact Hlast]).
    destruct (Ascii.eqb_spec x "010") as [-> | Hnl].
    + destruct s as [| d s']; [exfalso; apply Hlast; reflexivity |].
      rewrite join_cons by (intros E; apply splitlines_on_nil in E; discriminate).
      rewrite IH by assumption. reflexivity.
    + rewrite Hx, IH by assumption.
      rewrite rev_cons, string_app_assoc. reflexivity.
Qed.

(** X17: a comment without markup, that is without [@] and backslash,
    and without carriage return goes through [epydoc_comment] unchanged
    but for the white space around it, which is stripped. *)
Theorem plain_comment_is_stripped (comment : string) (fix_first : bool) :
  PyStr.mem "@" comment = false ->
  PyStr.mem "\" comment = false ->
  PyStr.mem "013" comment = false ->
  PythonGenerator.epydoc_comment comment fix_first = Ok (PyStr.strip comment).
Proof.
  intros Hat Hbs Hcr. unfold PythonGenerator.epydoc_comment.
  rewrite (replace_absent "@" "{" "" comment Hat).
  rewrite (replace_absent "\" "ingroup" "" comment Hbs).
  rewrite (replace_absent "@" "see" "See" comment Hat).
  rewrite (replace_absent "\" "see" "See" comment Hbs).
  rewrite (replace_absent "\" "note" "NOTE:" comment Hbs).
  rewrite (replace_absent "\" "warning" "WARNING:" comment Hbs).
  rewrite (replace_absent "\" "param" "@param" comment Hbs).
  rewrite (replace_absent "\" "return" "@return" comment Hbs).
  pose proof (splitlines_on_absent "@" (PyStr.strip comment) ""
                (mem_strip _ _ Hat) eq_refl) as Hlines.
  fold (PyStr.splitlines (PyStr.strip comment)) in Hlines.
  set (lines := PyStr.splitlines (PyStr.strip comment)) in *.
  rewrite (filter_all _ lines), !(filter_none _ lines).
  1: { cbn [traverse List.map mbind result_bind]. rewrite !app_nil_r.
    replace (if fix_first then List.tail [] else []) with (@nil string)
      by (destruct fix_first; reflexivity).
    rewrite app_nil_r. f_equal. unfold lines, PyStr.splitlines.
    rewrite join_splitlines_on.
    + reflexivity.
    + apply mem_strip, Hcr.
    + pose proof (strip_last_char comment) as H. intros E. rewrite E in H.
      discriminate. }
  all: eapply Forall_impl; [exact Hlines |]; intros l Hl; cbv beta;
    rewrite ?(contains_absent "@" "param" l Hl), ?(contains_absent "@" "return" l Hl);
    reflexivity.
Qed.

Lemma plain_comment_is_stripped_witness :
  PythonGenerator.epydoc_comment
    (line "  Create a media player." +:+ line "   It plays one media.  ") true
  = Ok "Create a media player.
   It plays one media.".
Proof.
  apply (plain_comment_is_stripped
           (line "  Create a media player." +:+ line "   It plays one media.  ") true);
    vm_compute; reflexivity.
Defined.

(** ** Declarations over several lines *)

Lemma join_not_empty (sep x : string) (l : list string) :
  x <> "" -> PyStr.join sep (x :: l) <> "".
Proof.
  intros Hx. destruct l as [| y l]; [exact Hx |].
  cbn [PyStr.join]. destruct x; [contradiction |]. rewrite string_app_cons. discriminate.
Qed.

Lemma join_snoc (sep x : string) (l : list string) :
  l <> [] -> PyStr.join sep (l ++ [x]) = PyStr.join sep l +:+ sep +:+ x.
Proof.
  induction l as [| y l IH]; [contradiction |]. intros _.
  destruct l as [| z l]; [reflexivity |].
  change ((y :: z :: l) ++ [x]) with (y :: ((z :: l) ++ [x])).
  rewrite join_cons by discriminate. rewrite IH by discriminate.
  rewrite (join_cons sep y (z :: l)) by discriminate.
  rewrite !string_app_assoc. reflexivity.
Qed.

Lemma startswith_app (p a b : string) :
  PyStr.startswith p a = true -> PyStr.startswith p (a +:+ b) = true.
Proof.
  revert a. induction p as [| c p IH]; intros a H; [reflexivity |].
  destruct a as [| d a]; [discriminate |].
  rewrite string_app_cons. cbn [PyStr.startswith] in *.
  apply andb_true_iff in H as [-> H]. rewrite IH by exact H. reflexivity.
Qed.

Lemma endswith_app (p a b : string) :
  PyStr.endswith p b = true -> PyStr.endswith p (a +:+ b) = true.
Proof.
  unfold PyStr.endswith. intros H. rewrite rev_app. apply startswith_app, H.
Qed.

Lemma api_re_prefix (l : string) :
  PyStr.startswith "VLC_PUBLIC_API" l = false -> Re.match_ api_re l = None.
Proof.
  intros H. unfold Re.match_, Re.at_pos, api_re. cbn [Re.cat foldr Re.run].
  apply lit_none, H.
Qed.

Lemma strip_framed (s : string) :
  PyStr.startswith "VLC_PUBLIC_API" s = true ->
  PyStr.endswith ");" s = true ->
  PyStr.strip s = s.
Proof.
  intros Hs He. unfold PyStr.strip, PyStr.rstrip.
  assert (E : PyStr.lstrip s = s).
  { destruct s as [| c s]; [discriminate |]. cbn [PyStr.startswith] in Hs.
    apply andb_true_iff in Hs as [Hc _]. apply Ascii.eqb_eq in Hc as <-. reflexivity. }
  rewrite E. unfold PyStr.endswith in He.
  assert (E' : PyStr.lstrip (PyStr.rev s) = PyStr.rev s).
  { destruct (PyStr.rev s) as [| c t]; [discriminate |].
    change (PyStr.rev ");") with ";)" in He. cbn [PyStr.startswith] in He.
    apply andb_true_iff in He as [Hc _]. apply Ascii.eqb_eq in Hc as <-. reflexivity. }
  rewrite E'. apply rev_involutive.
Qed.

Lemma framed_not_comment (s : string) :
  PyStr.startswith "VLC_PUBLIC_API" s = true -> is_comment_line s = false.
Proof.
  intros Hs. unfold is_comment_line.
  destruct s as [| c s]; [discriminate |]. cbn [PyStr.startswith] in Hs.
  apply andb_true_iff in Hs as [Hc _]. apply Ascii.eqb_eq in Hc as <-. reflexivity.
Qed.

Section Declarations.
Variable comment : string.

Lemma include_line_opens (l : string) :
  opens_declaration l = true ->
  Parser.include_line (Parser.IncludeState "" comment) l
  = Ok (Parser.IncludeState (PyStr.strip l) comment, None, []).
Proof.
  unfold opens_declaration, is_comment_line, Parser.include_line.
  intros H. apply andb_true_iff in H as [H He]. apply andb_true_iff in H as [Hc Hs].
  apply negb_true_iff, orb_false_iff in Hc as [-> ->].
  cbn [String.eqb negb]. rewrite Hs, He. reflexivity.
Qed.

Lemma include_line_continues (acc l : string) :
  acc <> "" -> continues_declaration l = true ->
  Parser.include_line (Parser.IncludeState acc comment) l
  = Ok (Parser.IncludeState (PyStr.join " " [acc; PyStr.strip l]) comment, None, []).
Proof.
  unfold continues_declaration, is_comment_line, Parser.include_line.
  intros Hacc H. apply andb_true_iff in H as [H Hs]. apply andb_true_iff in H as [Hc He].
  apply negb_true_iff, orb_false_iff in Hc as [-> ->].
  apply negb_true_iff in He, Hs.
  apply String.eqb_neq in Hacc. rewrite Hacc, He. cbn [negb].
  rewrite (api_re_prefix _ Hs). reflexivity.
Qed.

Lemma include_line_closes (acc l : string) :
  acc <> "" -> closes_declaration l = true ->
  PyStr.startswith "VLC_PUBLIC_API" acc = true ->
  Parser.include_line (Parser.IncludeState acc comment) l
  = Parser.include_line (Parser.IncludeState "" comment)
      (PyStr.join " " [acc; PyStr.strip l]).
Proof.
  intros Hacc H Hv.
  assert (Hj : PyStr.startswith "VLC_PUBLIC_API" (PyStr.join " " [acc; PyStr.strip l]) = true)
    by (apply startswith_app, Hv).
  unfold closes_declaration, is_comment_line in H.
  apply andb_true_iff in H as [Hc He].
  apply negb_true_iff, orb_false_iff in Hc as [Hc1 Hc2].
  assert (Hje : PyStr.endswith ");" (PyStr.join " " [acc; PyStr.strip l]) = true).
  { cbn [PyStr.join]. rewrite <- string_app_assoc. apply endswith_app, He. }
  pose proof (framed_not_comment _ Hj) as Hjc. unfold is_comment_line in Hjc.
  apply orb_false_iff in Hjc as [Hj1 Hj2].
  unfold Parser.include_line. rewrite Hc1, Hc2, Hj1, Hj2.
  rewrite (strip_framed _ Hj Hje).
  apply String.eqb_neq in Hacc. rewrite Hacc, He, Hj, Hje. reflexivity.
Qed.

Lemma include_lines_continue (pre : string) (done mids f : list string) :
  pre <> "" -> Forall (fun l => continues_declaration l = true) mids ->
  Parser.include_lines (Parser.IncludeState (PyStr.join " " (pre :: done)) comment)
    (mids ++ f)
  = Parser.include_lines
      (Parser.IncludeState (PyStr.join " " (pre :: done ++ List.map PyStr.strip mids))
         comment) f.
Proof.
  intros Hpre H. revert done. induction H as [| l mids Hl _ IH]; intros done.
  - rewrite app_nil_r. reflexivity.
  - change ((l :: mids) ++ f) with (l :: (mids ++ f)). cbn [Parser.include_lines].
    rewrite include_line_continues by (auto using join_not_empty).
    cbn [mbind result_bind].
    replace (PyStr.join " " [PyStr.join " " (pre :: done); PyStr.strip l])
      with (PyStr.join " " (pre :: (done ++ [PyStr.strip l])))
      by (apply (join_snoc " " (PyStr.strip l) (pre :: done)); discriminate).
    rewrite IH. cbn [List.map]. rewrite <- app_assoc.
    destruct (Parser.include_lines _ f) as [[ms pr] | e]; reflexivity.
Qed.

End Declarations.

(** X18: a declaration written over several lines is read as the same
    declaration on one line, the lines stripped and joined by single
    spaces: the first line begins with VLC_PUBLIC_API and, like the
    lines that follow, does not end the declaration; the last one ends
    with a closing parenthesis and a semicolon; none of them is taken
    for a comment line. *)
Theorem declaration_over_several_lines (comment first last : string)
    (mids rest : list string) :
  opens_declaration first = true ->
  Forall (fun l => continues_declaration l = true) mids ->
  closes_declaration last = true ->
  Parser.include_lines (Parser.IncludeState "" comment) (first :: mids ++ last :: rest)
  = Parser.include_lines (Parser.IncludeState "" comment)
      (on_one_line (first :: mids ++ [last]) :: rest).
Proof.
  intros Hfirst Hmids Hlast.
  assert (Hv : PyStr.startswith "VLC_PUBLIC_API" (PyStr.strip first) = true).
  { unfold opens_declaration in Hfirst.
    apply andb_true_iff in Hfirst as [H _]. apply andb_true_iff in H as [_ H]. exact H. }
  assert (Hne : PyStr.strip first <> "") by (intros E; rewrite E in Hv; discriminate).
  cbn [Parser.include_lines]. rewrite include_line_opens by exact Hfirst.
  cbn [mbind result_bind].
  pose proof (include_lines_continue comment (PyStr.strip first) [] mids (last :: rest)
                Hne Hmids) as E.
  cbn [app] in E. change (PyStr.join " " [PyStr.strip first]) with (PyStr.strip first) in E.
  rewrite E. clear E.
  cbn [Parser.include_lines].
  set (acc := PyStr.join " " (PyStr.strip first :: List.map PyStr.strip mids)).
  assert (Hacc : PyStr.startswith "VLC_PUBLIC_API" acc = true).
  { unfold acc. destruct (List.map PyStr.strip mids) as [| x l]; [exact Hv |].
    cbn [PyStr.join]. apply startswith_app, Hv. }
  rewrite (include_line_closes comment acc last)
    by (auto; intros E; rewrite E in Hacc; discriminate).
  replace (on_one_line (first :: mids ++ [last]))
    with (PyStr.join " " [acc; PyStr.strip last]).
  - destruct (Parser.include_line _ _) as [[[st y] pr] | e]; [| reflexivity].
    cbn [mbind result_bind].
    destruct (Parser.include_lines st rest) as [[ms pr'] | e]; reflexivity.
  - unfold on_one_line, acc. cbn [List.map]. rewrite map_app. cbn [List.map].
    symmetry. apply (join_snoc " " (PyStr.strip last)
                       (PyStr.strip first :: List.map PyStr.strip mids)).
    discriminate.
Qed.

Lemma declaration_over_several_lines_witness :
  Parser.include_lines (Parser.IncludeState "" "Play.")
    (line "VLC_PUBLIC_API int libvlc_media_player_play ("
     :: [line "    libvlc_media_player_t *p_mi,"]
     ++ line "    libvlc_exception_t *p_e );" :: [line "/** Stop. */"])
  = Parser.include_lines (Parser.IncludeState "" "Play.")
      (on_one_line
         (line "VLC_PUBLIC_API int libvlc_media_player_play ("
          :: [line "    libvlc_media_player_t *p_mi,"]
          ++ [line "    libvlc_exception_t *p_e );"])
       :: [line "/** Stop. */"]).
Proof.
  apply (declaration_over_several_lines "Play."
           (line "VLC_PUBLIC_API int libvlc_media_player_play (")
           (line "    libvlc_exception_t *p_e );")
           [line "    libvlc_media_player_t *p_mi,"] [line "/** Stop. */"]).
  - vm_compute. reflexivity.
  - repeat constructor.
  - vm_compute. reflexivity.
Defined.

(** ** Comment blocks *)

Lemma include_lines_comment_body (acc c0 : string) (body f : list string) :
  Forall (fun l => PyStr.startswith " * " l = true) body ->
  Parser.include_lines (Parser.IncludeState acc c0) (body ++ f)
  = Parser.include_lines
      (Parser.IncludeState acc (c0 +:+ String.concat "" (List.map (PyStr.drop 3) body))) f.
Proof.
  intros H. revert c0. induction H as [| l body Hl _ IH]; intros c0.
  - cbn [List.map String.concat app]. rewrite string_app_nil_r. reflexivity.
  - change ((l :: body) ++ f) with (l :: (body ++ f)). cbn [Parser.include_lines].
    assert (E : Parser.include_line (Parser.IncludeState acc c0) l
                = Ok (Parser.IncludeState acc (c0 +:+ PyStr.drop 3 l), None, [])).
    { unfold Parser.include_line. rewrite Hl.
      destruct l as [| a l]; [discriminate |]. cbn [PyStr.startswith] in Hl.
      apply andb_true_iff in Hl as [Ha Hl]. apply Ascii.eqb_eq in Ha as <-.
      destruct l as [| b l]; [discriminate |]. cbn [PyStr.startswith] in Hl.
      apply andb_true_iff in Hl as [Hb Hl]. apply Ascii.eqb_eq in Hb as <-.
      reflexivity. }
    rewrite E. cbn [mbind result_bind]. rewrite IH.
    replace ((c0 +:+ PyStr.drop 3 l) +:+ String.concat "" (List.map (PyStr.drop 3) body))
      with (c0 +:+ String.concat "" (List.map (PyStr.drop 3) (l :: body))).
    + destruct (Parser.include_lines _ f) as [[ms pr] | e]; reflexivity.
    + rewrite string_app_assoc. f_equal. cbn [List.map].
      destruct (List.map (PyStr.drop 3) body); [| reflexivity].
      cbn [String.concat]. rewrite string_app_nil_r. reflexivity.
Qed.

(** X19: after a line that opens a comment, the lines that begin with
    blank, star, blank make up the comment of the next declaration: each
    without these three characters, one after the other, whatever the
    comment was before. *)
Theorem comment_block_is_collected (acc c0 opening : string) (body f : list string) :
  PyStr.startswith "/**" (PyStr.lstrip opening) = true ->
  Forall (fun l => PyStr.startswith " * " l = true) body ->
  Parser.include_lines (Parser.IncludeState acc c0) (opening :: body ++ f)
  = Parser.include_lines
      (Parser.IncludeState acc (String.concat "" (List.map (PyStr.drop 3) body))) f.
Proof.
  intros Ho Hb. cbn [Parser.include_lines].
  unfold Parser.include_line at 1. rewrite Ho. cbn [mbind result_bind].
  rewrite (include_lines_comment_body acc "" body f Hb).
  change ("" +:+ String.concat "" (List.map (PyStr.drop 3) body))
    with (String.concat "" (List.map (PyStr.drop 3) body)).
  destruct (Parser.include_lines _ f) as [[ms pr] | e]; reflexivity.
Qed.

Lemma comment_block_is_collected_witness :
  Parser.include_lines (Parser.IncludeState "" "Old.")
    (line "/**"
     :: [line " * Stop the player."; line " * \param p_mi the player"]
     ++ [line " */"; line "VLC_PUBLIC_API void libvlc_media_player_stop ( libvlc_media_player_t * );"])
  = Parser.include_lines
      (Parser.IncludeState ""
         (String.concat ""
            (List.map (PyStr.drop 3)
               [line " * Stop the player."; line " * \param p_mi the player"])))
      [line " */"; line "VLC_PUBLIC_API void libvlc_media_player_stop ( libvlc_media_player_t * );"].
Proof.
  apply (comment_block_is_collected "" "Old." (line "/**")
           [line " * Stop the player."; line " * \param p_mi the player"]).
  - vm_compute. reflexivity.
  - repeat constructor.
Defined.
